(** * RealEstateGrid: the record normalisation pipeline

    A shallow embedding of [data-loader.js] (the three adapters
    [processCSVRecords], [processDatabaseRecords], [validateAndProcessData])
    and of [data-processor.js] ([convertROCtoAD], [geocodeAddress],
    [processRealEstateData]), followed by the properties of the pipeline.

    Conventions of the embedding.
    - A JavaScript number is an IEEE-754 binary64 value, [spec_float] at
      precision 53 and maximal exponent 1024, with the operations of
      [SpecFloat]; decimal literals and parsed digits are rounded to the
      nearest double, also beyond the twenty significant digits up to which
      the language requires it.
    - A JavaScript string is a Rocq [string] holding its UTF-8 bytes.  The
      code only indexes strings where the text is known to be ASCII
      ([substring(0, 7)] after a digit pattern matched, [padStart] on a run of
      digits), so byte positions and UTF-16 positions agree there.
    - An object is the list of its own properties, first binding first, and
      a property read finds own properties only.  The members an object
      inherits from [Object.prototype] are not modelled:
      [Spec.inheritedNames] lists their names, and [Spec.ownKeys] says of an
      alias list that it avoids them.  Turning an object into text is
      modelled for objects without a [toString] or [valueOf] key of their
      own; [Spec.scalarRow] says of a row that it holds no object at all.
    - [try { ... } catch] is an error monad: a row either finishes or throws,
      and the loop turns a throw into a skip. *)

From Stdlib Require Import ZArith List String Ascii Bool Lia DecimalString.
From Stdlib Require Import Floats.SpecFloat.
Import ListNotations.
Local Open Scope string_scope.

(** ** Numbers *)

Module Number.

Definition prec : Z := 53.
Definition emax : Z := 1024.

Definition number : Type := spec_float.

Definition NaN : number := S754_nan.
Definition Infinity : number := S754_infinity false.
Definition zero : number := S754_zero false.

(** The double nearest to [m * 10 ^ e], with sign [neg]. *)
Definition ofDecimal (neg : bool) (m : N) (e : Z) : number :=
  match m with
  | N0 => S754_zero neg
  | Npos p =>
      match e with
      | Z0 => binary_round prec emax neg p 0
      | Zpos k => binary_round prec emax neg (p * Pos.pow 10 k) 0
      | Zneg k =>
          SFdiv prec emax (S754_finite neg p 0)
                (S754_finite false (Pos.pow 10 k) 0)
      end
  end.

Definition ofZ (z : Z) : number := binary_normalize prec emax z 0 false.

Definition add : number -> number -> number := SFadd prec emax.
Definition sub : number -> number -> number := SFsub prec emax.
Definition mul : number -> number -> number := SFmul prec emax.
Definition div : number -> number -> number := SFdiv prec emax.

(** [x < y], [x > y], [x <= y] of JavaScript: false as soon as one side is NaN. *)
Definition lt (x y : number) : bool := SFltb x y.
Definition gt (x y : number) : bool := SFltb y x.
Definition le (x y : number) : bool := SFleb x y.

Definition isNaN (x : number) : bool :=
  match x with S754_nan => true | _ => false end.

Definition isFinite (x : number) : bool :=
  match x with S754_zero _ | S754_finite _ _ _ => true | _ => false end.

Definition isZero (x : number) : bool :=
  match x with S754_zero _ => true | _ => false end.

(** ToBoolean on a number: [+0], [-0] and NaN are falsy. *)
Definition toBoolean (x : number) : bool :=
  match x with S754_zero _ | S754_nan => false | _ => true end.

(** [x || 0] on numbers. *)
Definition orZero (x : number) : number := if toBoolean x then x else zero.

(** Rank of a number in the order that [SFcompare] decides: class first
    (minus infinity, negative, zero, positive, plus infinity), then exponent,
    then mantissa, the last two reversed for negative numbers. *)
Definition rank (x : number) : Z * (Z * Z) :=
  match x with
  | S754_nan => (0, (0, 0))
  | S754_zero _ => (0, (0, 0))
  | S754_infinity true => (-2, (0, 0))
  | S754_infinity false => (2, (0, 0))
  | S754_finite true m e => (-1, (- e, - Zpos m))
  | S754_finite false m e => (1, (e, Zpos m))
  end%Z.

Definition lex3 (a b : Z * (Z * Z)) : comparison :=
  match Z.compare (fst a) (fst b) with
  | Eq =>
      match Z.compare (fst (snd a)) (fst (snd b)) with
      | Eq => Z.compare (snd (snd a)) (snd (snd b))
      | c => c
      end
  | c => c
  end.

(** *** Number::toString, radix 10 *)

(** The positive finite double [m * 2 ^ e] as a fraction. *)
Definition fraction (m : positive) (e : Z) : Z * Z :=
  match e with
  | Zneg k => (Zpos m, Zpos (Pos.pow 2 k))
  | _ => (Zpos m * 2 ^ e, 1)
  end%Z.

(** The least [n] from the given one on, within [fuel] steps, with
    [num / den < 10 ^ n].  A double lies between [10 ^ (-324)] and
    [10 ^ 309], so 640 steps from [-324] always reach it. *)
Fixpoint decimalExponent (fuel : nat) (n : Z) (num den : Z) : Z :=
  match fuel with
  | O => n
  | S fuel' =>
      let below :=
        match n with
        | Zneg k => (num * Zpos (Pos.pow 10 k) <? den)%Z
        | _ => (num <? den * 10 ^ n)%Z
        end in
      if below then n else decimalExponent fuel' (n + 1)%Z num den
  end.

(** [floor (num / den * 10 ^ sh)] and whether the division was exact. *)
Definition scaled (num den sh : Z) : Z * bool :=
  let '(a, b) :=
    match sh with
    | Zneg k => (num, den * Zpos (Pos.pow 10 k))
    | _ => (num * 10 ^ sh, den)
    end%Z in
  ((a / b)%Z, (a mod b =? 0)%Z).

(** Twice the distance of [s * 10 ^ (- sh)] to [num / den], scaled by the
    common denominator, for choosing the closer candidate. *)
Definition distance (num den sh s : Z) : Z :=
  match sh with
  | Zneg k => Z.abs (s * den * Zpos (Pos.pow 10 k) - num)
  | _ => Z.abs (s * den - num * 10 ^ sh)
  end%Z.

(** Digits [s] of length [k] and exponent [n] with [k] minimal such that
    [s * 10 ^ (n - k)] rounds back to [x]; among several [s] the closest.
    Seventeen digits always round back, so the search ends within its fuel. *)
Fixpoint shortest (fuel : nat) (k : Z) (x : number) (num den n : Z) : Z * Z * Z :=
  let sh := (k - n)%Z in
  let '(lo, exact) := scaled num den sh in
  let hi := if exact then lo else (lo + 1)%Z in
  let back (s : Z) := SFeqb (ofDecimal false (Z.to_N s) (- sh)) x in
  let oklo := andb (10 ^ (k - 1) <=? lo)%Z (back lo) in
  let okhi := back hi in
  let pick :=
    if andb oklo okhi
    then match (distance num den sh lo ?= distance num den sh hi)%Z with
         | Lt => Some lo
         | Gt => Some hi
         | Eq => if Z.even lo then Some lo else Some hi
         end
    else if oklo then Some lo else if okhi then Some hi else None in
  match pick, fuel with
  | Some s, _ =>
      if (s =? 10 ^ k)%Z then ((10 ^ (k - 1))%Z, k, (n + 1)%Z) else (s, k, n)
  | None, O => (lo, k, n)
  | None, S fuel' => shortest fuel' (k + 1)%Z x num den n
  end.

Definition digitsOf (z : Z) : string := NilZero.string_of_uint (N.to_uint (Z.to_N z)).

Fixpoint zeros (n : nat) : string :=
  match n with O => "" | S n' => String "0" (zeros n') end.

Definition formatDigits (s k n : Z) : string :=
  let d := digitsOf s in
  if andb (k <=? n)%Z (n <=? 21)%Z then d ++ zeros (Z.to_nat (n - k))
  else if andb (0 <? n)%Z (n <=? 21)%Z then
    substring 0 (Z.to_nat n) d ++ "." ++ substring (Z.to_nat n) (Z.to_nat (k - n)) d
  else if andb (-6 <? n)%Z (n <=? 0)%Z then "0." ++ zeros (Z.to_nat (- n)) ++ d
  else
    let e := (n - 1)%Z in
    let ex := (if (e <? 0)%Z then "-" else "+") ++ digitsOf (Z.abs e) in
    if (k =? 1)%Z then d ++ "e" ++ ex
    else substring 0 1 d ++ "." ++ substring 1 (Z.to_nat (k - 1)) d ++ "e" ++ ex.

Definition toString (x : number) : string :=
  match x with
  | S754_nan => "NaN"
  | S754_zero _ => "0"
  | S754_infinity false => "Infinity"
  | S754_infinity true => "-Infinity"
  | S754_finite neg m e =>
      let '(num, den) := fraction m e in
      let n := decimalExponent 640 (-324) num den in
      let '(s, k, n') := shortest 20 1 (S754_finite false m e) num den n in
      (if neg then "-" else "") ++ formatDigits s k n'
  end.

End Number.

(** ** Strings *)

Module Text.

Import Number.

Definition isDigit (c : ascii) : bool :=
  let n := N_of_ascii c in andb (48 <=? n)%N (n <=? 57)%N.

Definition digitValue (c : ascii) : N := (N_of_ascii c - 48)%N.

(** The longest run of decimal digits at the start of [s], and what follows. *)
Fixpoint spanDigits (s : string) : string * string :=
  match s with
  | String c r =>
      if isDigit c then let '(d, t) := spanDigits r in (String c d, t) else ("", s)
  | "" => ("", "")
  end.

Fixpoint digitsValue (acc : N) (s : string) : N :=
  match s with
  | "" => acc
  | String c r => digitsValue (acc * 10 + digitValue c)%N r
  end.

(** [Some rest] when [s] is [p ++ rest]. *)
Fixpoint dropPrefix (p s : string) : option string :=
  match p, s with
  | "", _ => Some s
  | String a p', String b s' => if Ascii.eqb a b then dropPrefix p' s' else None
  | String _ _, "" => None
  end.

(** [s.includes(needle)]. *)
Fixpoint includes (needle s : string) : bool :=
  match dropPrefix needle s with
  | Some _ => true
  | None => match s with "" => false | String _ r => includes needle r end
  end.

(** WhiteSpace and LineTerminator code points, by their UTF-8 bytes:
    U+0009..U+000D and U+0020 (one byte), U+00A0 (two bytes), U+1680,
    U+2000..U+200A, U+2028, U+2029, U+202F, U+205F, U+3000 and U+FEFF (three
    bytes). *)
Definition isSpace1 (a : ascii) : bool :=
  let n := N_of_ascii a in (((9 <=? n) && (n <=? 13)) || (n =? 32))%N%bool.

Definition isSpace2 (a b : ascii) : bool :=
  andb (N_of_ascii a =? 194)%N (N_of_ascii b =? 160)%N.

Definition isSpace3 (a b c : ascii) : bool :=
  let x := N_of_ascii a in
  let y := N_of_ascii b in
  let z := N_of_ascii c in
  (((x =? 225) && (y =? 154) && (z =? 128))
   || ((x =? 226) && (y =? 128)
       && (((128 <=? z) && (z <=? 138)) || (z =? 168) || (z =? 169) || (z =? 175)))
   || ((x =? 226) && (y =? 129) && (z =? 159))
   || ((x =? 227) && (y =? 128) && (z =? 128))
   || ((x =? 239) && (y =? 187) && (z =? 191)))%N%bool.

(** TrimString(s, start). *)
Fixpoint trimStart (s : string) : string :=
  match s with
  | "" => ""
  | String a r =>
      if isSpace1 a then trimStart r
      else
        match r with
        | String b r2 =>
            if isSpace2 a b then trimStart r2
            else
              match r2 with
              | String c r3 => if isSpace3 a b c then trimStart r3 else s
              | "" => s
              end
        | "" => s
        end
  end.

Definition isBlank (s : string) : bool :=
  match trimStart s with "" => true | _ => false end.

(** *** Numeric literals in strings *)

Inductive literal :=
| LitInfinity (neg : bool)
| LitDecimal (neg : bool) (m : N) (e : Z).

Definition literalValue (l : literal) : number :=
  match l with
  | LitInfinity neg => S754_infinity neg
  | LitDecimal neg m e => ofDecimal neg m e
  end.

(** ExponentPart at the start of [s], when there is a complete one. *)
Definition exponentPart (s : string) : Z * string :=
  match s with
  | String c r =>
      if orb (Ascii.eqb c "e") (Ascii.eqb c "E") then
        let '(neg, r1) :=
          match r with
          | String "+" t => (false, t)
          | String "-" t => (true, t)
          | _ => (false, r)
          end in
        let '(d, r2) := spanDigits r1 in
        match d with
        | "" => (0%Z, s)
        | _ => let v := Z.of_N (digitsValue 0 d) in ((if neg then - v else v)%Z, r2)
        end
      else (0%Z, s)
  | "" => (0%Z, s)
  end.

(** The longest StrUnsignedDecimalLiteral at the start of [s]. *)
Definition unsignedLiteral (neg : bool) (s : string) : option (literal * string) :=
  match dropPrefix "Infinity" s with
  | Some r => Some (LitInfinity neg, r)
  | None =>
      let '(i, r1) := spanDigits s in
      match r1 with
      | String "." r2 =>
          let '(f, r3) := spanDigits r2 in
          match i, f with
          | "", "" => None
          | _, _ =>
              let '(e, r4) := exponentPart r3 in
              Some (LitDecimal neg (digitsValue 0 (i ++ f)) (e - Z.of_nat (length f)), r4)
          end
      | _ =>
          match i with
          | "" => None
          | _ => let '(e, r4) := exponentPart r1 in Some (LitDecimal neg (digitsValue 0 i) e, r4)
          end
      end
  end.

(** The longest StrDecimalLiteral at the start of [s]. *)
Definition decimalLiteral (s : string) : option (literal * string) :=
  match s with
  | String "+" r => unsignedLiteral false r
  | String "-" r => unsignedLiteral true r
  | _ => unsignedLiteral false s
  end.

(** [parseFloat] on a string. *)
Definition parseFloatString (s : string) : number :=
  match decimalLiteral (trimStart s) with
  | Some (l, _) => literalValue l
  | None => NaN
  end.

Definition radixDigit (radix : N) (c : ascii) : option N :=
  let n := N_of_ascii c in
  let v :=
    (if (48 <=? n) && (n <=? 57) then Some (n - 48)
     else if (97 <=? n) && (n <=? 102) then Some (n - 87)
     else if (65 <=? n) && (n <=? 70) then Some (n - 55)
     else None)%N%bool in
  match v with
  | Some d => if (d <? radix)%N then Some d else None
  | None => None
  end.

(** Digits of the given radix at the start of [s]: value, count, rest. *)
Fixpoint spanRadix (radix : N) (acc : N) (count : nat) (s : string) : N * nat * string :=
  match s with
  | String c r =>
      match radixDigit radix c with
      | Some d => spanRadix radix (acc * radix + d)%N (S count) r
      | None => (acc, count, s)
      end
  | "" => (acc, count, s)
  end.

(** NonDecimalIntegerLiteral: [0x], [0o], [0b] forms, unsigned. *)
Definition nonDecimalLiteral (s : string) : option (N * string) :=
  match s with
  | String "0" (String c r) =>
      let radix :=
        if orb (Ascii.eqb c "x") (Ascii.eqb c "X") then Some 16%N
        else if orb (Ascii.eqb c "o") (Ascii.eqb c "O") then Some 8%N
        else if orb (Ascii.eqb c "b") (Ascii.eqb c "B") then Some 2%N
        else None in
      match radix with
      | Some rx =>
          match spanRadix rx 0 0 r with
          | (_, O, _) => None
          | (v, S _, rest) => Some (v, rest)
          end
      | None => None
      end
  | _ => None
  end.

(** StringToNumber: the whole string, trimmed, must be a numeric literal. *)
Definition stringToNumber (s : string) : number :=
  let t := trimStart s in
  match t with
  | "" => zero
  | _ =>
      match nonDecimalLiteral t with
      | Some (v, rest) => if isBlank rest then ofDecimal false v 0 else NaN
      | None =>
          match decimalLiteral t with
          | Some (l, rest) => if isBlank rest then literalValue l else NaN
          | None => NaN
          end
      end
  end.

(** *** The three date patterns *)

(** [/(\d+)年(\d+)月/] anchored at the start of [s]: both groups. *)
Definition longAt (s : string) : option (string * string) :=
  let '(y, r1) := spanDigits s in
  match y with
  | "" => None
  | _ =>
      match dropPrefix "年" r1 with
      | None => None
      | Some r2 =>
          let '(m, r3) := spanDigits r2 in
          match m with
          | "" => None
          | _ => match dropPrefix "月" r3 with Some _ => Some (y, m) | None => None end
          end
      end
  end.

(** [s.match(/(\d+)年(\d+)月/)]: the leftmost match. *)
Fixpoint matchLong (s : string) : option (string * string) :=
  match longAt s with
  | Some g => Some g
  | None => match s with "" => None | String _ r => matchLong r end
  end.

(** [/(\d{3})(\d{2})/] anchored at the start of [s]. *)
Definition compactAt (s : string) : option (string * string) :=
  match s with
  | String a (String b (String c (String d (String e _)))) =>
      if isDigit a && isDigit b && isDigit c && isDigit d && isDigit e
      then Some (String a (String b (String c "")), String d (String e ""))
      else None
  | _ => None
  end.

(** [s.match(/(\d{3})(\d{2})/)]: the leftmost match. *)
Fixpoint matchCompact (s : string) : option (string * string) :=
  match compactAt s with
  | Some g => Some g
  | None => match s with "" => None | String _ r => matchCompact r end
  end.

(** [s.match(/^\d{4}-\d{2}/)] as a test. *)
Definition matchGregorian (s : string) : bool :=
  match s with
  | String a (String b (String c (String d (String h (String e (String f _)))))) =>
      isDigit a && isDigit b && isDigit c && isDigit d && Ascii.eqb h "-"
      && isDigit e && isDigit f
  | _ => false
  end.

(** [s.padStart(2, '0')]. *)
Definition padStart2 (s : string) : string := zeros (2 - length s) ++ s.

End Text.

(** ** Values, exceptions and the output record *)

Module JS.

Import Number Text.

(** What a parsed CSV line, a JSON document or a database row can hold. *)
#[warnings="-register-all"]
Inductive value :=
| Undefined
| Null
| Bool (b : bool)
| Num (n : number)
| Str (s : string)
| Arr (items : list value)
| Obj (props : list (string * value)).

(** A computation that may raise (a TypeError here: a property read on
    [null] or [undefined], or a call of something that is not a function). *)
Inductive result (A : Type) :=
| Ok (a : A)
| Throw.

Arguments Ok {A} a.
Arguments Throw {A}.

Definition bind {A B : Type} (r : result A) (k : A -> result B) : result B :=
  match r with
  | Ok a => k a
  | Throw => Throw
  end.

Notation "'do' x <- e ; k" := (bind e (fun x => k))
  (at level 10, x name, e at level 100, k at level 200).

Definition toBoolean (v : value) : bool :=
  match v with
  | Undefined | Null => false
  | Bool b => b
  | Num n => Number.toBoolean n
  | Str s => match s with "" => false | _ => true end
  | Arr _ | Obj _ => true
  end.

(** ToString; an array joins its elements with commas, [null] and
    [undefined] elements giving the empty string. *)
Fixpoint toString (v : value) : string :=
  match v with
  | Undefined => "undefined"
  | Null => "null"
  | Bool true => "true"
  | Bool false => "false"
  | Num n => Number.toString n
  | Str s => s
  | Arr items =>
      (fix join (l : list value) : string :=
         match l with
         | [] => ""
         | x :: r =>
             let sx := match x with Undefined | Null => "" | _ => toString x end in
             match r with
             | [] => sx
             | _ :: _ => sx ++ "," ++ join r
             end
         end) items
  | Obj _ => "[object Object]"
  end.

(** The global [parseFloat]: ToString, then the longest literal prefix. *)
Definition parseFloat (v : value) : number := parseFloatString (toString v).

(** ToNumber; arrays and objects go through their string form. *)
Definition toNumber (v : value) : number :=
  match v with
  | Undefined => NaN
  | Null => zero
  | Bool true => ofZ 1
  | Bool false => zero
  | Num n => n
  | Str s => stringToNumber s
  | Arr _ | Obj _ => stringToNumber (toString v)
  end.

(** [v < n] and [v > n] for a number [n]. *)
Definition ltNumber (v : value) (n : number) : bool := Number.lt (toNumber v) n.
Definition gtNumber (v : value) (n : number) : bool := Number.gt (toNumber v) n.

(** SameValueZero; two arrays or objects met in a row and in the options
    are never the same reference. *)
Definition sameValueZero (a b : value) : bool :=
  match a, b with
  | Undefined, Undefined => true
  | Null, Null => true
  | Bool x, Bool y => Bool.eqb x y
  | Num x, Num y => orb (andb (isNaN x) (isNaN y)) (SFeqb x y)
  | Str x, Str y => String.eqb x y
  | _, _ => false
  end.

(** [list.includes(v)]. *)
Definition arrayIncludes (l : list value) (v : value) : bool :=
  existsb (sameValueZero v) l.

Fixpoint lookup (props : list (string * value)) (name : string) : value :=
  match props with
  | [] => Undefined
  | (k, v) :: rest => if String.eqb k name then v else lookup rest name
  end.

(** [v[name]] and [v.name]: a TypeError on [null] and [undefined], the own
    property of an object, and [undefined] elsewhere (the names read by the
    pipeline are no members of a number, a boolean, a string or an array). *)
Definition get (v : value) (name : string) : result value :=
  match v with
  | Undefined | Null => Throw
  | Obj props => Ok (lookup props name)
  | _ => Ok Undefined
  end.

(** [a || b]. *)
Definition or (a b : value) : value := if toBoolean a then a else b.

(** The canonical transaction record pushed on [processedData]. *)
Record transaction := {
  position : value;
  price : value;
  yearMonth : value;
  area : value;
  address : value;
  buildingType : value;
  totalPrice : value
}.

(** How the body of the loop ends for one row: [push] or [skipped++; continue]. *)
Inductive outcome :=
| Emit (t : transaction)
| Skip.

(** [processedData] and [skipped] of a run.  The code returns the first and
    logs the second; both are kept, to state the counts. *)
Record run := {
  processedData : list transaction;
  skipped : nat
}.

Definition start : run := {| processedData := []; skipped := 0 |}.

(** One turn of [for (...) { try { ... } catch (error) { skipped++ } }]. *)
Definition step (st : run) (r : result outcome) : run :=
  match r with
  | Ok (Emit t) => {| processedData := processedData st ++ [t]; skipped := skipped st |}
  | Ok Skip => {| processedData := processedData st; skipped := S (skipped st) |}
  | Throw => {| processedData := processedData st; skipped := S (skipped st) |}
  end.

Definition loop (body : value -> result outcome) (records : list value) : run :=
  fold_left (fun st record => step st (body record)) records start.

End JS.

(** ** data-processor.js *)

Module DataProcessor.

Import Number Text JS.

(** [parseInt(digits) + 1911] printed by the template literal. *)
Definition adYear (digits : string) : string :=
  Number.toString (add (ofDecimal false (digitsValue 0 digits) 0) (ofZ 1911)).

Definition convertROCtoAD (rocDate : value) : result value :=
  match rocDate with
  | Str s =>
      match matchLong s with
      | Some (y, m) => Ok (Str (adYear y ++ "-" ++ padStart2 m))
      | None =>
          match matchCompact s with
          | Some (y, m) => Ok (Str (adYear y ++ "-" ++ m))
          | None => Ok Null
          end
      end
  | _ => Throw
  end.

(** [Math.random] is the sequence [random] of the values it returns, with
    the number of draws made so far as state. *)
Definition geocodeAddress (random : nat -> number) (drawn : nat)
  : (number * number) * nat :=
  let lat :=
    add (ofDecimal false 250330 (-4))
        (mul (sub (random drawn) (ofDecimal false 5 (-1))) (ofDecimal false 1 (-1))) in
  let lng :=
    add (ofDecimal false 1215654 (-4))
        (mul (sub (random (S drawn)) (ofDecimal false 5 (-1))) (ofDecimal false 1 (-1))) in
  ((lat, lng), S (S drawn)).

Module Options.
Record t := {
  minPrice : option number;
  maxPrice : option number;
  buildingTypes : option (list value)
}.
End Options.

Definition orDefault {A : Type} (o : option A) (d : A) : A :=
  match o with Some a => a | None => d end.

(** Step 2 of [processRealEstateData]: the unit price, read or computed. *)
Definition derivePrice (record : value) : result number :=
  do p1 <- get record "單價元平方公尺";
  do p2 <- get record "單價";
  let unitPrice :=
    if Number.toBoolean (parseFloat p1) then parseFloat p1 else parseFloat p2 in
  if negb (Number.toBoolean unitPrice) then
    do t1 <- get record "總價元";
    do t2 <- get record "交易價格";
    let totalPrice := orZero (parseFloat (or t1 t2)) in
    do a1 <- get record "建物移轉總面積坪";
    do a2 <- get record "土地移轉總面積坪";
    let area := orZero (parseFloat (or a1 a2)) in
    if andb (gt totalPrice zero) (gt area zero) then Ok (div totalPrice area)
    else Ok unitPrice
  else Ok unitPrice.

(** Step 5 of [processRealEstateData]: the address, joined from its parts. *)
Definition joinAddress (record : value) : result string :=
  do county <- get record "縣市";
  do town <- get record "鄉鎮市區";
  do target <- get record "交易標的";
  do door <- get record "土地位置建物門牌";
  Ok (String.concat "" (map toString (filter toBoolean [county; town; or target door]))).

(** Step 6 of [processRealEstateData]: the coordinates (latitude first), read
    from the record or asked of [geocodeAddress]. *)
Definition locate (random : nat -> number) (drawn : nat) (record : value)
  : result ((number * number) * nat) :=
  do lat <- get record "緯度";
  do lng <- get record "經度";
  if toBoolean lat && toBoolean lng then Ok ((parseFloat lat, parseFloat lng), drawn)
  else Ok (geocodeAddress random drawn).

(** The body of the loop of [processRealEstateData] for one record, with the
    number of draws made before and after it.  In [a || b] both property
    reads are bound before the choice: on one record they raise together or
    not at all. *)
Definition processRecord (minPrice maxPrice : number) (buildingTypes : list value)
    (random : nat -> number) (drawn : nat) (record : value)
  : result outcome * nat :=
  let body : result (outcome * nat) :=
    do d1 <- get record "交易年月";
    do d2 <- get record "交易年月日";
    do yearMonth <- convertROCtoAD (or d1 d2);
    if negb (toBoolean yearMonth) then Ok (Skip, drawn) else
    do unitPrice <- derivePrice record;
    if negb (Number.toBoolean unitPrice) || lt unitPrice minPrice || gt unitPrice maxPrice
    then Ok (Skip, drawn) else
    do b1 <- get record "建物型態";
    do b2 <- get record "建物現況格局-建物型態";
    let buildingType := or b1 b2 in
    if (0 <? List.length buildingTypes)%nat && negb (arrayIncludes buildingTypes buildingType)
    then Ok (Skip, drawn) else
    do address <- joinAddress record;
    do found <- locate random drawn record;
    let '(coords, drawn') := found in
    do a <- get record "建物移轉總面積坪";
    do t <- get record "總價元";
    Ok (Emit {| position := Arr [Num (snd coords); Num (fst coords)];
                price := Num unitPrice;
                yearMonth := yearMonth;
                area := Num (orZero (parseFloat a));
                address := Str address;
                buildingType := buildingType;
                totalPrice := Num (orZero (parseFloat t)) |}, drawn') in
  match body with
  | Ok (o, drawn') => (Ok o, drawn')
  | Throw => (Throw, drawn)
  end.

(** The loop of [processRealEstateData] over the parsed records; the file
    reads and writes around it are left out.  The result is the run together
    with the number of draws made. *)
Definition processRealEstateData (records : list value) (options : Options.t)
    (random : nat -> number) : run * nat :=
  let minPrice := orDefault (Options.minPrice options) (ofZ 100000) in
  let maxPrice := orDefault (Options.maxPrice options) (ofZ 2000000) in
  let buildingTypes := orDefault (Options.buildingTypes options) [] in
  fold_left
    (fun '(st, drawn) record =>
       let '(r, drawn') := processRecord minPrice maxPrice buildingTypes random drawn record in
       (step st r, drawn'))
    records (start, 0).

End DataProcessor.

(** ** data-loader.js *)

Module DataLoader.

Import Number Text JS.

Module Mapping.
Record t := {
  yearMonth : list string;
  price : list string;
  latitude : list string;
  longitude : list string;
  area : list string;
  address : list string;
  buildingType : list string;
  totalPrice : list string
}.
End Mapping.

(** [options.fieldMapping]: the keys the caller overrides. *)
Module FieldMapping.
Record t := {
  yearMonth : option (list string);
  price : option (list string);
  latitude : option (list string);
  longitude : option (list string);
  area : option (list string);
  address : option (list string);
  buildingType : option (list string);
  totalPrice : option (list string)
}.
Definition empty : t :=
  {| yearMonth := None; price := None; latitude := None; longitude := None;
     area := None; address := None; buildingType := None; totalPrice := None |}.
End FieldMapping.

Module Options.
Record t := {
  minPrice : option number;
  maxPrice : option number;
  buildingTypes : option (list value);
  fieldMapping : FieldMapping.t
}.
Definition default : t :=
  {| minPrice := None; maxPrice := None; buildingTypes := None;
     fieldMapping := FieldMapping.empty |}.
End Options.

Definition orDefault {A : Type} (o : option A) (d : A) : A :=
  match o with Some a => a | None => d end.

Definition defaultMinPrice : number := ofZ 100000.
Definition defaultMaxPrice : number := ofZ 2000000.

Definition defaultMapping : Mapping.t :=
  {| Mapping.yearMonth := ["交易年月"; "交易年月日"; "yearMonth"; "date"];
     Mapping.price := ["單價元平方公尺"; "單價"; "price"; "unitPrice"];
     Mapping.latitude := ["緯度"; "latitude"; "lat"];
     Mapping.longitude := ["經度"; "longitude"; "lng"; "lon"];
     Mapping.area := ["建物移轉總面積坪"; "土地移轉總面積坪"; "area"];
     Mapping.address := ["交易標的"; "土地位置建物門牌"; "address"];
     Mapping.buildingType := ["建物型態"; "建物現況格局-建物型態"; "buildingType"];
     Mapping.totalPrice := ["總價元"; "交易價格"; "totalPrice"] |}.

(** [{ ...defaultMapping, ...fieldMapping }]. *)
Definition mergeMapping (d : Mapping.t) (f : FieldMapping.t) : Mapping.t :=
  {| Mapping.yearMonth := orDefault (FieldMapping.yearMonth f) (Mapping.yearMonth d);
     Mapping.price := orDefault (FieldMapping.price f) (Mapping.price d);
     Mapping.latitude := orDefault (FieldMapping.latitude f) (Mapping.latitude d);
     Mapping.longitude := orDefault (FieldMapping.longitude f) (Mapping.longitude d);
     Mapping.area := orDefault (FieldMapping.area f) (Mapping.area d);
     Mapping.address := orDefault (FieldMapping.address f) (Mapping.address d);
     Mapping.buildingType := orDefault (FieldMapping.buildingType f) (Mapping.buildingType d);
     Mapping.totalPrice := orDefault (FieldMapping.totalPrice f) (Mapping.totalPrice d) |}.

(** [v !== undefined && v !== null && v !== '']. *)
Definition present (v : value) : bool :=
  match v with
  | Undefined | Null => false
  | Str s => match s with "" => false | _ => true end
  | _ => true
  end.

(** The closure [getValue] of [processCSVRecords], with its [record]. *)
Fixpoint getValue (record : value) (fieldNames : list string) : result value :=
  match fieldNames with
  | [] => Ok Null
  | name :: rest =>
      do v <- get record name;
      if present v then Ok v else getValue record rest
  end.

(** Step 2 of [processCSVRecords]: the year-month of the raw date, or [None]
    for [skipped++; continue].  [rawDate?.includes] and [rawDate?.match] are
    not functions on a number, a boolean or an object, and an array has
    [includes] but no [match]: all of these raise. *)
Definition convertDate (rawDate : value) : result (option value) :=
  match rawDate with
  | Undefined | Null => Ok None
  | Str s =>
      if includes "年" s then
        do yearMonth <- DataProcessor.convertROCtoAD rawDate;
        Ok (Some yearMonth)
      else if matchGregorian s then Ok (Some (Str (substring 0 7 s)))
      else Ok None
  | _ => Throw
  end.

(** Step 3 of [processCSVRecords]: the unit price, read or computed. *)
Definition derivePrice (mapping : Mapping.t) (record : value) : result number :=
  do p <- getValue record (Mapping.price mapping);
  let unitPrice := parseFloat p in
  if negb (Number.toBoolean unitPrice) then
    do t <- getValue record (Mapping.totalPrice mapping);
    let totalPrice := orZero (parseFloat t) in
    do a <- getValue record (Mapping.area mapping);
    let area := orZero (parseFloat a) in
    if andb (gt totalPrice zero) (gt area zero) then Ok (div totalPrice area)
    else Ok unitPrice
  else Ok unitPrice.

(** Step 4, the test that lets a price through:
    [!(!unitPrice || unitPrice < minPrice || unitPrice > maxPrice)]. *)
Definition priceOk (minPrice maxPrice unitPrice : number) : bool :=
  negb (negb (Number.toBoolean unitPrice) || lt unitPrice minPrice || gt unitPrice maxPrice).

(** [buildingTypes.length > 0 && !buildingTypes.includes(v)]. *)
Definition typeRejected (buildingTypes : list value) (v : value) : bool :=
  (0 <? List.length buildingTypes)%nat && negb (arrayIncludes buildingTypes v).

(** The body of the loop of [processCSVRecords] for one record. *)
Definition processCSVRecord (minPrice maxPrice : number) (buildingTypes : list value)
    (mapping : Mapping.t) (record : value) : result outcome :=
  do rawDate <- getValue record (Mapping.yearMonth mapping);
  do converted <- convertDate rawDate;
  match converted with
  | None => Ok Skip
  | Some yearMonth =>
      do unitPrice <- derivePrice mapping record;
      if negb (priceOk minPrice maxPrice unitPrice) then Ok Skip else
      do latv <- getValue record (Mapping.latitude mapping);
      let lat := parseFloat latv in
      do lngv <- getValue record (Mapping.longitude mapping);
      let lng := parseFloat lngv in
      if negb (Number.toBoolean lat) || negb (Number.toBoolean lng) then Ok Skip else
      do buildingType <- getValue record (Mapping.buildingType mapping);
      if typeRejected buildingTypes buildingType then Ok Skip else
      do a <- getValue record (Mapping.area mapping);
      do addr <- getValue record (Mapping.address mapping);
      do t <- getValue record (Mapping.totalPrice mapping);
      Ok (Emit {| position := Arr [Num lng; Num lat];
                  JS.price := Num unitPrice;
                  JS.yearMonth := yearMonth;
                  JS.area := Num (orZero (parseFloat a));
                  JS.address := or addr (Str "");
                  JS.buildingType := or buildingType (Str "");
                  JS.totalPrice := Num (orZero (parseFloat t)) |})
  end.

Definition processCSVRecords (records : list value) (options : Options.t) : run :=
  let minPrice := orDefault (Options.minPrice options) defaultMinPrice in
  let maxPrice := orDefault (Options.maxPrice options) defaultMaxPrice in
  let buildingTypes := orDefault (Options.buildingTypes options) [] in
  let mapping := mergeMapping defaultMapping (Options.fieldMapping options) in
  loop (processCSVRecord minPrice maxPrice buildingTypes mapping) records.

Section Database.

(** [new Date(v)] printed as
    [`${date.getFullYear()}-${String(date.getMonth() + 1).padStart(2, '0')}`]:
    the date parser and the local time zone belong to the host. *)
Variable dateYearMonth : value -> string.

(** The body of the loop of [processDatabaseRecords] for one record.  In
    [a || b] both property reads are bound before the choice: on one record
    they raise together or not at all. *)
Definition processDatabaseRecord (minPrice maxPrice : number) (buildingTypes : list value)
    (record : value) : result outcome :=
  do unit_price <- get record "unit_price";
  do price <- get record "price";
  let unitPrice := parseFloat (or unit_price price) in
  if negb (priceOk minPrice maxPrice unitPrice) then Ok Skip else
  do latitude <- get record "latitude";
  do lat0 <- get record "lat";
  let lat := parseFloat (or latitude lat0) in
  do longitude <- get record "longitude";
  do lng0 <- get record "lng";
  do lon0 <- get record "lon";
  let lng := parseFloat (or (or longitude lng0) lon0) in
  if negb (Number.toBoolean lat) || negb (Number.toBoolean lng) then Ok Skip else
  do building_type <- get record "building_type";
  if typeRejected buildingTypes building_type then Ok Skip else
  do year_month <- get record "year_month";
  do transaction_date <- get record "transaction_date";
  let yearMonth :=
    if toBoolean year_month then year_month
    else if toBoolean transaction_date then Str (dateYearMonth transaction_date)
    else Undefined in
  do a <- get record "area";
  do addr <- get record "address";
  do t <- get record "total_price";
  Ok (Emit {| position := Arr [Num lng; Num lat];
              JS.price := Num unitPrice;
              JS.yearMonth := yearMonth;
              JS.area := Num (orZero (parseFloat a));
              JS.address := or addr (Str "");
              JS.buildingType := or building_type (Str "");
              JS.totalPrice := Num (orZero (parseFloat t)) |}).

Definition processDatabaseRecords (records : list value) (options : Options.t) : run :=
  let minPrice := orDefault (Options.minPrice options) defaultMinPrice in
  let maxPrice := orDefault (Options.maxPrice options) defaultMaxPrice in
  let buildingTypes := orDefault (Options.buildingTypes options) [] in
  loop (processDatabaseRecord minPrice maxPrice buildingTypes) records.

End Database.

(** [Array.isArray(v) && v.length === 2]. *)
Definition isPair (v : value) : bool :=
  match v with
  | Arr [_; _] => true
  | _ => false
  end.

(** The body of the loop of [validateAndProcessData] for one item. *)
Definition validateItem (minPrice maxPrice : number) (buildingTypes : list value)
    (item : value) : result outcome :=
  do pos <- get item "position";
  if negb (toBoolean pos) || negb (isPair pos) then Ok Skip else
  do p <- get item "price";
  do ym <- get item "yearMonth";
  if negb (toBoolean p) || negb (toBoolean ym) then Ok Skip else
  if ltNumber p minPrice || gtNumber p maxPrice then Ok Skip else
  do bt <- get item "buildingType";
  if typeRejected buildingTypes bt then Ok Skip else
  do a <- get item "area";
  do addr <- get item "address";
  do t <- get item "totalPrice";
  Ok (Emit {| position := pos;
              JS.price := p;
              JS.yearMonth := ym;
              JS.area := or a (Num zero);
              JS.address := or addr (Str "");
              JS.buildingType := or bt (Str "");
              JS.totalPrice := or t (Num zero) |}).

(** [validateAndProcessData]: raises when [data] is not an array. *)
Definition validateAndProcessData (data : value) (options : Options.t) : result run :=
  let minPrice := orDefault (Options.minPrice options) defaultMinPrice in
  let maxPrice := orDefault (Options.maxPrice options) defaultMaxPrice in
  let buildingTypes := orDefault (Options.buildingTypes options) [] in
  match data with
  | Arr items => Ok (loop (validateItem minPrice maxPrice buildingTypes) items)
  | _ => Throw
  end.

End DataLoader.

(** ** Vocabulary of the properties *)

Module Spec.

Import Number Text JS.

(** [minPrice <= v && v <= maxPrice] as JavaScript evaluates it. *)
Definition withinBounds (minPrice maxPrice : number) (v : value) : bool :=
  le minPrice (toNumber v) && le (toNumber v) maxPrice.

(** The canonical pattern [/^\d{4}-\d{2}$/] on a value. *)
Definition canonicalYearMonth (v : value) : bool :=
  match v with
  | Str (String a (String b (String c (String d (String h (String e (String f ""))))))) =>
      isDigit a && isDigit b && isDigit c && isDigit d && Ascii.eqb h "-"
      && isDigit e && isDigit f
  | _ => false
  end.

(** An array of exactly two numbers, both finite. *)
Definition finitePair (v : value) : bool :=
  match v with
  | Arr [Num a; Num b] => isFinite a && isFinite b
  | _ => false
  end.

(** A number that parsed and is not zero. *)
Definition populated (n : number) : bool := negb (isNaN n) && negb (isZero n).

(** What one row contributes to [processedData]. *)
Definition emitted (body : value -> result outcome) (record : value) : list transaction :=
  match body record with
  | Ok (Emit t) => [t]
  | _ => []
  end.

Definition rejected (body : value -> result outcome) (record : value) : bool :=
  match body record with
  | Ok (Emit _) => false
  | _ => true
  end.

(** A transaction without its position. *)
Definition withoutPosition (t : transaction) : transaction :=
  {| position := Undefined;
     price := price t;
     yearMonth := yearMonth t;
     area := area t;
     address := address t;
     buildingType := buildingType t;
     totalPrice := totalPrice t |}.

(** An outcome without the position of its transaction. *)
Definition blank (r : result outcome) : result outcome :=
  match r with
  | Ok (Emit t) => Ok (Emit (withoutPosition t))
  | _ => r
  end.

(** ASCII letters folded to lower case, for comparing keys. *)
Definition lowerAscii (c : ascii) : ascii :=
  let n := N_of_ascii c in
  if ((65 <=? n) && (n <=? 90))%N%bool then ascii_of_N (n + 32) else c.

Fixpoint lowerCase (s : string) : string :=
  match s with
  | "" => ""
  | String c r => String (lowerAscii c) (lowerCase r)
  end.

Definition equalIgnoringCase (a b : string) : bool :=
  String.eqb (lowerCase a) (lowerCase b).

(** Both coordinate columns of a record of [processRealEstateData] are filled. *)
Definition hasCoordinates (record : value) : bool :=
  match get record "緯度", get record "經度" with
  | Ok lat, Ok lng => toBoolean lat && toBoolean lng
  | _, _ => false
  end.

(** The value of the first alias, in list order, whose exact key holds a
    present value in the row; [null] when there is none. *)
Definition resolve (props : list (string * value)) (aliases : list string) : value :=
  match find (fun name => DataLoader.present (lookup props name)) aliases with
  | Some name => lookup props name
  | None => Null
  end.

(** The names of the members every object inherits from [Object.prototype]:
    [record[name]] finds these on any row, whatever the row's own keys. *)
Definition inheritedNames : list string :=
  ["constructor"; "hasOwnProperty"; "isPrototypeOf"; "propertyIsEnumerable";
   "toLocaleString"; "toString"; "valueOf"; "__proto__";
   "__defineGetter__"; "__defineSetter__"; "__lookupGetter__"; "__lookupSetter__"].

Definition inheritedName (name : string) : bool :=
  existsb (String.eqb name) inheritedNames.

(** An alias list that names own keys only: on it, [record[name]] is the
    row's own property or [undefined]. *)
Definition ownKeys (aliases : list string) : bool :=
  forallb (fun name => negb (inheritedName name)) aliases.

(** A value as a CSV cell or a JSON scalar gives it: neither an object nor an
    array, so that turning it into text runs no method of the value's own. *)
Definition scalar (v : value) : bool :=
  match v with
  | Arr _ | Obj _ => false
  | _ => true
  end.

Definition scalarRow (props : list (string * value)) : bool :=
  forallb (fun kv => scalar (snd kv)) props.

(** A usable number: finite and not zero. *)
Definition usable (n : number) : bool := isFinite n && negb (isZero n).

(** The unit price [u] that comes out of a direct value and a total price
    and an area: the direct value when it is truthy (neither NaN nor zero,
    possibly infinite); else the quotient when total price and area are both
    strictly positive; else a failure, that is a falsy [u]. *)
Definition derived (direct totalPrice area u : number) : Prop :=
  (Number.toBoolean direct = true /\ u = direct)
  \/ (Number.toBoolean direct = false
      /\ gt totalPrice zero = true /\ gt area zero = true
      /\ u = div totalPrice area)
  \/ (Number.toBoolean direct = false
      /\ (gt totalPrice zero && gt area zero) = false
      /\ Number.toBoolean u = false).

(** The bounds a run works with: the caller's, or 100000 and 2000000. *)
Definition lowerBound (options : DataLoader.Options.t) : number :=
  DataLoader.orDefault (DataLoader.Options.minPrice options) DataLoader.defaultMinPrice.

Definition upperBound (options : DataLoader.Options.t) : number :=
  DataLoader.orDefault (DataLoader.Options.maxPrice options) DataLoader.defaultMaxPrice.

(** The price of [t] is a number inside [[lo, hi]]. *)
Definition numericPriceWithin (lo hi : number) (t : transaction) : Prop :=
  exists p, price t = Num p /\ le lo p = true /\ le p hi = true.

(** The price of [t] is truthy and its numeric coercion, when it is a number
    at all, lies inside [[lo, hi]]. *)
Definition coercedPriceWithin (lo hi : number) (t : transaction) : Prop :=
  toBoolean (price t) = true
  /\ (isNaN (toNumber (price t)) = true \/ withinBounds lo hi (price t) = true).

End Spec.

(** ** Sample rows *)

Module Sample.

Import Number JS.

Definition num (m : N) (e : Z) : value := Num (ofDecimal false m e).

(** The two rows of the end-to-end example. *)
Definition daan : value :=
  Obj [("longitude", num 1215435 (-4)); ("latitude", num 250267 (-4));
       ("price", num 850000 0); ("yearMonth", Str "2023-01")].

Definition nowhere : value :=
  Obj [("longitude", num 0 0); ("latitude", num 0 0);
       ("price", num 720000 0); ("yearMonth", Str "2023-01")].

(** A CSV line with the given unit price. *)
Definition priced (p : string) : value :=
  Obj [("yearMonth", Str "2023-01"); ("price", Str p);
       ("latitude", Str "25.03"); ("longitude", Str "121.5")].

(** A CSV line with a total price and an area, and no unit price. *)
Definition sold (total area : value) : value :=
  Obj [("yearMonth", Str "2023-01"); ("totalPrice", total); ("area", area);
       ("latitude", Str "25.03"); ("longitude", Str "121.5")].

(** A CSV line with a unit price, a total price and an area. *)
Definition offered (p : string) (total area : value) : value :=
  Obj [("yearMonth", Str "2023-01"); ("price", Str p);
       ("totalPrice", total); ("area", area);
       ("latitude", Str "25.03"); ("longitude", Str "121.5")].

(** The same in the column names of [processRealEstateData]. *)
Definition registered (total area : string) : value :=
  Obj [("交易年月", Str "11201"); ("總價元", Str total); ("建物移轉總面積坪", Str area);
       ("緯度", Str "25.03"); ("經度", Str "121.5")].

(** A registered sale without coordinates. *)
Definition unlocated : value :=
  Obj [("交易年月", Str "11201"); ("單價", Str "850000")].

(** A CSV line with the given raw date. *)
Definition dated (d : string) : value :=
  Obj [("交易年月", Str d); ("price", Str "850000");
       ("latitude", Str "25.03"); ("longitude", Str "121.5")].

(** A CSV line whose latitude column holds the given text. *)
Definition located (lat : string) : value :=
  Obj [("yearMonth", Str "2023-01"); ("price", Str "850000");
       ("latitude", Str lat); ("longitude", Str "121.5")].

(** A JSON document whose price is not a number. *)
Definition unpriced : value :=
  Obj [("position", Arr [num 1215 (-1); num 2503 (-2)]); ("price", Str "abc");
       ("yearMonth", Str "2023-01")].

(** A JSON document whose year-month is free text. *)
Definition informal : value :=
  Obj [("position", Arr [num 1215 (-1); num 2503 (-2)]); ("price", num 850000 0);
       ("yearMonth", Str "Jan 2023")].

(** A JSON document whose position holds no numbers. *)
Definition unplaced : value :=
  Obj [("position", Arr [Str "east"; Null]); ("price", num 850000 0);
       ("yearMonth", Str "2023-01")].

Definition inverted : DataLoader.Options.t :=
  {| DataLoader.Options.minPrice := Some (ofZ 2000000);
     DataLoader.Options.maxPrice := Some (ofZ 100000);
     DataLoader.Options.buildingTypes := None;
     DataLoader.Options.fieldMapping := DataLoader.FieldMapping.empty |}.

Definition plain : DataProcessor.Options.t :=
  {| DataProcessor.Options.minPrice := None;
     DataProcessor.Options.maxPrice := None;
     DataProcessor.Options.buildingTypes := None |}.

(** Two runs of [Math.random]. *)
Definition lowDraws : nat -> number := fun _ => zero.
Definition midDraws : nat -> number := fun _ => ofDecimal false 5 (-1).

End Sample.

(** ** The loaders of data-loader.js *)

Module Loaders.

Import Number Text JS.

(** What [fetch] resolves to, as far as [loadFromS3] looks at it. *)
Record response := {
  ok : bool;
  contentType : option string;
  body : string
}.

(** The options of [loadFromS3]: [format] beside the processing options. *)
Module S3Options.
Record t := {
  format : option string;
  processing : DataLoader.Options.t
}.
End S3Options.

(** [contentType?.includes(needle)], falsy on a missing header. *)
Definition mentions (contentType : option string) (needle : string) : bool :=
  match contentType with
  | Some c => includes needle c
  | None => false
  end.

Section Host.

(** [JSON.parse] (and [response.json()]) and [parse] of csv-parse with
    [columns: true]: both belong to the host and may raise on the text. *)
Variable jsonParse : string -> result value.
Variable csvParse : string -> result (list value).

(** [loadFromS3], given what [fetch] settled to.  The [catch] logs and
    rethrows.  The log line reads [data.length], which raises on [null]. *)
Definition loadFromS3 (fetched : result response) (options : S3Options.t) : result run :=
  do response <- fetched;
  if negb (ok response) then Throw else
  let format := DataLoader.orDefault (S3Options.format options) "json" in
  if String.eqb format "json" || mentions (contentType response) "application/json" then
    do data <- jsonParse (body response);
    do _ <- get data "length";
    DataLoader.validateAndProcessData data (S3Options.processing options)
  else if String.eqb format "csv" || mentions (contentType response) "text/csv" then
    do records <- csvParse (body response);
    Ok (DataLoader.processCSVRecords records (S3Options.processing options))
  else Throw.

(** [loadFromCSV], given what [fs.readFileSync] returned or raised. *)
Definition loadFromCSV (fileContent : result string) (options : DataLoader.Options.t)
  : result run :=
  do content <- fileContent;
  do records <- csvParse content;
  Ok (DataLoader.processCSVRecords records options).

(** [loadFromJSON], given what [fs.readFileSync] returned or raised. *)
Definition loadFromJSON (fileContent : result string) (options : DataLoader.Options.t)
  : result run :=
  do content <- fileContent;
  do data <- jsonParse content;
  do _ <- get data "length";
  DataLoader.validateAndProcessData data options.

(** The local-time year and month of [new Date(v)], as in
    [processDatabaseRecords]. *)
Variable dateYearMonth : value -> string.

(** [loadFromDatabase], given the rows of [client.query], or the failure of
    the import, of the connection or of the query. *)
Definition loadFromDatabase (queried : result (list value)) (options : DataLoader.Options.t)
  : result run :=
  do rows <- queried;
  Ok (DataLoader.processDatabaseRecords dateYearMonth rows options).

End Host.

End Loaders.

(** ** The playback controls of real-estate-viz.jsx *)

Module Viz.

(** The two pieces of React state the controls write.  The index is a small
    integer, on which the arithmetic of doubles is exact. *)
Record state := {
  currentMonthIndex : Z;
  isPlaying : bool
}.

(** [setCurrentMonthIndex(prev => Math.max(0, prev - 1))]. *)
Definition handlePrevMonth (st : state) : state :=
  {| currentMonthIndex := Z.max 0 (currentMonthIndex st - 1);
     isPlaying := isPlaying st |}.

(** [setCurrentMonthIndex(prev => Math.min(allMonths.length - 1, prev + 1))]. *)
Definition handleNextMonth (months : Z) (st : state) : state :=
  {| currentMonthIndex := Z.min (months - 1) (currentMonthIndex st + 1);
     isPlaying := isPlaying st |}.

Definition handleReset (st : state) : state :=
  {| currentMonthIndex := 0; isPlaying := false |}.

(** One firing of the interval of the auto-play effect, which exists only
    while [isPlaying] holds. *)
Definition tick (months : Z) (st : state) : state :=
  if isPlaying st then
    if (months - 1 <=? currentMonthIndex st)%Z
    then {| currentMonthIndex := currentMonthIndex st; isPlaying := false |}
    else {| currentMonthIndex := currentMonthIndex st + 1; isPlaying := isPlaying st |}
  else st.

Fixpoint ticks (n : nat) (months : Z) (st : state) : state :=
  match n with
  | O => st
  | S n' => ticks n' months (tick months st)
  end.

End Viz.

(** ** Vocabulary of the further properties *)

Module Shape.

Import Number Text JS.

(** The object literal that [push] receives, as a value. *)
Definition asObject (t : transaction) : value :=
  Obj [("position", position t); ("price", price t); ("yearMonth", yearMonth t);
       ("area", area t); ("address", address t); ("buildingType", buildingType t);
       ("totalPrice", totalPrice t)].

(** Two runs, one after the other. *)
Definition append (a b : run) : run :=
  {| processedData := processedData a ++ processedData b;
     skipped := skipped a + skipped b |}.

(** The draws that are left after [d] of them. *)
Definition shift (d : nat) (random : nat -> number) : nat -> number :=
  fun i => random (d + i).

(** Whether [processRealEstateData] emits a record for the row. *)
Definition accepted (minPrice maxPrice : number) (buildingTypes : list value)
    (record : value) : bool :=
  match fst (DataProcessor.processRecord minPrice maxPrice buildingTypes
               (fun _ => zero) 0 record) with
  | Ok (Emit _) => true
  | _ => false
  end.

(** The price of a record, when it is a number. *)
Definition priceOf (t : transaction) : number :=
  match price t with
  | Num p => p
  | _ => NaN
  end.

Fixpoint allDigits (s : string) : bool :=
  match s with
  | "" => true
  | String c r => isDigit c && allDigits r
  end.

(** The decimal numeral of [n + 1911]. *)
Definition gregorianYear (n : N) : string := digitsOf (Z.of_N n + 1911).

(** [adYear] on the era year [n], with the search for the decimal exponent
    started at 1 when the number is at least 1. *)
Definition quickYear (n : N) : string :=
  match add (ofDecimal false n 0) (ofZ 1911) with
  | S754_finite false m e =>
      let '(num, den) := fraction m e in
      if ((0 <? den) && (den <=? num))%Z then
        let '(s, k, n') :=
          shortest 20 1 (S754_finite false m e) num den (decimalExponent 315 1 num den) in
        formatDigits s k n'
      else Number.toString (S754_finite false m e)
  | x => Number.toString x
  end.

(** The era year [k] prints as four digits, those of the year plus 1911. *)
Definition yearAgrees (k : nat) : bool :=
  String.eqb (quickYear (N.of_nat k)) (gregorianYear (N.of_nat k))
  && (String.length (gregorianYear (N.of_nat k)) =? 4)%nat
  && allDigits (gregorianYear (N.of_nat k)).

End Shape.

(** ** Properties *)

Import Number Text JS Spec.

(** *** The order on numbers *)

Lemma compare_rank (x y : number) :
  isNaN x = false -> isNaN y = false ->
  SFcompare x y = Some (lex3 (rank x) (rank y)).
Proof.
  destruct x as [sx|sx| |sx mx ex], y as [sy|sy| |sy my ey];
    try discriminate; intros _ _;
    try destruct sx; try destruct sy; try reflexivity.
  unfold SFcompare, rank, lex3. cbn [fst snd].
  rewrite Z.compare_refl, Z.compare_opp, (Z.compare_antisym ex ey).
  destruct (ex ?= ey)%Z; reflexivity.
Qed.

Lemma lex3_antisym (a b : Z * (Z * Z)) : lex3 b a = CompOpp (lex3 a b).
Proof.
  destruct a as [a1 [a2 a3]], b as [b1 [b2 b3]]. unfold lex3. cbn [fst snd].
  rewrite (Z.compare_antisym a1 b1), (Z.compare_antisym a2 b2), (Z.compare_antisym a3 b3).
  destruct (a1 ?= b1)%Z, (a2 ?= b2)%Z, (a3 ?= b3)%Z; reflexivity.
Qed.

Lemma lex3_trans (a b c : Z * (Z * Z)) :
  lex3 a b <> Gt -> lex3 b c <> Gt -> lex3 a c <> Gt.
Proof.
  destruct a as [a1 [a2 a3]], b as [b1 [b2 b3]], c as [c1 [c2 c3]].
  unfold lex3. cbn [fst snd].
  destruct (Z.compare_spec a1 b1), (Z.compare_spec b1 c1), (Z.compare_spec a1 c1);
    try (exfalso; lia); try congruence;
    destruct (Z.compare_spec a2 b2), (Z.compare_spec b2 c2), (Z.compare_spec a2 c2);
    try (exfalso; lia); try congruence;
    destruct (Z.compare_spec a3 b3), (Z.compare_spec b3 c3), (Z.compare_spec a3 c3);
    try (exfalso; lia); congruence.
Qed.

(** Between numbers, [x < y] fails exactly when [y <= x] holds. *)
Lemma not_lt_le (x y : number) :
  isNaN x = false -> isNaN y = false -> lt x y = false -> le y x = true.
Proof.
  intros Hx Hy. unfold lt, le, SFltb, SFleb.
  rewrite (compare_rank x y Hx Hy), (compare_rank y x Hy Hx), (lex3_antisym (rank x) (rank y)).
  destruct (lex3 (rank x) (rank y)); simpl; intros; try reflexivity; discriminate.
Qed.

Lemma le_not_lt (x y : number) : le y x = true -> lt x y = false.
Proof.
  unfold lt, le, SFltb, SFleb.
  destruct (isNaN x) eqn:Hx; [destruct x; try discriminate; destruct y; reflexivity|].
  destruct (isNaN y) eqn:Hy; [destruct y; try discriminate; reflexivity|].
  rewrite (compare_rank x y Hx Hy), (compare_rank y x Hy Hx), (lex3_antisym (rank x) (rank y)).
  destruct (lex3 (rank x) (rank y)); simpl; intros; try reflexivity; discriminate.
Qed.

Lemma le_notNaN (x y : number) : le x y = true -> isNaN x = false /\ isNaN y = false.
Proof.
  unfold le, SFleb. destruct x, y; simpl; try discriminate; auto.
Qed.

Lemma lt_notNaN (x y : number) : lt x y = true -> isNaN x = false /\ isNaN y = false.
Proof.
  unfold lt, SFltb. destruct x, y; simpl; try discriminate; auto.
Qed.

Lemma le_trans (x y z : number) : le x y = true -> le y z = true -> le x z = true.
Proof.
  intros Hxy Hyz.
  destruct (le_notNaN _ _ Hxy) as [Hx Hy], (le_notNaN _ _ Hyz) as [_ Hz].
  revert Hxy Hyz. unfold le, SFleb.
  rewrite (compare_rank x y Hx Hy), (compare_rank y z Hy Hz), (compare_rank x z Hx Hz).
  intros Hxy Hyz.
  assert (H1 : lex3 (rank x) (rank y) <> Gt) by (destruct (lex3 (rank x) (rank y)); congruence).
  assert (H2 : lex3 (rank y) (rank z) <> Gt) by (destruct (lex3 (rank y) (rank z)); congruence).
  pose proof (lex3_trans _ _ _ H1 H2) as H3.
  destruct (lex3 (rank x) (rank z)); congruence.
Qed.

Lemma toBoolean_notNaN (x : number) : Number.toBoolean x = true -> isNaN x = false.
Proof. destruct x; simpl; congruence. Qed.

(** The price test, read as an interval: with bounds that are numbers, a
    price passes exactly when it is truthy and lies in [[minPrice, maxPrice]]. *)
Lemma priceOk_iff (minPrice maxPrice p : number) :
  isNaN minPrice = false -> isNaN maxPrice = false ->
  DataLoader.priceOk minPrice maxPrice p = true <->
  Number.toBoolean p = true /\ le minPrice p = true /\ le p maxPrice = true.
Proof.
  intros Hmin Hmax. unfold DataLoader.priceOk, gt.
  rewrite negb_true_iff, !orb_false_iff, negb_false_iff. split.
  - intros [[Hp Hlo] Hhi]. pose proof (toBoolean_notNaN p Hp) as Hn.
    repeat split; auto using not_lt_le.
  - intros (Hp & Hlo & Hhi). repeat split; auto using le_not_lt.
Qed.

(** *** The loop *)

Lemma fold_step (body : value -> result outcome) (records : list value) (st : run) :
  fold_left (fun st record => step st (body record)) records st =
  {| processedData := processedData st ++ flat_map (emitted body) records;
     skipped := skipped st + List.length (filter (rejected body) records) |}.
Proof.
  revert st. induction records as [|record records IH]; intros st.
  - simpl. rewrite app_nil_r, Nat.add_0_r. destruct st; reflexivity.
  - simpl. rewrite IH. unfold step, emitted, rejected.
    destruct (body record) as [[t|]|]; simpl;
      rewrite <- ?app_assoc, ?Nat.add_succ_r; reflexivity.
Qed.

Lemma loop_processedData (body : value -> result outcome) (records : list value) :
  processedData (loop body records) = flat_map (emitted body) records.
Proof. unfold loop. rewrite fold_step. reflexivity. Qed.

Lemma loop_skipped (body : value -> result outcome) (records : list value) :
  skipped (loop body records) = List.length (filter (rejected body) records).
Proof. unfold loop. rewrite fold_step. reflexivity. Qed.

Lemma loop_total (body : value -> result outcome) (records : list value) :
  List.length (processedData (loop body records)) + skipped (loop body records)
  = List.length records.
Proof.
  rewrite loop_processedData, loop_skipped.
  induction records as [|record records IH]; [reflexivity|].
  simpl. rewrite length_app. unfold emitted at 1, rejected at 1.
  destruct (body record) as [[t|]|]; simpl; lia.
Qed.

Lemma loop_In (body : value -> result outcome) (records : list value) (t : transaction) :
  In t (processedData (loop body records)) ->
  exists record, In record records /\ body record = Ok (Emit t).
Proof.
  rewrite loop_processedData, in_flat_map. intros (record & Hin & Ht).
  exists record. split; [assumption|]. unfold emitted in Ht.
  destruct (body record) as [[t'|]|]; simpl in Ht; try contradiction.
  destruct Ht as [->|[]]. reflexivity.
Qed.

Lemma loop_none (body : value -> result outcome) (records : list value) :
  (forall record t, body record <> Ok (Emit t)) ->
  loop body records = {| processedData := []; skipped := List.length records |}.
Proof.
  intros Hnone. unfold loop. rewrite fold_step. simpl. f_equal.
  - induction records as [|record records IH]; [reflexivity|].
    simpl. rewrite IH. unfold emitted.
    destruct (body record) as [[t|]|] eqn:E; try reflexivity.
    exfalso. exact (Hnone _ _ E).
  - induction records as [|record records IH]; [reflexivity|].
    simpl. unfold rejected at 1.
    destruct (body record) as [[t|]|] eqn:E; simpl; try (f_equal; exact IH).
    exfalso. exact (Hnone _ _ E).
Qed.

(** *** What an emitted row went through *)

(** Unfolds one [do] of a row body that is known to end in [Emit]. *)
Ltac step_row H :=
  match type of H with
  | bind ?e _ = Ok _ =>
      let E := fresh "E" in
      destruct e eqn:E; cbn [bind] in H; [|discriminate H]
  | (if ?c then Ok Skip else _) = Ok (Emit _) =>
      let C := fresh "C" in
      destruct c eqn:C; [discriminate H|]
  | match ?o with Some _ => _ | None => Ok Skip end = Ok (Emit _) =>
      let O := fresh "O" in
      destruct o eqn:O; [|discriminate H]
  end.

Lemma processCSVRecord_emit minPrice maxPrice buildingTypes mapping record t :
  DataLoader.processCSVRecord minPrice maxPrice buildingTypes mapping record = Ok (Emit t) ->
  exists rawDate ym unitPrice latv lngv bt a addr tp,
    DataLoader.getValue record (DataLoader.Mapping.yearMonth mapping) = Ok rawDate
    /\ DataLoader.convertDate rawDate = Ok (Some ym)
    /\ DataLoader.derivePrice mapping record = Ok unitPrice
    /\ DataLoader.priceOk minPrice maxPrice unitPrice = true
    /\ DataLoader.getValue record (DataLoader.Mapping.latitude mapping) = Ok latv
    /\ DataLoader.getValue record (DataLoader.Mapping.longitude mapping) = Ok lngv
    /\ Number.toBoolean (parseFloat latv) = true
    /\ Number.toBoolean (parseFloat lngv) = true
    /\ DataLoader.getValue record (DataLoader.Mapping.buildingType mapping) = Ok bt
    /\ DataLoader.typeRejected buildingTypes bt = false
    /\ DataLoader.getValue record (DataLoader.Mapping.area mapping) = Ok a
    /\ DataLoader.getValue record (DataLoader.Mapping.address mapping) = Ok addr
    /\ DataLoader.getValue record (DataLoader.Mapping.totalPrice mapping) = Ok tp
    /\ t = {| position := Arr [Num (parseFloat lngv); Num (parseFloat latv)];
              price := Num unitPrice;
              yearMonth := ym;
              area := Num (orZero (parseFloat a));
              address := or addr (Str "");
              buildingType := or bt (Str "");
              totalPrice := Num (orZero (parseFloat tp)) |}.
Proof.
  unfold DataLoader.processCSVRecord. intros H.
  repeat step_row H.
  injection H as <-.
  apply negb_false_iff in C.
  apply orb_false_iff in C0. destruct C0 as [C0 C2].
  apply negb_false_iff in C0, C2.
  do 9 eexists. repeat split; eassumption.
Qed.

Lemma processDatabaseRecord_emit dateYearMonth minPrice maxPrice buildingTypes record t :
  DataLoader.processDatabaseRecord dateYearMonth minPrice maxPrice buildingTypes record
  = Ok (Emit t) ->
  exists unit_price price0 latitude lat0 longitude lng0 lon0 bt ym td a addr tp,
    get record "unit_price" = Ok unit_price
    /\ get record "price" = Ok price0
    /\ DataLoader.priceOk minPrice maxPrice (parseFloat (or unit_price price0)) = true
    /\ get record "latitude" = Ok latitude
    /\ get record "lat" = Ok lat0
    /\ get record "longitude" = Ok longitude
    /\ get record "lng" = Ok lng0
    /\ get record "lon" = Ok lon0
    /\ Number.toBoolean (parseFloat (or latitude lat0)) = true
    /\ Number.toBoolean (parseFloat (or (or longitude lng0) lon0)) = true
    /\ get record "building_type" = Ok bt
    /\ DataLoader.typeRejected buildingTypes bt = false
    /\ get record "year_month" = Ok ym
    /\ get record "transaction_date" = Ok td
    /\ get record "area" = Ok a
    /\ get record "address" = Ok addr
    /\ get record "total_price" = Ok tp
    /\ t = {| position := Arr [Num (parseFloat (or (or longitude lng0) lon0));
                               Num (parseFloat (or latitude lat0))];
              price := Num (parseFloat (or unit_price price0));
              yearMonth := if toBoolean ym then ym
                           else if toBoolean td then Str (dateYearMonth td)
                           else Undefined;
              area := Num (orZero (parseFloat a));
              address := or addr (Str "");
              buildingType := or bt (Str "");
              totalPrice := Num (orZero (parseFloat tp)) |}.
Proof.
  unfold DataLoader.processDatabaseRecord. intros H.
  repeat step_row H.
  injection H as <-.
  apply negb_false_iff in C.
  apply orb_false_iff in C0. destruct C0 as [C0 C2].
  apply negb_false_iff in C0, C2.
  do 13 eexists. repeat split; eassumption.
Qed.

Lemma validateItem_emit minPrice maxPrice buildingTypes item t :
  DataLoader.validateItem minPrice maxPrice buildingTypes item = Ok (Emit t) ->
  exists pos p ym bt a addr tp,
    get item "position" = Ok pos
    /\ toBoolean pos = true
    /\ DataLoader.isPair pos = true
    /\ get item "price" = Ok p
    /\ get item "yearMonth" = Ok ym
    /\ toBoolean p = true
    /\ toBoolean ym = true
    /\ ltNumber p minPrice = false
    /\ gtNumber p maxPrice = false
    /\ get item "buildingType" = Ok bt
    /\ DataLoader.typeRejected buildingTypes bt = false
    /\ get item "area" = Ok a
    /\ get item "address" = Ok addr
    /\ get item "totalPrice" = Ok tp
    /\ t = {| position := pos;
              price := p;
              yearMonth := ym;
              area := or a (Num zero);
              address := or addr (Str "");
              buildingType := or bt (Str "");
              totalPrice := or tp (Num zero) |}.
Proof.
  unfold DataLoader.validateItem. intros H.
  repeat step_row H.
  injection H as <-.
  apply orb_false_iff in C. destruct C as [Ca Cb].
  apply negb_false_iff in Ca, Cb.
  apply orb_false_iff in C0. destruct C0 as [C0a C0b].
  apply negb_false_iff in C0a, C0b.
  apply orb_false_iff in C1. destruct C1 as [C1a C1b].
  do 7 eexists. repeat split; eassumption.
Qed.

(** *** Prices and bounds *)


(** With [maxPrice < minPrice] no price passes the test. *)
Lemma priceOk_inverted (minPrice maxPrice p : number) :
  lt maxPrice minPrice = true -> DataLoader.priceOk minPrice maxPrice p = false.
Proof.
  intros Hinv. destruct (lt_notNaN _ _ Hinv) as [Hmax Hmin].
  destruct (DataLoader.priceOk minPrice maxPrice p) eqn:Hok; [|reflexivity].
  apply (priceOk_iff _ _ _ Hmin Hmax) in Hok. destruct Hok as (_ & Hlo & Hhi).
  pose proof (le_not_lt _ _ (le_trans _ _ _ Hlo Hhi)). congruence.
Qed.

Lemma validateAndProcessData_array (items : list value) (options : DataLoader.Options.t) :
  DataLoader.validateAndProcessData (Arr items) options
  = Ok (loop (DataLoader.validateItem (lowerBound options) (upperBound options)
                (DataLoader.orDefault (DataLoader.Options.buildingTypes options) []))
             items).
Proof. reflexivity. Qed.



Lemma document_price_within minPrice maxPrice buildingTypes item t :
  isNaN minPrice = false -> isNaN maxPrice = false ->
  DataLoader.validateItem minPrice maxPrice buildingTypes item = Ok (Emit t) ->
  coercedPriceWithin minPrice maxPrice t.
Proof.
  intros Hmin Hmax H.
  apply validateItem_emit in H.
  destruct H as (pos & p & ym & bt & a & addr & tp & H).
  destruct H as (_ & _ & _ & _ & _ & Hp & _ & Hlt & Hgt & _ & _ & _ & _ & _ & ->).
  split; [exact Hp|]. simpl. unfold withinBounds.
  destruct (isNaN (toNumber p)) eqn:Hn; [left; reflexivity|right].
  unfold ltNumber in Hlt. unfold gtNumber, gt in Hgt.
  rewrite (not_lt_le _ _ Hn Hmin Hlt), (not_lt_le _ _ Hmax Hn Hgt). reflexivity.
Qed.

Lemma Forall_loop (P : transaction -> Prop) (body : value -> result outcome)
    (records : list value) :
  (forall record t, body record = Ok (Emit t) -> P t) ->
  Forall P (processedData (loop body records)).
Proof.
  intros Hbody. apply Forall_forall. intros t Ht.
  apply loop_In in Ht. destruct Ht as (record & _ & Hrec). eauto.
Qed.








Lemma document_price_inverted minPrice maxPrice buildingTypes item t :
  lt maxPrice minPrice = true ->
  DataLoader.validateItem minPrice maxPrice buildingTypes item = Ok (Emit t) ->
  isNaN (toNumber (price t)) = true.
Proof.
  intros Hinv H. destruct (lt_notNaN _ _ Hinv) as [Hmax Hmin].
  destruct (document_price_within _ _ _ _ _ Hmin Hmax H) as [_ [Hn|Hin]]; [exact Hn|].
  unfold withinBounds in Hin. apply andb_true_iff in Hin. destruct Hin as [Hlo Hhi].
  pose proof (le_not_lt _ _ (le_trans _ _ _ Hlo Hhi)). congruence.
Qed.

(** C10, as the code has it: with [minPrice > maxPrice] the CSV-shaped and the
    relational adapter return normally with an empty sequence, every row
    counted as skipped; the document-shaped adapter returns normally too, and
    whatever it emits has a price whose numeric coercion is NaN. *)
Theorem inverted_bounds (dateYearMonth : value -> string)
    (records items : list value) (options : DataLoader.Options.t) :
  lt (upperBound options) (lowerBound options) = true ->
  DataLoader.processCSVRecords records options
  = {| processedData := []; skipped := List.length records |}
  /\ DataLoader.processDatabaseRecords dateYearMonth records options
     = {| processedData := []; skipped := List.length records |}
  /\ (exists r, DataLoader.validateAndProcessData (Arr items) options = Ok r
                /\ Forall (fun t => isNaN (toNumber (price t)) = true) (processedData r)).
Proof.
  intros Hinv. split; [|split].
  - apply loop_none. intros record t H.
    apply processCSVRecord_emit in H.
    destruct H as (rawDate & ym & u & latv & lngv & bt & a & addr & tp & H).
    destruct H as (_ & _ & _ & Hok & _).
    pose proof (priceOk_inverted _ _ u Hinv) as Hno.
    unfold lowerBound, upperBound in Hno. congruence.
  - apply loop_none. intros record t H.
    apply processDatabaseRecord_emit in H.
    destruct H as (up & p0 & la & la0 & lo & lo0 & lo1 & bt & ym & td & a & addr & tp & H).
    destruct H as (_ & _ & Hok & _).
    pose proof (fun u => priceOk_inverted _ _ u Hinv) as Hno.
    unfold lowerBound, upperBound in Hno. rewrite Hno in Hok. discriminate.
  - eexists. split; [apply validateAndProcessData_array|].
    apply Forall_loop. intros item t. apply document_price_inverted. exact Hinv.
Qed.

Lemma inverted_bounds_witness :
  lt (upperBound Sample.inverted) (lowerBound Sample.inverted) = true
  /\ DataLoader.processCSVRecords [Sample.priced "850000"] Sample.inverted
     = {| processedData := []; skipped := 1 |}.
Proof.
  split; [reflexivity|].
  exact (proj1 (inverted_bounds (fun _ => "") [Sample.priced "850000"] [] Sample.inverted
                  eq_refl)).
Defined.

(** C10 as stated fails on the document-shaped adapter: with the bounds
    2000000 and 100000 in the wrong order, a document whose price is the text
    [abc] is still emitted. *)
Lemma inverted_bounds_document :
  lt (upperBound Sample.inverted) (lowerBound Sample.inverted) = true
  /\ DataLoader.validateAndProcessData (Arr [Sample.unpriced]) Sample.inverted
     = Ok {| processedData :=
               [{| position := Arr [Sample.num 1215 (-1); Sample.num 2503 (-2)];
                   price := Str "abc";
                   yearMonth := Str "2023-01";
                   area := Num zero;
                   address := Str "";
                   buildingType := Str "";
                   totalPrice := Num zero |}];
             skipped := 0 |}.
Proof. split; vm_compute; reflexivity. Qed.

(** *** Rows that fail *)

Lemma loop_app (body : value -> result outcome) (pre post : list value) :
  loop body (pre ++ post)
  = {| processedData := processedData (loop body pre) ++ processedData (loop body post);
       skipped := skipped (loop body pre) + skipped (loop body post) |}.
Proof.
  unfold loop. rewrite !fold_step. simpl.
  rewrite flat_map_app, filter_app, length_app. reflexivity.
Qed.

Lemma registry_fold_total minPrice maxPrice buildingTypes random records :
  forall st drawn,
    let r :=
      fst (fold_left
             (fun '(st, drawn) record =>
                let '(r, drawn') :=
                  DataProcessor.processRecord minPrice maxPrice buildingTypes
                    random drawn record in
                (step st r, drawn'))
             records (st, drawn)) in
    List.length (processedData r) + skipped r
    = List.length (processedData st) + skipped st + List.length records.
Proof.
  induction records as [|record records IH]; intros st drawn.
  - simpl. lia.
  - cbn [fold_left].
    destruct (DataProcessor.processRecord minPrice maxPrice buildingTypes
                random drawn record) as [o drawn'].
    cbv zeta in IH. rewrite IH.
    destruct o as [[t|]|]; simpl; rewrite ?length_app; simpl; lia.
Qed.

(** C6: each adapter returns for every array of rows; a row whose processing
    raises adds one to [skipped] and nothing to the output, and the rows after
    it are processed as if it had not been there; on return the output length
    plus [skipped] is the number of input rows.  The loop of
    [processRealEstateData] keeps the same count. *)
Theorem rows_emitted_or_skipped (dateYearMonth : value -> string)
    (records : list value) (options : DataLoader.Options.t) :
  List.length (processedData (DataLoader.processCSVRecords records options))
  + skipped (DataLoader.processCSVRecords records options) = List.length records
  /\ List.length (processedData (DataLoader.processDatabaseRecords dateYearMonth records options))
     + skipped (DataLoader.processDatabaseRecords dateYearMonth records options)
     = List.length records
  /\ (exists r, DataLoader.validateAndProcessData (Arr records) options = Ok r
                /\ List.length (processedData r) + skipped r = List.length records)
  /\ (forall body pre row post,
        body row = Throw ->
        loop body (pre ++ row :: post)
        = {| processedData := processedData (loop body pre) ++ processedData (loop body post);
             skipped := skipped (loop body pre) + 1 + skipped (loop body post) |})
  /\ (forall minPrice maxPrice buildingTypes,
        DataLoader.processCSVRecord minPrice maxPrice buildingTypes DataLoader.defaultMapping Null
        = Throw
        /\ DataLoader.processDatabaseRecord dateYearMonth minPrice maxPrice buildingTypes Null
           = Throw
        /\ DataLoader.validateItem minPrice maxPrice buildingTypes Null = Throw)
  /\ (forall registryOptions random,
        let r := fst (DataProcessor.processRealEstateData records registryOptions random) in
        List.length (processedData r) + skipped r = List.length records).
Proof.
  split; [|split; [|split; [|split; [|split]]]];
    [| | | | |intros registryOptions random; apply registry_fold_total].
  - apply loop_total.
  - apply loop_total.
  - eexists. split; [apply validateAndProcessData_array|]. apply loop_total.
  - intros body pre row post Hthrow.
    rewrite loop_app. change (row :: post) with (([row] ++ post)%list). rewrite (loop_app body [row]).
    assert (Hrow : loop body [row] = {| processedData := []; skipped := 1 |})
      by (unfold loop; simpl; rewrite Hthrow; reflexivity).
    rewrite Hrow. simpl. f_equal. lia.
  - intros. repeat split.
Qed.

Lemma rows_emitted_or_skipped_witness :
  DataLoader.processCSVRecord DataLoader.defaultMinPrice DataLoader.defaultMaxPrice []
    DataLoader.defaultMapping Null = Throw
  /\ List.length (processedData (DataLoader.processCSVRecords
                                   [Sample.daan; Null; Sample.nowhere]
                                   DataLoader.Options.default))
     + skipped (DataLoader.processCSVRecords [Sample.daan; Null; Sample.nowhere]
                  DataLoader.Options.default) = 3.
Proof.
  split; [reflexivity|].
  exact (proj1 (rows_emitted_or_skipped (fun _ => "") [Sample.daan; Null; Sample.nowhere]
                  DataLoader.Options.default)).
Defined.

(** *** The field resolver *)

Lemma lookup_In (props : list (string * value)) (name : string) :
  lookup props name <> Undefined -> In (name, lookup props name) props.
Proof.
  induction props as [|[k v] props IH]; simpl; [congruence|].
  destruct (String.eqb_spec k name) as [->|Hne]; auto.
Qed.

Lemma getValue_resolve (props : list (string * value)) (aliases : list string) :
  DataLoader.getValue (Obj props) aliases = Ok (resolve props aliases).
Proof.
  unfold resolve. induction aliases as [|name aliases IH]; [reflexivity|].
  simpl. destruct (DataLoader.present (lookup props name)); [reflexivity|exact IH].
Qed.

(** C3, as the code has it: on a row, and for an alias list none of whose
    names is a member every object inherits from [Object.prototype], the
    resolver returns the value of the first alias in list order whose key,
    matched exactly as written, holds a value that is not undefined, not null
    and not the empty string; when no alias does, it returns [null], which is
    neither zero nor the empty string.  The alias lists of the default
    mapping are such lists.  With both 單價 = 850000 and price = 1 in the row
    and the default price aliases, the resolved value is 850000. *)
Theorem field_resolver (props : list (string * value)) (aliases : list string) :
  ownKeys aliases = true ->
  DataLoader.getValue (Obj props) aliases = Ok (resolve props aliases)
  /\ (forall name, lookup props name <> Undefined -> In (name, lookup props name) props)
  /\ (DataLoader.getValue (Obj props) aliases = Ok Null
      <-> Forall (fun name => DataLoader.present (lookup props name) = false) aliases)
  /\ Null <> Num zero
  /\ Null <> Str ""
  /\ forallb ownKeys
       [DataLoader.Mapping.yearMonth DataLoader.defaultMapping;
        DataLoader.Mapping.price DataLoader.defaultMapping;
        DataLoader.Mapping.latitude DataLoader.defaultMapping;
        DataLoader.Mapping.longitude DataLoader.defaultMapping;
        DataLoader.Mapping.area DataLoader.defaultMapping;
        DataLoader.Mapping.address DataLoader.defaultMapping;
        DataLoader.Mapping.buildingType DataLoader.defaultMapping;
        DataLoader.Mapping.totalPrice DataLoader.defaultMapping] = true
  /\ DataLoader.getValue (Obj [("單價", Sample.num 850000 0); ("price", Sample.num 1 0)])
       (DataLoader.Mapping.price DataLoader.defaultMapping)
     = Ok (Sample.num 850000 0).
Proof.
  intros _.
  split; [apply getValue_resolve|]. split; [intros name; apply lookup_In|].
  split; [|split; [discriminate|split; [discriminate|split; reflexivity]]].
  rewrite getValue_resolve. unfold resolve. induction aliases as [|name aliases IH]; simpl.
  - split; auto.
  - destruct (DataLoader.present (lookup props name)) eqn:Hp.
    + split.
      * intros H. injection H as H. rewrite H in Hp. discriminate.
      * intros H. inversion H; congruence.
    + rewrite IH. split; [auto|]. intros H. inversion H; assumption.
Qed.

Lemma field_resolver_witness :
  ownKeys (DataLoader.Mapping.price DataLoader.defaultMapping) = true
  /\ DataLoader.getValue (Obj [("price", Sample.num 1 0); ("單價", Sample.num 850000 0)])
       (DataLoader.Mapping.price DataLoader.defaultMapping)
     = Ok (resolve [("price", Sample.num 1 0); ("單價", Sample.num 850000 0)]
             (DataLoader.Mapping.price DataLoader.defaultMapping)).
Proof.
  split; [reflexivity|].
  exact (proj1 (field_resolver [("price", Sample.num 1 0); ("單價", Sample.num 850000 0)]
                  (DataLoader.Mapping.price DataLoader.defaultMapping) eq_refl)).
Defined.

(** C3 as stated fails on the case of the keys: the key [Price] equals the
    alias [price] up to case, yet the resolver does not find it. *)
Lemma field_resolver_case_sensitive :
  equalIgnoringCase "Price" "price" = true
  /\ DataLoader.getValue (Obj [("Price", Sample.num 5 0)]) ["price"] = Ok Null.
Proof. split; reflexivity. Qed.

(** *** Dates *)

(** C2, as the code has it: [convertROCtoAD] knows two shapes, tried in this
    order: the era long form, then a run of five digits; it turns 112年01月
    and 11201 into 2023-01 and answers [null] on anything else.  The date step
    of the CSV-shaped adapter hands a raw date that contains 年 to
    [convertROCtoAD], otherwise keeps the first seven characters of a raw date
    that starts with four digits, a dash and two digits (2023-01-15 gives
    2023-01), and otherwise skips the row, as it does when the raw date is
    absent. *)
Theorem calendar_normalisation :
  DataProcessor.convertROCtoAD (Str "112年01月") = Ok (Str "2023-01")
  /\ DataProcessor.convertROCtoAD (Str "11201") = Ok (Str "2023-01")
  /\ DataLoader.convertDate (Str "112年01月") = Ok (Some (Str "2023-01"))
  /\ DataLoader.convertDate (Str "2023-01-15") = Ok (Some (Str "2023-01"))
  /\ (forall s y m,
        matchLong s = Some (y, m) ->
        DataProcessor.convertROCtoAD (Str s)
        = Ok (Str (DataProcessor.adYear y ++ "-" ++ padStart2 m)))
  /\ (forall s y m,
        matchLong s = None -> matchCompact s = Some (y, m) ->
        DataProcessor.convertROCtoAD (Str s) = Ok (Str (DataProcessor.adYear y ++ "-" ++ m)))
  /\ (forall s,
        matchLong s = None -> matchCompact s = None ->
        DataProcessor.convertROCtoAD (Str s) = Ok Null)
  /\ (forall s ym,
        includes "年" s = true ->
        DataProcessor.convertROCtoAD (Str s) = Ok (Str ym) ->
        DataLoader.convertDate (Str s) = Ok (Some (Str ym)))
  /\ (forall s,
        includes "年" s = false -> matchGregorian s = true ->
        DataLoader.convertDate (Str s) = Ok (Some (Str (substring 0 7 s))))
  /\ (forall s,
        includes "年" s = false -> matchGregorian s = false ->
        DataLoader.convertDate (Str s) = Ok None)
  /\ DataLoader.convertDate Null = Ok None
  /\ (forall minPrice maxPrice buildingTypes mapping record rawDate,
        DataLoader.getValue record (DataLoader.Mapping.yearMonth mapping) = Ok rawDate ->
        DataLoader.convertDate rawDate = Ok None ->
        DataLoader.processCSVRecord minPrice maxPrice buildingTypes mapping record = Ok Skip).
Proof.
  split; [vm_compute; reflexivity|]. split; [vm_compute; reflexivity|].
  split; [vm_compute; reflexivity|]. split; [vm_compute; reflexivity|].
  split; [intros s y m H; unfold DataProcessor.convertROCtoAD; rewrite H; reflexivity|].
  split; [intros s y m H1 H2; unfold DataProcessor.convertROCtoAD; rewrite H1, H2; reflexivity|].
  split; [intros s H1 H2; unfold DataProcessor.convertROCtoAD; rewrite H1, H2; reflexivity|].
  split; [intros s ym H1 H2; unfold DataLoader.convertDate; rewrite H1, H2; reflexivity|].
  split; [intros s H1 H2; unfold DataLoader.convertDate; rewrite H1, H2; reflexivity|].
  split; [intros s H1 H2; unfold DataLoader.convertDate; rewrite H1, H2; reflexivity|].
  split; [reflexivity|].
  intros minPrice maxPrice buildingTypes mapping record rawDate H1 H2.
  unfold DataLoader.processCSVRecord. rewrite H1. cbn [bind]. rewrite H2. reflexivity.
Qed.

Lemma calendar_normalisation_witness :
  includes "年" "2023/01" = false
  /\ matchGregorian "2023/01" = false
  /\ DataLoader.convertDate (Str "2023/01") = Ok None.
Proof.
  split; [reflexivity|]. split; [reflexivity|].
  exact (proj1 (proj2 (proj2 (proj2 (proj2 (proj2 (proj2 (proj2 (proj2 (proj2
           calendar_normalisation))))))))) "2023/01" eq_refl eq_refl).
Defined.

(** C2 as stated fails on the compact form: the date step of the CSV-shaped
    adapter does not turn 11201 into 2023-01, it skips the row. *)
Lemma compact_date_skipped :
  DataLoader.convertDate (Str "11201") = Ok None
  /\ DataLoader.processCSVRecords [Sample.dated "11201"] DataLoader.Options.default
     = {| processedData := []; skipped := 1 |}.
Proof. split; vm_compute; reflexivity. Qed.

(** *** Price derivation *)

Lemma derived_of (direct totalPrice area : number) :
  derived direct totalPrice area
    (if negb (Number.toBoolean direct)
     then if gt totalPrice zero && gt area zero then div totalPrice area else direct
     else direct).
Proof.
  unfold derived. destruct (Number.toBoolean direct) eqn:Hd; simpl; [left; auto|right].
  destruct (gt totalPrice zero) eqn:Ht, (gt area zero) eqn:Ha; simpl; auto.
Qed.

Lemma csv_derivePrice_obj (mapping : DataLoader.Mapping.t) (props : list (string * value)) :
  exists u,
    DataLoader.derivePrice mapping (Obj props) = Ok u
    /\ derived (parseFloat (resolve props (DataLoader.Mapping.price mapping)))
               (orZero (parseFloat (resolve props (DataLoader.Mapping.totalPrice mapping))))
               (orZero (parseFloat (resolve props (DataLoader.Mapping.area mapping))))
               u.
Proof.
  eexists. split; [|apply derived_of].
  unfold DataLoader.derivePrice. rewrite !getValue_resolve. cbn [bind].
  destruct (Number.toBoolean (parseFloat (resolve props (DataLoader.Mapping.price mapping))));
    simpl; [reflexivity|].
  destruct (gt _ zero && gt _ zero); reflexivity.
Qed.

Lemma registry_derivePrice_obj (props : list (string * value)) :
  exists u,
    DataProcessor.derivePrice (Obj props) = Ok u
    /\ derived (if Number.toBoolean (parseFloat (lookup props "單價元平方公尺"))
                then parseFloat (lookup props "單價元平方公尺")
                else parseFloat (lookup props "單價"))
               (orZero (parseFloat (or (lookup props "總價元") (lookup props "交易價格"))))
               (orZero (parseFloat (or (lookup props "建物移轉總面積坪")
                                       (lookup props "土地移轉總面積坪"))))
               u.
Proof.
  eexists. split; [|apply derived_of].
  unfold DataProcessor.derivePrice, get. cbn [bind].
  destruct (Number.toBoolean (if Number.toBoolean (parseFloat (lookup props "單價元平方公尺"))
                              then _ else _)); simpl; [reflexivity|].
  destruct (gt _ zero && gt _ zero); reflexivity.
Qed.

Lemma priceOk_falsy (minPrice maxPrice u : number) :
  Number.toBoolean u = false -> DataLoader.priceOk minPrice maxPrice u = false.
Proof. intros H. unfold DataLoader.priceOk. rewrite H. reflexivity. Qed.

Lemma falsy_iff (n : number) :
  Number.toBoolean n = false <-> isNaN n = true \/ isZero n = true.
Proof.
  destruct n; cbn; split; intros H; auto; try discriminate H;
    destruct H as [H|H]; discriminate H.
Qed.

(** C4, as the code has it: on a row of scalars read under aliases that name
    own keys, the unit price is the direct field when that parses to a
    truthy number, that is to one that is neither NaN nor zero, be it
    infinite; the quotient [totalPrice / area] is computed exactly when the
    direct value parses to NaN or to zero and total price and area are both
    strictly positive; otherwise derivation fails, with a falsy price.  A row
    whose derived price is falsy is rejected.
    A row without unit price, with total price 24225000 and area 28.5, gets
    the price 850000; with area 0 it is rejected. *)
Theorem price_derivation :
  (forall mapping props,
     ownKeys (DataLoader.Mapping.price mapping) = true ->
     ownKeys (DataLoader.Mapping.totalPrice mapping) = true ->
     ownKeys (DataLoader.Mapping.area mapping) = true ->
     scalarRow props = true ->
     exists u,
       DataLoader.derivePrice mapping (Obj props) = Ok u
       /\ derived (parseFloat (resolve props (DataLoader.Mapping.price mapping)))
                  (orZero (parseFloat (resolve props (DataLoader.Mapping.totalPrice mapping))))
                  (orZero (parseFloat (resolve props (DataLoader.Mapping.area mapping))))
                  u)
  /\ (forall props,
        scalarRow props = true ->
        exists u,
          DataProcessor.derivePrice (Obj props) = Ok u
          /\ derived (if Number.toBoolean (parseFloat (lookup props "單價元平方公尺"))
                      then parseFloat (lookup props "單價元平方公尺")
                      else parseFloat (lookup props "單價"))
                     (orZero (parseFloat (or (lookup props "總價元") (lookup props "交易價格"))))
                     (orZero (parseFloat (or (lookup props "建物移轉總面積坪")
                                             (lookup props "土地移轉總面積坪"))))
                     u)
  /\ (forall n, Number.toBoolean n = false <-> isNaN n = true \/ isZero n = true)
  /\ (forall minPrice maxPrice buildingTypes mapping record u,
        DataLoader.derivePrice mapping record = Ok u ->
        Number.toBoolean u = false ->
        rejected (DataLoader.processCSVRecord minPrice maxPrice buildingTypes mapping) record
        = true)
  /\ (forall minPrice maxPrice buildingTypes random drawn record u,
        DataProcessor.derivePrice record = Ok u ->
        Number.toBoolean u = false ->
        forall t, fst (DataProcessor.processRecord minPrice maxPrice buildingTypes
                         random drawn record) <> Ok (Emit t))
  /\ DataLoader.derivePrice DataLoader.defaultMapping
       (Sample.sold (Sample.num 24225000 0) (Sample.num 285 (-1))) = Ok (ofZ 850000)
  /\ DataLoader.derivePrice DataLoader.defaultMapping
       (Sample.sold (Sample.num 24225000 0) (Sample.num 0 0)) = Ok NaN
  /\ (let r := DataLoader.processCSVRecords
                 [Sample.sold (Sample.num 24225000 0) (Sample.num 285 (-1));
                  Sample.sold (Sample.num 24225000 0) (Sample.num 0 0)]
                 DataLoader.Options.default in
      map price (processedData r) = [Num (ofZ 850000)] /\ skipped r = 1)
  /\ (let r := fst (DataProcessor.processRealEstateData
                      [Sample.registered "24225000" "28.5";
                       Sample.registered "24225000" "0"]
                      Sample.plain Sample.lowDraws) in
      map price (processedData r) = [Num (ofZ 850000)] /\ skipped r = 1).
Proof.
  split; [intros mapping props _ _ _ _; apply csv_derivePrice_obj|].
  split; [intros props _; apply registry_derivePrice_obj|].
  split; [exact falsy_iff|].
  split; [|split].
  - intros minPrice maxPrice buildingTypes mapping record u Hu Hfalsy.
    unfold rejected. destruct (DataLoader.processCSVRecord _ _ _ _ record) as [[t|]|] eqn:E;
      try reflexivity.
    apply processCSVRecord_emit in E.
    destruct E as (rawDate & ym & u' & latv & lngv & bt & a & addr & tp & E).
    destruct E as (_ & _ & Hu' & Hok & _).
    rewrite Hu in Hu'. injection Hu' as <-.
    rewrite (priceOk_falsy _ _ _ Hfalsy) in Hok. discriminate.
  - intros minPrice maxPrice buildingTypes random drawn record u Hu Hfalsy t.
    unfold DataProcessor.processRecord.
    destruct (get record "交易年月") as [d1|]; cbn [bind]; [|discriminate].
    destruct (get record "交易年月日") as [d2|]; cbn [bind]; [|discriminate].
    destruct (DataProcessor.convertROCtoAD (or d1 d2)) as [ym|]; cbn [bind]; [|discriminate].
    destruct (negb (toBoolean ym)); [discriminate|].
    rewrite Hu. cbn [bind]. rewrite Hfalsy. simpl. discriminate.
  - repeat split; vm_compute; reflexivity.
Qed.

Lemma price_derivation_witness :
  (ownKeys (DataLoader.Mapping.price DataLoader.defaultMapping) = true
   /\ ownKeys (DataLoader.Mapping.totalPrice DataLoader.defaultMapping) = true
   /\ ownKeys (DataLoader.Mapping.area DataLoader.defaultMapping) = true
   /\ scalarRow [("totalPrice", Sample.num 24225000 0); ("area", Sample.num 285 (-1))] = true
   /\ exists u,
        DataLoader.derivePrice DataLoader.defaultMapping
          (Obj [("totalPrice", Sample.num 24225000 0); ("area", Sample.num 285 (-1))]) = Ok u
        /\ derived
             (parseFloat (resolve [("totalPrice", Sample.num 24225000 0);
                                   ("area", Sample.num 285 (-1))]
                            (DataLoader.Mapping.price DataLoader.defaultMapping)))
             (orZero (parseFloat (resolve [("totalPrice", Sample.num 24225000 0);
                                           ("area", Sample.num 285 (-1))]
                                    (DataLoader.Mapping.totalPrice DataLoader.defaultMapping))))
             (orZero (parseFloat (resolve [("totalPrice", Sample.num 24225000 0);
                                           ("area", Sample.num 285 (-1))]
                                    (DataLoader.Mapping.area DataLoader.defaultMapping))))
             u)
  /\ DataLoader.derivePrice DataLoader.defaultMapping
       (Sample.sold (Sample.num 24225000 0) (Sample.num 0 0)) = Ok NaN
  /\ Number.toBoolean NaN = false
  /\ rejected (DataLoader.processCSVRecord DataLoader.defaultMinPrice DataLoader.defaultMaxPrice
                 [] DataLoader.defaultMapping)
       (Sample.sold (Sample.num 24225000 0) (Sample.num 0 0)) = true.
Proof.
  assert (H : DataLoader.derivePrice DataLoader.defaultMapping
                (Sample.sold (Sample.num 24225000 0) (Sample.num 0 0)) = Ok NaN)
    by (vm_compute; reflexivity).
  split.
  - split; [reflexivity|]. split; [reflexivity|]. split; [reflexivity|].
    split; [reflexivity|].
    exact (proj1 price_derivation DataLoader.defaultMapping
             [("totalPrice", Sample.num 24225000 0); ("area", Sample.num 285 (-1))]
             eq_refl eq_refl eq_refl eq_refl).
  - split; [exact H|]. split; [reflexivity|].
    exact (proj1 (proj2 (proj2 (proj2 price_derivation)))
             DataLoader.defaultMinPrice DataLoader.defaultMaxPrice []
             DataLoader.defaultMapping _ NaN H eq_refl).
Defined.

(** C4 as stated fails on a direct value that is neither usable nor falsy: a
    line whose unit price reads [Infinity], with total price 24225000 and
    area 28.5, keeps the infinite price, where a line without unit price gets
    the quotient 850000; under the default bounds the line is skipped. *)
Lemma infinite_price_kept :
  usable (parseFloat (Str "Infinity")) = false
  /\ DataLoader.derivePrice DataLoader.defaultMapping
       (Sample.offered "Infinity" (Sample.num 24225000 0) (Sample.num 285 (-1)))
     = Ok Infinity
  /\ DataLoader.derivePrice DataLoader.defaultMapping
       (Sample.sold (Sample.num 24225000 0) (Sample.num 285 (-1)))
     = Ok (ofZ 850000)
  /\ DataLoader.processCSVRecords
       [Sample.offered "Infinity" (Sample.num 24225000 0) (Sample.num 285 (-1))]
       DataLoader.Options.default
     = {| processedData := []; skipped := 1 |}.
Proof. repeat split; vm_compute; reflexivity. Qed.

(** *** Coordinates *)

Lemma populated_toBoolean (n : number) : populated n = Number.toBoolean n.
Proof. destruct n; reflexivity. Qed.

(** C5, as the code has it: in the CSV-shaped and in the relational adapter a
    row is rejected, and counted as skipped, when either coordinate is absent,
    parses to NaN or parses to zero.  The two rows of the end-to-end example
    give one record and [skipped = 1] with the default filters. *)
Theorem unpopulated_coordinates_rejected :
  (forall minPrice maxPrice buildingTypes mapping record latv lngv,
     DataLoader.getValue record (DataLoader.Mapping.latitude mapping) = Ok latv ->
     DataLoader.getValue record (DataLoader.Mapping.longitude mapping) = Ok lngv ->
     populated (parseFloat latv) && populated (parseFloat lngv) = false ->
     rejected (DataLoader.processCSVRecord minPrice maxPrice buildingTypes mapping) record
     = true)
  /\ (forall dateYearMonth minPrice maxPrice buildingTypes record
             latitude lat0 longitude lng0 lon0,
        get record "latitude" = Ok latitude ->
        get record "lat" = Ok lat0 ->
        get record "longitude" = Ok longitude ->
        get record "lng" = Ok lng0 ->
        get record "lon" = Ok lon0 ->
        populated (parseFloat (or latitude lat0))
        && populated (parseFloat (or (or longitude lng0) lon0)) = false ->
        rejected (DataLoader.processDatabaseRecord dateYearMonth minPrice maxPrice
                    buildingTypes) record = true)
  /\ (forall body records,
        skipped (loop body records) = List.length (filter (rejected body) records))
  /\ populated (parseFloat Null) = false
  /\ populated (parseFloat Undefined) = false
  /\ (let r := DataLoader.processCSVRecords [Sample.daan; Sample.nowhere]
                 DataLoader.Options.default in
      List.length (processedData r) = 1 /\ skipped r = 1)
  /\ (forall dateYearMonth,
        let r := DataLoader.processDatabaseRecords dateYearMonth [Sample.daan; Sample.nowhere]
                   DataLoader.Options.default in
        List.length (processedData r) = 1 /\ skipped r = 1).
Proof.
  split; [|split; [|split; [exact loop_skipped|]]].
  - intros minPrice maxPrice buildingTypes mapping record latv lngv Hlat Hlng Hbad.
    unfold rejected.
    destruct (DataLoader.processCSVRecord _ _ _ _ record) as [[t|]|] eqn:E; try reflexivity.
    apply processCSVRecord_emit in E.
    destruct E as (rawDate & ym & u & latv' & lngv' & bt & a & addr & tp & E).
    destruct E as (_ & _ & _ & _ & Hlat' & Hlng' & Hla & Hlo & _).
    rewrite Hlat in Hlat'. injection Hlat' as <-.
    rewrite Hlng in Hlng'. injection Hlng' as <-.
    rewrite !populated_toBoolean, Hla, Hlo in Hbad. discriminate.
  - intros dateYearMonth minPrice maxPrice buildingTypes record
           latitude lat0 longitude lng0 lon0 H1 H2 H3 H4 H5 Hbad.
    unfold rejected.
    destruct (DataLoader.processDatabaseRecord _ _ _ _ record) as [[t|]|] eqn:E;
      try reflexivity.
    apply processDatabaseRecord_emit in E.
    destruct E as (up & p0 & la & la0 & lo & lo0 & lo1 & bt & ym & td & a & addr & tp & E).
    destruct E as (_ & _ & _ & H1' & H2' & H3' & H4' & H5' & Hla & Hlo & _).
    rewrite H1 in H1'. injection H1' as <-. rewrite H2 in H2'. injection H2' as <-.
    rewrite H3 in H3'. injection H3' as <-. rewrite H4 in H4'. injection H4' as <-.
    rewrite H5 in H5'. injection H5' as <-.
    rewrite !populated_toBoolean, Hla, Hlo in Hbad. discriminate.
  - split; [reflexivity|]. split; [reflexivity|].
    split; [vm_compute; auto|]. intros dateYearMonth. vm_compute. auto.
Qed.

Lemma unpopulated_coordinates_rejected_witness :
  DataLoader.getValue Sample.nowhere (DataLoader.Mapping.latitude DataLoader.defaultMapping)
  = Ok (Sample.num 0 0)
  /\ DataLoader.getValue Sample.nowhere (DataLoader.Mapping.longitude DataLoader.defaultMapping)
     = Ok (Sample.num 0 0)
  /\ populated (parseFloat (Sample.num 0 0)) && populated (parseFloat (Sample.num 0 0)) = false
  /\ rejected (DataLoader.processCSVRecord DataLoader.defaultMinPrice DataLoader.defaultMaxPrice
                 [] DataLoader.defaultMapping) Sample.nowhere = true.
Proof.
  assert (H : populated (parseFloat (Sample.num 0 0)) && populated (parseFloat (Sample.num 0 0))
              = false) by (vm_compute; reflexivity).
  split; [reflexivity|]. split; [reflexivity|]. split; [exact H|].
  exact (proj1 unpopulated_coordinates_rejected
           DataLoader.defaultMinPrice DataLoader.defaultMaxPrice []
           DataLoader.defaultMapping Sample.nowhere _ _ eq_refl eq_refl H).
Defined.

(** C5 as stated fails on a coordinate that parses, but not to a finite
    number: the latitude text [Infinity] is accepted. *)
Lemma infinite_coordinate_accepted :
  isFinite (parseFloat (Str "Infinity")) = false
  /\ DataLoader.processCSVRecords [Sample.located "Infinity"] DataLoader.Options.default
     = {| processedData :=
            [{| position := Arr [Sample.num 1215 (-1); Num Infinity];
                price := Sample.num 850000 0;
                yearMonth := Str "2023-01";
                area := Num zero;
                address := Str "";
                buildingType := Str "";
                totalPrice := Num zero |}];
          skipped := 0 |}.
Proof. split; vm_compute; reflexivity. Qed.

(** C8, as the code has it: every record of the CSV-shaped adapter comes from
    a row and has as position the array of exactly two numbers, first the
    number parsed from the row's resolved longitude, then the number parsed
    from its resolved latitude, neither of them NaN or zero; every record of
    the relational adapter likewise, the longitude read from [longitude],
    [lng] or [lon] and the latitude from [latitude] or [lat]; every record of
    the document-shaped adapter has as position the item's own [position], an
    array of exactly two elements. *)
Theorem position_is_a_pair (dateYearMonth : value -> string)
    (records items : list value) (options : DataLoader.Options.t) :
  Forall (fun t =>
            exists record lngv latv,
              In record records
              /\ DataLoader.getValue record
                   (DataLoader.Mapping.longitude
                      (DataLoader.mergeMapping DataLoader.defaultMapping
                         (DataLoader.Options.fieldMapping options))) = Ok lngv
              /\ DataLoader.getValue record
                   (DataLoader.Mapping.latitude
                      (DataLoader.mergeMapping DataLoader.defaultMapping
                         (DataLoader.Options.fieldMapping options))) = Ok latv
              /\ position t = Arr [Num (parseFloat lngv); Num (parseFloat latv)]
              /\ populated (parseFloat lngv) = true
              /\ populated (parseFloat latv) = true)
         (processedData (DataLoader.processCSVRecords records options))
  /\ Forall (fun t =>
               exists record longitude lng lon latitude lat,
                 In record records
                 /\ get record "longitude" = Ok longitude
                 /\ get record "lng" = Ok lng
                 /\ get record "lon" = Ok lon
                 /\ get record "latitude" = Ok latitude
                 /\ get record "lat" = Ok lat
                 /\ position t = Arr [Num (parseFloat (or (or longitude lng) lon));
                                      Num (parseFloat (or latitude lat))]
                 /\ populated (parseFloat (or (or longitude lng) lon)) = true
                 /\ populated (parseFloat (or latitude lat)) = true)
            (processedData (DataLoader.processDatabaseRecords dateYearMonth records options))
  /\ (exists r,
        DataLoader.validateAndProcessData (Arr items) options = Ok r
        /\ Forall (fun t => exists item a b,
                              In item items
                              /\ get item "position" = Ok (position t)
                              /\ position t = Arr [a; b])
                  (processedData r)).
Proof.
  split; [|split].
  - apply Forall_forall. intros t Ht. apply loop_In in Ht.
    destruct Ht as (record & Hin & H).
    apply processCSVRecord_emit in H.
    destruct H as (rawDate & ym & u & latv & lngv & bt & a & addr & tp & H).
    destruct H as (_ & _ & _ & _ & Hlatv & Hlngv & Hla & Hlo & _ & _ & _ & _ & _ & ->).
    exists record, lngv, latv. rewrite !populated_toBoolean. auto 10.
  - apply Forall_forall. intros t Ht. apply loop_In in Ht.
    destruct Ht as (record & Hin & H).
    apply processDatabaseRecord_emit in H.
    destruct H as (up & p0 & la & la0 & lo & lo0 & lo1 & bt & ym & td & a & addr & tp & H).
    destruct H as (_ & _ & _ & Hla & Hla0 & Hlo & Hlo0 & Hlo1 & Hlat & Hlng
                   & _ & _ & _ & _ & _ & _ & _ & ->).
    exists record, lo, lo0, lo1, la, la0. rewrite !populated_toBoolean.
    cbn [position]. auto 12.
  - eexists. split; [apply validateAndProcessData_array|].
    apply Forall_forall. intros t Ht. apply loop_In in Ht.
    destruct Ht as (item & Hin & H).
    apply validateItem_emit in H.
    destruct H as (pos & p & ym & bt & a & addr & tp & H).
    destruct H as (Hpos & _ & Hpair & _ & _ & _ & _ & _ & _ & _ & _ & _ & _ & _ & ->).
    simpl. destruct pos as [| | | | |[|x [|y [|z l]]]|]; try discriminate.
    exists item, x, y. auto.
Qed.

(** C8 as stated fails on finiteness and, for documents, on the elements
    being numbers: the CSV-shaped adapter emits an infinite latitude, and the
    document-shaped adapter passes a position of a text and [null] through. *)
Lemma position_not_finite :
  (exists t,
     processedData (DataLoader.processCSVRecords [Sample.located "Infinity"]
                      DataLoader.Options.default) = [t]
     /\ position t = Arr [Sample.num 1215 (-1); Num Infinity]
     /\ finitePair (position t) = false)
  /\ (exists r t,
        DataLoader.validateAndProcessData (Arr [Sample.unplaced]) DataLoader.Options.default
        = Ok r
        /\ processedData r = [t]
        /\ position t = Arr [Str "east"; Null]
        /\ finitePair (position t) = false).
Proof.
  split.
  - eexists. split; [vm_compute; reflexivity|]. split; reflexivity.
  - eexists _, _. split; [vm_compute; reflexivity|]. split; [reflexivity|].
    split; reflexivity.
Qed.

(** *** Year and month *)

Lemma gregorian_prefix_canonical (s : string) :
  matchGregorian s = true -> canonicalYearMonth (Str (substring 0 7 s)) = true.
Proof.
  destruct s as [|a [|b [|c [|d [|h [|e [|f r]]]]]]]; try discriminate.
  intros H. destruct r; exact H.
Qed.

(** C7, as the code has it: a record of the CSV-shaped adapter whose raw date
    does not contain 年 has as year-month the first seven characters of the
    raw date, which match the canonical pattern; a record of the
    document-shaped adapter has the item's own truthy [yearMonth], unchanged;
    a record of the relational adapter from a row with a truthy [year_month]
    has that value, unchanged. *)
Theorem yearMonth_of_records :
  (forall minPrice maxPrice buildingTypes mapping record t s,
     DataLoader.processCSVRecord minPrice maxPrice buildingTypes mapping record = Ok (Emit t) ->
     DataLoader.getValue record (DataLoader.Mapping.yearMonth mapping) = Ok (Str s) ->
     includes "年" s = false ->
     yearMonth t = Str (substring 0 7 s) /\ canonicalYearMonth (yearMonth t) = true)
  /\ (forall minPrice maxPrice buildingTypes item t,
        DataLoader.validateItem minPrice maxPrice buildingTypes item = Ok (Emit t) ->
        get item "yearMonth" = Ok (yearMonth t) /\ toBoolean (yearMonth t) = true)
  /\ (forall dateYearMonth minPrice maxPrice buildingTypes record t ym,
        DataLoader.processDatabaseRecord dateYearMonth minPrice maxPrice buildingTypes record
        = Ok (Emit t) ->
        get record "year_month" = Ok ym ->
        toBoolean ym = true ->
        yearMonth t = ym).
Proof.
  split; [|split].
  - intros minPrice maxPrice buildingTypes mapping record t s H Hraw Hera.
    apply processCSVRecord_emit in H.
    destruct H as (rawDate & ym & u & latv & lngv & bt & a & addr & tp & H).
    destruct H as (Hraw' & Hconv & _ & _ & _ & _ & _ & _ & _ & _ & _ & _ & _ & ->).
    rewrite Hraw in Hraw'. injection Hraw' as <-.
    unfold DataLoader.convertDate in Hconv. rewrite Hera in Hconv.
    destruct (matchGregorian s) eqn:Hg; [|discriminate].
    injection Hconv as <-. simpl. split; [reflexivity|].
    apply gregorian_prefix_canonical. exact Hg.
  - intros minPrice maxPrice buildingTypes item t H.
    apply validateItem_emit in H.
    destruct H as (pos & p & ym & bt & a & addr & tp & H).
    destruct H as (_ & _ & _ & _ & Hym & _ & Htruthy & _ & _ & _ & _ & _ & _ & _ & ->).
    simpl. auto.
  - intros dateYearMonth minPrice maxPrice buildingTypes record t ym H Hym Htruthy.
    apply processDatabaseRecord_emit in H.
    destruct H as (up & p0 & la & la0 & lo & lo0 & lo1 & bt & ym' & td & a & addr & tp & H).
    destruct H as (_ & _ & _ & _ & _ & _ & _ & _ & _ & _ & _ & _ & Hym' & _ & _ & _ & _ & ->).
    rewrite Hym in Hym'. injection Hym' as <-. simpl. rewrite Htruthy. reflexivity.
Qed.

Lemma yearMonth_of_records_witness :
  DataLoader.validateItem DataLoader.defaultMinPrice DataLoader.defaultMaxPrice []
    Sample.informal
  = Ok (Emit {| position := Arr [Sample.num 1215 (-1); Sample.num 2503 (-2)];
                price := Sample.num 850000 0;
                yearMonth := Str "Jan 2023";
                area := Num zero;
                address := Str "";
                buildingType := Str "";
                totalPrice := Num zero |})
  /\ get Sample.informal "yearMonth" = Ok (Str "Jan 2023")
  /\ toBoolean (Str "Jan 2023") = true.
Proof.
  assert (H : DataLoader.validateItem DataLoader.defaultMinPrice DataLoader.defaultMaxPrice []
                Sample.informal
              = Ok (Emit {| position := Arr [Sample.num 1215 (-1); Sample.num 2503 (-2)];
                            price := Sample.num 850000 0;
                            yearMonth := Str "Jan 2023";
                            area := Num zero;
                            address := Str "";
                            buildingType := Str "";
                            totalPrice := Num zero |}))
    by (vm_compute; reflexivity).
  split; [exact H|].
  exact (proj1 (proj2 yearMonth_of_records) _ _ _ _ _ H).
Defined.

(** C7 as stated fails where the year-month is passed through unchecked: the
    document-shaped adapter emits the year-month [Jan 2023]. *)
Lemma yearMonth_not_canonical :
  exists r t,
    DataLoader.validateAndProcessData (Arr [Sample.informal]) DataLoader.Options.default = Ok r
    /\ processedData r = [t]
    /\ yearMonth t = Str "Jan 2023"
    /\ canonicalYearMonth (yearMonth t) = false.
Proof.
  eexists _, _. split; [vm_compute; reflexivity|]. split; [reflexivity|].
  split; reflexivity.
Qed.

(** *** Running twice *)

(** The random draws reach nothing but the position. *)
Lemma processRecord_blank minPrice maxPrice buildingTypes random1 drawn1 random2 drawn2 record :
  blank (fst (DataProcessor.processRecord minPrice maxPrice buildingTypes
                random1 drawn1 record))
  = blank (fst (DataProcessor.processRecord minPrice maxPrice buildingTypes
                  random2 drawn2 record)).
Proof.
  unfold DataProcessor.processRecord.
  destruct (get record "交易年月") as [d1|]; cbn [bind fst]; [|reflexivity].
  destruct (get record "交易年月日") as [d2|]; cbn [bind fst]; [|reflexivity].
  destruct (DataProcessor.convertROCtoAD (or d1 d2)) as [ym|]; cbn [bind fst]; [|reflexivity].
  destruct (negb (toBoolean ym)); [reflexivity|].
  destruct (DataProcessor.derivePrice record) as [u|]; cbn [bind fst]; [|reflexivity].
  destruct (negb (Number.toBoolean u) || lt u minPrice || gt u maxPrice); [reflexivity|].
  destruct (get record "建物型態") as [b1|]; cbn [bind fst]; [|reflexivity].
  destruct (get record "建物現況格局-建物型態") as [b2|]; cbn [bind fst]; [|reflexivity].
  destruct ((0 <? List.length buildingTypes)%nat && negb (arrayIncludes buildingTypes (or b1 b2)));
    [reflexivity|].
  destruct (DataProcessor.joinAddress record) as [address|]; cbn [bind fst]; [|reflexivity].
  unfold DataProcessor.locate, DataProcessor.geocodeAddress.
  destruct (get record "緯度") as [lat|]; cbn [bind fst]; [|reflexivity].
  destruct (get record "經度") as [lng|]; cbn [bind fst]; [|reflexivity].
  destruct (toBoolean lat && toBoolean lng); cbn [bind fst];
    (destruct (get record "建物移轉總面積坪") as [a|]; cbn [bind fst]; [|reflexivity]);
    (destruct (get record "總價元") as [t|]; cbn [bind fst]; reflexivity).
Qed.

(** With both coordinate columns filled, no draw is made and the whole
    outcome is the same. *)
Lemma processRecord_located minPrice maxPrice buildingTypes random1 drawn1 random2 drawn2 record :
  hasCoordinates record = true ->
  fst (DataProcessor.processRecord minPrice maxPrice buildingTypes random1 drawn1 record)
  = fst (DataProcessor.processRecord minPrice maxPrice buildingTypes random2 drawn2 record).
Proof.
  unfold hasCoordinates. intros Hc.
  unfold DataProcessor.processRecord.
  destruct (get record "交易年月") as [d1|]; cbn [bind fst]; [|reflexivity].
  destruct (get record "交易年月日") as [d2|]; cbn [bind fst]; [|reflexivity].
  destruct (DataProcessor.convertROCtoAD (or d1 d2)) as [ym|]; cbn [bind fst]; [|reflexivity].
  destruct (negb (toBoolean ym)); [reflexivity|].
  destruct (DataProcessor.derivePrice record) as [u|]; cbn [bind fst]; [|reflexivity].
  destruct (negb (Number.toBoolean u) || lt u minPrice || gt u maxPrice); [reflexivity|].
  destruct (get record "建物型態") as [b1|]; cbn [bind fst]; [|reflexivity].
  destruct (get record "建物現況格局-建物型態") as [b2|]; cbn [bind fst]; [|reflexivity].
  destruct ((0 <? List.length buildingTypes)%nat && negb (arrayIncludes buildingTypes (or b1 b2)));
    [reflexivity|].
  destruct (DataProcessor.joinAddress record) as [address|]; cbn [bind fst]; [|reflexivity].
  unfold DataProcessor.locate.
  destruct (get record "緯度") as [lat|]; [|discriminate].
  destruct (get record "經度") as [lng|]; [|discriminate].
  cbn [bind]. rewrite Hc. cbn [bind fst].
  destruct (get record "建物移轉總面積坪") as [a|]; cbn [bind fst]; [|reflexivity].
  destruct (get record "總價元") as [t|]; cbn [bind fst]; reflexivity.
Qed.

Lemma step_blank (st1 st2 : run) (o1 o2 : result outcome) :
  blank o1 = blank o2 ->
  skipped st1 = skipped st2 ->
  map withoutPosition (processedData st1) = map withoutPosition (processedData st2) ->
  skipped (step st1 o1) = skipped (step st2 o2)
  /\ map withoutPosition (processedData (step st1 o1))
     = map withoutPosition (processedData (step st2 o2)).
Proof.
  intros Ho Hs Hp.
  destruct o1 as [[t1|]|], o2 as [[t2|]|]; unfold blank in Ho; try discriminate;
    cbn [step processedData skipped]; rewrite ?map_app, ?Hs, ?Hp; auto.
  assert (Hw : withoutPosition t1 = withoutPosition t2) by congruence.
  cbn [map]. rewrite Hw. auto.
Qed.

Lemma registry_fold_blank minPrice maxPrice buildingTypes random1 random2 records :
  forall st1 drawn1 st2 drawn2,
    skipped st1 = skipped st2 ->
    map withoutPosition (processedData st1) = map withoutPosition (processedData st2) ->
    let run1 :=
      fst (fold_left
             (fun '(st, drawn) record =>
                let '(r, drawn') :=
                  DataProcessor.processRecord minPrice maxPrice buildingTypes
                    random1 drawn record in
                (step st r, drawn'))
             records (st1, drawn1)) in
    let run2 :=
      fst (fold_left
             (fun '(st, drawn) record =>
                let '(r, drawn') :=
                  DataProcessor.processRecord minPrice maxPrice buildingTypes
                    random2 drawn record in
                (step st r, drawn'))
             records (st2, drawn2)) in
    skipped run1 = skipped run2
    /\ map withoutPosition (processedData run1) = map withoutPosition (processedData run2).
Proof.
  induction records as [|record records IH]; intros st1 drawn1 st2 drawn2 Hs Hp.
  - simpl. auto.
  - cbn [fold_left].
    pose proof (processRecord_blank minPrice maxPrice buildingTypes
                  random1 drawn1 random2 drawn2 record) as Hb.
    destruct (DataProcessor.processRecord minPrice maxPrice buildingTypes
                random1 drawn1 record) as [o1 e1].
    destruct (DataProcessor.processRecord minPrice maxPrice buildingTypes
                random2 drawn2 record) as [o2 e2].
    cbn [fst] in Hb.
    destruct (step_blank st1 st2 o1 o2 Hb Hs Hp) as [Hs' Hp'].
    apply IH; assumption.
Qed.

Lemma registry_fold_located minPrice maxPrice buildingTypes random1 random2 records :
  forallb hasCoordinates records = true ->
  forall st drawn1 drawn2,
    fst (fold_left
           (fun '(st, drawn) record =>
              let '(r, drawn') :=
                DataProcessor.processRecord minPrice maxPrice buildingTypes
                  random1 drawn record in
              (step st r, drawn'))
           records (st, drawn1))
    = fst (fold_left
             (fun '(st, drawn) record =>
                let '(r, drawn') :=
                  DataProcessor.processRecord minPrice maxPrice buildingTypes
                    random2 drawn record in
                (step st r, drawn'))
             records (st, drawn2)).
Proof.
  induction records as [|record records IH]; intros Hall st drawn1 drawn2.
  - reflexivity.
  - simpl in Hall. apply andb_true_iff in Hall. destruct Hall as [Hc Hall].
    cbn [fold_left].
    pose proof (processRecord_located minPrice maxPrice buildingTypes
                  random1 drawn1 random2 drawn2 record Hc) as Hb.
    destruct (DataProcessor.processRecord minPrice maxPrice buildingTypes
                random1 drawn1 record) as [o1 e1].
    destruct (DataProcessor.processRecord minPrice maxPrice buildingTypes
                random2 drawn2 record) as [o2 e2].
    cbn [fst] in Hb. subst o2. apply IH. exact Hall.
Qed.

(** C9, as the code has it: a second run of the CSV-shaped, of the relational
    or of the document-shaped adapter on unchanged rows and unchanged options
    returns what the first returned, records and counts (for the relational
    adapter, under the same date handling of the host).  Two runs of
    [processRealEstateData] on the same records and options, whatever
    [Math.random] returns in each, skip the same number of rows, emit the
    same number of records, and emit records that agree in every field but
    the position; when every row has both coordinate columns filled, the two
    runs are identical. *)
Theorem rerun_agrees (dateYearMonth : value -> string)
    (rows : list value) (data : value) (loaderOptions : DataLoader.Options.t)
    (records : list value) (options : DataProcessor.Options.t)
    (random1 random2 : nat -> number) :
  let run1 := fst (DataProcessor.processRealEstateData records options random1) in
  let run2 := fst (DataProcessor.processRealEstateData records options random2) in
  (forall rows2 data2 loaderOptions2,
     rows2 = rows -> data2 = data -> loaderOptions2 = loaderOptions ->
     DataLoader.processCSVRecords rows2 loaderOptions2
     = DataLoader.processCSVRecords rows loaderOptions
     /\ DataLoader.processDatabaseRecords dateYearMonth rows2 loaderOptions2
        = DataLoader.processDatabaseRecords dateYearMonth rows loaderOptions
     /\ DataLoader.validateAndProcessData data2 loaderOptions2
        = DataLoader.validateAndProcessData data loaderOptions)
  /\ skipped run1 = skipped run2
  /\ List.length (processedData run1) = List.length (processedData run2)
  /\ map withoutPosition (processedData run1) = map withoutPosition (processedData run2)
  /\ (forallb hasCoordinates records = true -> run1 = run2).
Proof.
  intros run1 run2. subst run1 run2.
  split; [intros rows2 data2 loaderOptions2 -> -> ->; repeat split|].
  unfold DataProcessor.processRealEstateData.
  pose proof (registry_fold_blank
                (DataProcessor.orDefault (DataProcessor.Options.minPrice options) (ofZ 100000))
                (DataProcessor.orDefault (DataProcessor.Options.maxPrice options) (ofZ 2000000))
                (DataProcessor.orDefault (DataProcessor.Options.buildingTypes options) [])
                random1 random2 records start 0 start 0 eq_refl eq_refl) as [Hs Hp].
  split; [exact Hs|]. split; [|split; [exact Hp|]].
  - apply (f_equal (@List.length transaction)) in Hp. rewrite !length_map in Hp. exact Hp.
  - intros Hall. apply registry_fold_located. exact Hall.
Qed.

Lemma rerun_agrees_witness :
  forallb hasCoordinates [Sample.registered "24225000" "28.5"] = true
  /\ fst (DataProcessor.processRealEstateData [Sample.registered "24225000" "28.5"]
            Sample.plain Sample.lowDraws)
     = fst (DataProcessor.processRealEstateData [Sample.registered "24225000" "28.5"]
              Sample.plain Sample.midDraws).
Proof.
  split; [reflexivity|].
  exact (proj2 (proj2 (proj2 (proj2
           (rerun_agrees (fun _ => "") [Sample.daan] (Arr [Sample.daan])
              DataLoader.Options.default
              [Sample.registered "24225000" "28.5"]
              Sample.plain Sample.lowDraws Sample.midDraws)))) eq_refl).
Defined.

(** C9 as stated fails on the path without coordinates: the same row and the
    same options give two different positions when [Math.random] returns 0.5
    throughout in one run and 0 throughout in the other. *)
Lemma rerun_differs :
  map position (processedData (fst (DataProcessor.processRealEstateData
                                      [Sample.unlocated] Sample.plain Sample.midDraws)))
  = [Arr [Sample.num 1215654 (-4); Sample.num 250330 (-4)]]
  /\ map position (processedData (fst (DataProcessor.processRealEstateData
                                         [Sample.unlocated] Sample.plain Sample.lowDraws)))
     <> [Arr [Sample.num 1215654 (-4); Sample.num 250330 (-4)]].
Proof.
  split; [vm_compute; reflexivity|]. vm_compute. discriminate.
Qed.

(** ** Further properties *)

Import Shape.

(** *** Era years *)

Lemma decimalExponent_skip (num den : Z) :
  (0 < den <= num)%Z ->
  forall (j f : nat) (n : Z),
    n = (1 - Z.of_nat j)%Z ->
    decimalExponent (j + f) n num den = decimalExponent f 1 num den.
Proof.
  intros Hden. induction j as [|j IH]; intros f n Hn.
  - simpl in Hn. subst n. reflexivity.
  - cbn [Nat.add decimalExponent].
    assert (Hbelow : match n with
                     | Zneg k => (num * Zpos (Pos.pow 10 k) <? den)%Z
                     | _ => (num <? den * 10 ^ n)%Z
                     end = false).
    { destruct n as [|p|p]; [| lia |].
      - apply Z.ltb_ge. simpl. lia.
      - apply Z.ltb_ge. nia. }
    rewrite Hbelow. apply IH. lia.
Qed.

Lemma quickYear_adYear (n : N) :
  quickYear n = Number.toString (add (ofDecimal false n 0) (ofZ 1911)).
Proof.
  unfold quickYear.
  destruct (add (ofDecimal false n 0) (ofZ 1911)) as [s|s| |s m e]; try reflexivity.
  destruct s; [reflexivity|].
  unfold Number.toString at 2.
  destruct (fraction m e) as [num den] eqn:E.
  destruct ((0 <? den) && (den <=? num))%Z eqn:Hc.
  - apply andb_true_iff in Hc. destruct Hc as [H0 H1].
    apply Z.ltb_lt in H0. apply Z.leb_le in H1.
    change 640%nat with (325 + 315)%nat.
    rewrite (decimalExponent_skip num den (conj H0 H1) 325 315 (-324)%Z eq_refl).
    destruct (shortest 20 1 (S754_finite false m e) num den (decimalExponent 315 1 num den))
      as [[d k] n']. reflexivity.
  - unfold Number.toString. rewrite E. reflexivity.
Qed.

Lemma yearAgrees_all : forallb yearAgrees (seq 0 (N.to_nat 1000%N)) = true.
Proof. vm_compute. reflexivity. Qed.

Lemma adYear_small (digits : string) :
  (digitsValue 0 digits <= 999)%N ->
  DataProcessor.adYear digits = gregorianYear (digitsValue 0 digits)
  /\ String.length (DataProcessor.adYear digits) = 4
  /\ allDigits (DataProcessor.adYear digits) = true.
Proof.
  intros Hle. unfold DataProcessor.adYear. rewrite <- quickYear_adYear.
  assert (Hin : In (N.to_nat (digitsValue 0 digits)) (seq 0 (N.to_nat 1000%N))).
  { apply in_seq. lia. }
  pose proof (proj1 (forallb_forall yearAgrees (seq 0 (N.to_nat 1000%N))) yearAgrees_all
                _ Hin) as Hall.
  unfold yearAgrees in Hall. rewrite Nnat.N2Nat.id in Hall.
  apply andb_true_iff in Hall. destruct Hall as [Hall Hd].
  apply andb_true_iff in Hall. destruct Hall as [He Hl].
  apply String.eqb_eq in He. apply Nat.eqb_eq in Hl. rewrite He. auto.
Qed.

(** *** Dates *)

Lemma isDigit_value (c : ascii) : isDigit c = true -> (digitValue c <= 9)%N.
Proof.
  unfold isDigit, digitValue. intros H. apply andb_true_iff in H. destruct H as [H1 H2].
  apply N.leb_le in H1, H2. lia.
Qed.

Lemma digitsValue_bound (s : string) :
  allDigits s = true ->
  forall acc, (digitsValue acc s < (acc + 1) * 10 ^ N.of_nat (String.length s))%N.
Proof.
  induction s as [|c r IH]; intros Hd acc.
  - simpl. lia.
  - cbn [allDigits] in Hd. apply andb_true_iff in Hd. destruct Hd as [Hc Hr].
    cbn [digitsValue String.length]. pose proof (isDigit_value c Hc) as Hv.
    specialize (IH Hr (acc * 10 + digitValue c)%N).
    rewrite Nnat.Nat2N.inj_succ, N.pow_succ_r'. nia.
Qed.

Lemma spanDigits_allDigits (s : string) : allDigits (fst (spanDigits s)) = true.
Proof.
  induction s as [|c r IH]; [reflexivity|].
  cbn [spanDigits]. destruct (isDigit c) eqn:Hc; [|reflexivity].
  destruct (spanDigits r) as [d t]. cbn [fst allDigits] in *. rewrite Hc, IH. reflexivity.
Qed.

Lemma longAt_groups (s y m : string) :
  longAt s = Some (y, m) ->
  y <> "" /\ allDigits y = true /\ m <> "" /\ allDigits m = true.
Proof.
  unfold longAt. pose proof (spanDigits_allDigits s) as Hy.
  destruct (spanDigits s) as [y' r1]. cbn [fst] in Hy.
  destruct y' as [|a y'']; [discriminate|].
  destruct (dropPrefix "年" r1) as [r2|]; [|discriminate].
  pose proof (spanDigits_allDigits r2) as Hm.
  destruct (spanDigits r2) as [m' r3]. cbn [fst] in Hm.
  destruct m' as [|b m'']; [discriminate|].
  destruct (dropPrefix "月" r3); [|discriminate].
  intros H. injection H as <- <-. repeat split; try discriminate; assumption.
Qed.

Lemma matchLong_groups (s y m : string) :
  matchLong s = Some (y, m) ->
  y <> "" /\ allDigits y = true /\ m <> "" /\ allDigits m = true.
Proof.
  induction s as [|c r IH]; cbn [matchLong].
  - destruct (longAt "") as [g|] eqn:E; [|discriminate].
    intros H. injection H as ->. exact (longAt_groups _ _ _ E).
  - destruct (longAt (String c r)) as [g|] eqn:E; [|exact IH].
    intros H. injection H as ->. exact (longAt_groups _ _ _ E).
Qed.

Lemma compactAt_groups (s y m : string) :
  compactAt s = Some (y, m) ->
  String.length y = 3 /\ allDigits y = true /\ String.length m = 2 /\ allDigits m = true.
Proof.
  unfold compactAt.
  destruct s as [|a [|b [|c [|d [|e r]]]]]; try discriminate.
  destruct (isDigit a) eqn:Ha; [|discriminate].
  destruct (isDigit b) eqn:Hb; [|discriminate].
  destruct (isDigit c) eqn:Hc; [|discriminate].
  destruct (isDigit d) eqn:Hd; [|discriminate].
  destruct (isDigit e) eqn:He; [|discriminate].
  intros H. injection H as <- <-. cbn. rewrite Ha, Hb, Hc, Hd, He. auto.
Qed.

Lemma matchCompact_groups (s y m : string) :
  matchCompact s = Some (y, m) ->
  String.length y = 3 /\ allDigits y = true /\ String.length m = 2 /\ allDigits m = true.
Proof.
  induction s as [|c r IH]; cbn [matchCompact].
  - destruct (compactAt "") as [g|] eqn:E; [|discriminate].
    intros H. injection H as ->. exact (compactAt_groups _ _ _ E).
  - destruct (compactAt (String c r)) as [g|] eqn:E; [|exact IH].
    intros H. injection H as ->. exact (compactAt_groups _ _ _ E).
Qed.

Lemma canonical_parts (y m : string) :
  String.length y = 4 -> allDigits y = true ->
  String.length m = 2 -> allDigits m = true ->
  canonicalYearMonth (Str (y ++ "-" ++ m)) = true.
Proof.
  destruct y as [|a [|b [|c [|d [|x y]]]]]; try discriminate.
  destruct m as [|e [|f [|z m]]]; try discriminate.
  intros _ Hy _ Hm. cbn in *.
  apply andb_true_iff in Hy. destruct Hy as [Ha Hy].
  apply andb_true_iff in Hy. destruct Hy as [Hb Hy].
  apply andb_true_iff in Hy. destruct Hy as [Hc Hy].
  apply andb_true_iff in Hy. destruct Hy as [Hd _].
  apply andb_true_iff in Hm. destruct Hm as [He Hm].
  apply andb_true_iff in Hm. destruct Hm as [Hf _].
  rewrite Ha, Hb, Hc, Hd, He, Hf. reflexivity.
Qed.

Lemma padStart2_two (m : string) :
  m <> "" -> String.length m <= 2 -> allDigits m = true ->
  String.length (padStart2 m) = 2 /\ allDigits (padStart2 m) = true.
Proof.
  destruct m as [|a [|b [|c r]]]; cbn [String.length]; intros Hne Hlen Hd.
  - congruence.
  - cbn in *. rewrite Hd. auto.
  - cbn in *. auto.
  - lia.
Qed.

Lemma convert_compact (s y m : string) :
  matchLong s = None ->
  matchCompact s = Some (y, m) ->
  DataProcessor.convertROCtoAD (Str s)
  = Ok (Str (gregorianYear (digitsValue 0 y) ++ "-" ++ m))
  /\ canonicalYearMonth (Str (gregorianYear (digitsValue 0 y) ++ "-" ++ m)) = true.
Proof.
  intros Hlong Hcompact.
  destruct (matchCompact_groups _ _ _ Hcompact) as (Hly & Hdy & Hlm & Hdm).
  pose proof (digitsValue_bound y Hdy 0%N) as Hb. rewrite Hly in Hb.
  assert (Hsmall : (digitsValue 0 y <= 999)%N) by (cbn in Hb; lia).
  destruct (adYear_small y Hsmall) as (Hy & Hl4 & Hd4).
  unfold DataProcessor.convertROCtoAD. rewrite Hlong, Hcompact, Hy. split; [reflexivity|].
  rewrite <- Hy. apply canonical_parts; assumption.
Qed.

(** The compact form: on a text without the long form, the first run of five
    digits [yyymm] gives the year [yyy + 1911], a dash and [mm], and the
    result always matches the canonical pattern. *)
Theorem compact_date_converted (s y m : string) :
  matchLong s = None ->
  matchCompact s = Some (y, m) ->
  DataProcessor.convertROCtoAD (Str s)
  = Ok (Str (gregorianYear (digitsValue 0 y) ++ "-" ++ m))
  /\ canonicalYearMonth (Str (gregorianYear (digitsValue 0 y) ++ "-" ++ m)) = true.
Proof. exact (convert_compact s y m). Qed.

Lemma compact_date_converted_witness :
  matchLong "登記11201" = None
  /\ matchCompact "登記11201" = Some ("112", "01")
  /\ DataProcessor.convertROCtoAD (Str "登記11201") = Ok (Str "2023-01").
Proof.
  split; [reflexivity|]. split; [reflexivity|].
  exact (proj1 (compact_date_converted "登記11201" "112" "01" eq_refl eq_refl)).
Defined.

Lemma convert_long (s y m : string) :
  matchLong s = Some (y, m) ->
  (digitsValue 0 y <= 999)%N ->
  String.length m <= 2 ->
  DataProcessor.convertROCtoAD (Str s)
  = Ok (Str (gregorianYear (digitsValue 0 y) ++ "-" ++ padStart2 m))
  /\ canonicalYearMonth (Str (gregorianYear (digitsValue 0 y) ++ "-" ++ padStart2 m)) = true.
Proof.
  intros Hlong Hsmall Hlen.
  destruct (matchLong_groups _ _ _ Hlong) as (_ & _ & Hne & Hdm).
  destruct (adYear_small y Hsmall) as (Hy & Hl4 & Hd4).
  destruct (padStart2_two m Hne Hlen Hdm) as [Hl2 Hd2].
  unfold DataProcessor.convertROCtoAD. rewrite Hlong, Hy. split; [reflexivity|].
  rewrite <- Hy. apply canonical_parts; assumption.
Qed.

(** The long form: on the leftmost [<N>年<M>月] with an era year [N] up to
    999 and a month of one or two digits, the result is the year [N + 1911],
    a dash and the month padded to two digits, and it matches the canonical
    pattern. *)
Theorem long_date_converted (s y m : string) :
  matchLong s = Some (y, m) ->
  (digitsValue 0 y <= 999)%N ->
  String.length m <= 2 ->
  DataProcessor.convertROCtoAD (Str s)
  = Ok (Str (gregorianYear (digitsValue 0 y) ++ "-" ++ padStart2 m))
  /\ canonicalYearMonth (Str (gregorianYear (digitsValue 0 y) ++ "-" ++ padStart2 m)) = true.
Proof. exact (convert_long s y m). Qed.

Lemma long_date_converted_witness :
  matchLong "民國112年1月" = Some ("112", "1")
  /\ (digitsValue 0 "112" <= 999)%N
  /\ String.length "1" <= 2
  /\ DataProcessor.convertROCtoAD (Str "民國112年1月") = Ok (Str "2023-01").
Proof.
  assert (H1 : (digitsValue 0 "112" <= 999)%N) by (vm_compute; discriminate).
  assert (H2 : String.length "1" <= 2) by (cbn; lia).
  split; [reflexivity|]. split; [exact H1|]. split; [exact H2|].
  exact (proj1 (long_date_converted "民國112年1月" "112" "1" eq_refl H1 H2)).
Defined.

(** *** The field resolver, beyond rows that are objects *)

(** What the resolver returns is never [undefined] and never the empty
    string: it is a present value or [null]. *)
Theorem getValue_present_or_null (record : value) (fieldNames : list string) (v : value) :
  DataLoader.getValue record fieldNames = Ok v ->
  v = Null \/ DataLoader.present v = true.
Proof.
  induction fieldNames as [|name rest IH]; cbn [DataLoader.getValue].
  - intros H. injection H as <-. left. reflexivity.
  - destruct (get record name) as [w|]; cbn [bind]; [|discriminate].
    destruct (DataLoader.present w) eqn:Hp; [|exact IH].
    intros H. injection H as <-. right. exact Hp.
Qed.

Lemma getValue_present_or_null_witness :
  DataLoader.getValue (Obj [("area", Str ""); ("price", Str "850000")]) ["area"; "price"]
  = Ok (Str "850000")
  /\ (Str "850000" = Null \/ DataLoader.present (Str "850000") = true).
Proof.
  split; [reflexivity|].
  exact (getValue_present_or_null
           (Obj [("area", Str ""); ("price", Str "850000")]) ["area"; "price"] _ eq_refl).
Defined.

(** The resolver raises exactly when it has at least one alias to look up and
    the row is [null] or [undefined]; with no alias it answers [null] even
    then. *)
Theorem getValue_raises_iff (record : value) (fieldNames : list string) :
  DataLoader.getValue record fieldNames = Throw
  <-> fieldNames <> [] /\ (record = Null \/ record = Undefined).
Proof.
  split.
  - induction fieldNames as [|name rest IH]; cbn [DataLoader.getValue]; [discriminate|].
    destruct record; cbn [get bind]; intros H;
      try (split; [discriminate|auto]);
      exfalso;
      (destruct (DataLoader.present _);
       [discriminate|destruct rest; [discriminate|destruct (IH H) as [_ [E|E]]; discriminate]]).
  - intros [Hne [->| ->]]; destruct fieldNames; try congruence; reflexivity.
Qed.

(** Looking a field up under two alias lists put end to end is looking it up
    under the first and, only when that finds nothing, under the second. *)
Theorem getValue_app (record : value) (first second : list string) :
  DataLoader.getValue record (first ++ second)
  = bind (DataLoader.getValue record first)
         (fun v => if DataLoader.present v then Ok v
                   else DataLoader.getValue record second).
Proof.
  induction first as [|name rest IH]; [reflexivity|].
  cbn [app DataLoader.getValue].
  destruct (get record name) as [w|]; cbn [bind]; [|reflexivity].
  destruct (DataLoader.present w) eqn:Hp; [|exact IH].
  cbn [bind]. rewrite Hp. reflexivity.
Qed.

(** *** Runs over concatenated input *)

Lemma loop_append (body : value -> result outcome) (a b : list value) :
  loop body (a ++ b) = append (loop body a) (loop body b).
Proof. apply loop_app. Qed.

(** Each adapter treats its rows one by one: the run over two row sequences
    put end to end is the run over the first followed by the run over the
    second, records in that order and skip counts added. *)
Theorem adapters_concatenate (dateYearMonth : value -> string)
    (a b : list value) (options : DataLoader.Options.t) :
  DataLoader.processCSVRecords (a ++ b) options
  = append (DataLoader.processCSVRecords a options) (DataLoader.processCSVRecords b options)
  /\ DataLoader.processDatabaseRecords dateYearMonth (a ++ b) options
     = append (DataLoader.processDatabaseRecords dateYearMonth a options)
              (DataLoader.processDatabaseRecords dateYearMonth b options)
  /\ (exists ra rb,
        DataLoader.validateAndProcessData (Arr a) options = Ok ra
        /\ DataLoader.validateAndProcessData (Arr b) options = Ok rb
        /\ DataLoader.validateAndProcessData (Arr (a ++ b)) options = Ok (append ra rb)).
Proof.
  split; [apply loop_append|]. split; [apply loop_append|].
  eexists _, _. split; [apply validateAndProcessData_array|].
  split; [apply validateAndProcessData_array|].
  rewrite validateAndProcessData_array, loop_append. reflexivity.
Qed.

(** *** Narrower bounds *)

Lemma filter_of_flat_map {A B : Type} (p : B -> bool) (f : A -> list B) (l : list A) :
  filter p (flat_map f l) = flat_map (fun x => filter p (f x)) l.
Proof.
  induction l as [|x l IH]; [reflexivity|].
  simpl. rewrite filter_app, IH. reflexivity.
Qed.

Lemma loop_filter (p : transaction -> bool) (narrow wide : value -> result outcome)
    (records : list value) :
  (forall record, emitted narrow record = filter p (emitted wide record)) ->
  processedData (loop narrow records) = filter p (processedData (loop wide records)).
Proof.
  intros H. rewrite !loop_processedData, filter_of_flat_map.
  induction records as [|record records IH]; [reflexivity|].
  simpl. rewrite H, IH. reflexivity.
Qed.

Lemma priceOk_narrower (lo hi lo' hi' p : number) :
  le lo lo' = true -> le hi' hi = true ->
  DataLoader.priceOk lo' hi' p = true -> DataLoader.priceOk lo hi p = true.
Proof.
  intros Hlo Hhi Hok.
  destruct (le_notNaN _ _ Hlo) as [Hn1 Hn2], (le_notNaN _ _ Hhi) as [Hn3 Hn4].
  apply (priceOk_iff _ _ _ Hn2 Hn3) in Hok. destruct Hok as (Hp & H1 & H2).
  apply (priceOk_iff _ _ _ Hn1 Hn4). eauto using le_trans.
Qed.

Lemma csv_narrower lo hi lo' hi' buildingTypes mapping record :
  le lo lo' = true -> le hi' hi = true ->
  emitted (DataLoader.processCSVRecord lo' hi' buildingTypes mapping) record
  = filter (fun t => DataLoader.priceOk lo' hi' (priceOf t))
           (emitted (DataLoader.processCSVRecord lo hi buildingTypes mapping) record).
Proof.
  intros Hlo Hhi. unfold emitted, DataLoader.processCSVRecord.
  destruct (DataLoader.getValue record (DataLoader.Mapping.yearMonth mapping)) as [rawDate|];
    cbn [bind]; [|reflexivity].
  destruct (DataLoader.convertDate rawDate) as [[ym|]|]; cbn [bind]; try reflexivity.
  destruct (DataLoader.derivePrice mapping record) as [u|]; cbn [bind]; [|reflexivity].
  destruct (DataLoader.priceOk lo' hi' u) eqn:Hn.
  - rewrite (priceOk_narrower _ _ _ _ _ Hlo Hhi Hn). cbn [negb].
    destruct (DataLoader.getValue record (DataLoader.Mapping.latitude mapping)) as [latv|];
      cbn [bind]; [|reflexivity].
    destruct (DataLoader.getValue record (DataLoader.Mapping.longitude mapping)) as [lngv|];
      cbn [bind]; [|reflexivity].
    destruct (negb (Number.toBoolean (parseFloat latv))
              || negb (Number.toBoolean (parseFloat lngv))); [reflexivity|].
    destruct (DataLoader.getValue record (DataLoader.Mapping.buildingType mapping)) as [bt|];
      cbn [bind]; [|reflexivity].
    destruct (DataLoader.typeRejected buildingTypes bt); [reflexivity|].
    destruct (DataLoader.getValue record (DataLoader.Mapping.area mapping)) as [a|];
      cbn [bind]; [|reflexivity].
    destruct (DataLoader.getValue record (DataLoader.Mapping.address mapping)) as [addr|];
      cbn [bind]; [|reflexivity].
    destruct (DataLoader.getValue record (DataLoader.Mapping.totalPrice mapping)) as [tp|];
      cbn [bind]; [|reflexivity].
    cbn [filter priceOf price]. rewrite Hn. reflexivity.
  - cbn [negb].
    destruct (negb (DataLoader.priceOk lo hi u)); [reflexivity|].
    destruct (DataLoader.getValue record (DataLoader.Mapping.latitude mapping)) as [latv|];
      cbn [bind]; [|reflexivity].
    destruct (DataLoader.getValue record (DataLoader.Mapping.longitude mapping)) as [lngv|];
      cbn [bind]; [|reflexivity].
    destruct (negb (Number.toBoolean (parseFloat latv))
              || negb (Number.toBoolean (parseFloat lngv))); [reflexivity|].
    destruct (DataLoader.getValue record (DataLoader.Mapping.buildingType mapping)) as [bt|];
      cbn [bind]; [|reflexivity].
    destruct (DataLoader.typeRejected buildingTypes bt); [reflexivity|].
    destruct (DataLoader.getValue record (DataLoader.Mapping.area mapping)) as [a|];
      cbn [bind]; [|reflexivity].
    destruct (DataLoader.getValue record (DataLoader.Mapping.address mapping)) as [addr|];
      cbn [bind]; [|reflexivity].
    destruct (DataLoader.getValue record (DataLoader.Mapping.totalPrice mapping)) as [tp|];
      cbn [bind]; [|reflexivity].
    cbn [filter priceOf price]. rewrite Hn. reflexivity.
Qed.

Lemma database_narrower dateYearMonth lo hi lo' hi' buildingTypes record :
  le lo lo' = true -> le hi' hi = true ->
  emitted (DataLoader.processDatabaseRecord dateYearMonth lo' hi' buildingTypes) record
  = filter (fun t => DataLoader.priceOk lo' hi' (priceOf t))
           (emitted (DataLoader.processDatabaseRecord dateYearMonth lo hi buildingTypes) record).
Proof.
  intros Hlo Hhi. unfold emitted, DataLoader.processDatabaseRecord.
  destruct (get record "unit_price") as [up|]; cbn [bind]; [|reflexivity].
  destruct (get record "price") as [p0|]; cbn [bind]; [|reflexivity].
  destruct (DataLoader.priceOk lo' hi' (parseFloat (or up p0))) eqn:Hn.
  - rewrite (priceOk_narrower _ _ _ _ _ Hlo Hhi Hn). cbn [negb].
    repeat (match goal with
            | |- context [bind (get record ?k) _] =>
                destruct (get record k); cbn [bind]; [|reflexivity]
            | |- context [if ?c then Ok Skip else _] => destruct c; [reflexivity|]
            end).
    cbn [filter priceOf price]. rewrite Hn. reflexivity.
  - cbn [negb].
    destruct (negb (DataLoader.priceOk lo hi (parseFloat (or up p0)))); [reflexivity|].
    repeat (match goal with
            | |- context [bind (get record ?k) _] =>
                destruct (get record k); cbn [bind]; [|reflexivity]
            | |- context [if ?c then Ok Skip else _] => destruct c; [reflexivity|]
            end).
    cbn [filter priceOf price]. rewrite Hn. reflexivity.
Qed.

(** Narrowing the price bounds only removes records: with [lo <= lo'] and
    [hi' <= hi], the output under [[lo', hi']] is the output under [[lo, hi]]
    with the records whose price fails the narrower test taken out, in the
    CSV-shaped and in the relational adapter. *)
Theorem narrower_bounds_filter (dateYearMonth : value -> string) (records : list value)
    (lo hi lo' hi' : number) (buildingTypes : option (list value))
    (fieldMapping : DataLoader.FieldMapping.t) :
  le lo lo' = true -> le hi' hi = true ->
  let wide := {| DataLoader.Options.minPrice := Some lo;
                 DataLoader.Options.maxPrice := Some hi;
                 DataLoader.Options.buildingTypes := buildingTypes;
                 DataLoader.Options.fieldMapping := fieldMapping |} in
  let narrow := {| DataLoader.Options.minPrice := Some lo';
                   DataLoader.Options.maxPrice := Some hi';
                   DataLoader.Options.buildingTypes := buildingTypes;
                   DataLoader.Options.fieldMapping := fieldMapping |} in
  processedData (DataLoader.processCSVRecords records narrow)
  = filter (fun t => DataLoader.priceOk lo' hi' (priceOf t))
           (processedData (DataLoader.processCSVRecords records wide))
  /\ processedData (DataLoader.processDatabaseRecords dateYearMonth records narrow)
     = filter (fun t => DataLoader.priceOk lo' hi' (priceOf t))
              (processedData (DataLoader.processDatabaseRecords dateYearMonth records wide)).
Proof.
  intros Hlo Hhi wide narrow. split.
  - apply loop_filter. intros record. apply csv_narrower; assumption.
  - apply loop_filter. intros record. apply database_narrower; assumption.
Qed.

Lemma narrower_bounds_filter_witness :
  le (ofZ 100000) (ofZ 500000) = true
  /\ le (ofZ 1000000) (ofZ 2000000) = true
  /\ map price (processedData
                  (DataLoader.processCSVRecords
                     [Sample.priced "400000"; Sample.priced "850000"]
                     {| DataLoader.Options.minPrice := Some (ofZ 500000);
                        DataLoader.Options.maxPrice := Some (ofZ 1000000);
                        DataLoader.Options.buildingTypes := None;
                        DataLoader.Options.fieldMapping := DataLoader.FieldMapping.empty |}))
     = [Num (ofZ 850000)].
Proof.
  split; [reflexivity|]. split; [reflexivity|].
  rewrite (proj1 (narrower_bounds_filter (fun _ => "")
                    [Sample.priced "400000"; Sample.priced "850000"]
                    (ofZ 100000) (ofZ 2000000) (ofZ 500000) (ofZ 1000000)
                    None DataLoader.FieldMapping.empty eq_refl eq_refl)).
  vm_compute. reflexivity.
Defined.

(** *** The allow-list of building types *)

Lemma sameValueZero_truthy (v x : value) :
  sameValueZero v x = true -> toBoolean x = true -> toBoolean v = true.
Proof.
  destruct v as [| |b|n|s|l|o], x as [| |b'|n'|s'|l'|o']; cbn; try discriminate; try auto.
  - destruct b, b'; auto.
  - destruct n as [sn|sn| |sn mn en], n' as [sx|sx| |sx mx ex]; cbn;
      try discriminate; auto; destruct sx; discriminate.
  - intros H. apply String.eqb_eq in H. subst. auto.
Qed.

Lemma arrayIncludes_truthy (l : list value) (v : value) :
  forallb toBoolean l = true -> arrayIncludes l v = true -> toBoolean v = true.
Proof.
  unfold arrayIncludes. intros Hall Hin. apply existsb_exists in Hin.
  destruct Hin as (x & Hx & Hsame). rewrite forallb_forall in Hall.
  exact (sameValueZero_truthy v x Hsame (Hall x Hx)).
Qed.

Lemma arrayIncludes_falsy (l : list value) (v : value) :
  forallb toBoolean l = true -> toBoolean v = false -> arrayIncludes l v = false.
Proof.
  intros Hall Hv. destruct (arrayIncludes l v) eqn:E; [|reflexivity].
  rewrite (arrayIncludes_truthy l v Hall E) in Hv. discriminate.
Qed.

(** With names that are all truthy, a type is on the list exactly when the
    type as it is written to the record, [type || ''], is. *)
Lemma arrayIncludes_or (l : list value) (v : value) :
  forallb toBoolean l = true ->
  arrayIncludes l (or v (Str "")) = arrayIncludes l v.
Proof.
  intros Hall. unfold or. destruct (toBoolean v) eqn:Hv; [reflexivity|].
  rewrite (arrayIncludes_falsy l v Hall Hv).
  apply arrayIncludes_falsy; [assumption|reflexivity].
Qed.

Lemma typeRejected_cons (x : value) (l : list value) (v : value) :
  DataLoader.typeRejected (x :: l) v = negb (arrayIncludes (x :: l) v).
Proof. reflexivity. Qed.

Lemma csv_allowed minPrice maxPrice allowed mapping record :
  allowed <> [] -> forallb toBoolean allowed = true ->
  emitted (DataLoader.processCSVRecord minPrice maxPrice allowed mapping) record
  = filter (fun t => arrayIncludes allowed (buildingType t))
           (emitted (DataLoader.processCSVRecord minPrice maxPrice [] mapping) record).
Proof.
  intros Hne Hall. destruct allowed as [|x l]; [congruence|].
  unfold emitted, DataLoader.processCSVRecord.
  destruct (DataLoader.getValue record (DataLoader.Mapping.yearMonth mapping)) as [rawDate|];
    cbn [bind]; [|reflexivity].
  destruct (DataLoader.convertDate rawDate) as [[ym|]|]; cbn [bind]; try reflexivity.
  destruct (DataLoader.derivePrice mapping record) as [u|]; cbn [bind]; [|reflexivity].
  destruct (negb (DataLoader.priceOk minPrice maxPrice u)); [reflexivity|].
  destruct (DataLoader.getValue record (DataLoader.Mapping.latitude mapping)) as [latv|];
    cbn [bind]; [|reflexivity].
  destruct (DataLoader.getValue record (DataLoader.Mapping.longitude mapping)) as [lngv|];
    cbn [bind]; [|reflexivity].
  destruct (negb (Number.toBoolean (parseFloat latv))
            || negb (Number.toBoolean (parseFloat lngv))); [reflexivity|].
  destruct (DataLoader.getValue record (DataLoader.Mapping.buildingType mapping)) as [bt|];
    cbn [bind]; [|reflexivity].
  rewrite typeRejected_cons. change (DataLoader.typeRejected [] bt) with false. cbv iota.
  destruct (DataLoader.getValue record (DataLoader.Mapping.area mapping)) as [a|];
    cbn [bind]; [|destruct (negb _); reflexivity].
  destruct (DataLoader.getValue record (DataLoader.Mapping.address mapping)) as [addr|];
    cbn [bind]; [|destruct (negb _); reflexivity].
  destruct (DataLoader.getValue record (DataLoader.Mapping.totalPrice mapping)) as [tp|];
    cbn [bind]; [|destruct (negb _); reflexivity].
  cbn [filter buildingType]. rewrite (arrayIncludes_or (x :: l) bt Hall).
  destruct (arrayIncludes (x :: l) bt); reflexivity.
Qed.

Lemma database_allowed dateYearMonth minPrice maxPrice allowed record :
  allowed <> [] -> forallb toBoolean allowed = true ->
  emitted (DataLoader.processDatabaseRecord dateYearMonth minPrice maxPrice allowed) record
  = filter (fun t => arrayIncludes allowed (buildingType t))
           (emitted (DataLoader.processDatabaseRecord dateYearMonth minPrice maxPrice []) record).
Proof.
  intros Hne Hall. destruct allowed as [|x l]; [congruence|].
  unfold emitted, DataLoader.processDatabaseRecord.
  destruct (get record "unit_price") as [up|]; cbn [bind]; [|reflexivity].
  destruct (get record "price") as [p0|]; cbn [bind]; [|reflexivity].
  destruct (negb (DataLoader.priceOk minPrice maxPrice (parseFloat (or up p0))));
    [reflexivity|].
  destruct (get record "latitude") as [la|]; cbn [bind]; [|reflexivity].
  destruct (get record "lat") as [la0|]; cbn [bind]; [|reflexivity].
  destruct (get record "longitude") as [lo|]; cbn [bind]; [|reflexivity].
  destruct (get record "lng") as [lo0|]; cbn [bind]; [|reflexivity].
  destruct (get record "lon") as [lo1|]; cbn [bind]; [|reflexivity].
  destruct (negb (Number.toBoolean (parseFloat (or la la0)))
            || negb (Number.toBoolean (parseFloat (or (or lo lo0) lo1)))); [reflexivity|].
  destruct (get record "building_type") as [bt|]; cbn [bind]; [|reflexivity].
  rewrite typeRejected_cons. change (DataLoader.typeRejected [] bt) with false. cbv iota.
  destruct (get record "year_month") as [ym|]; cbn [bind]; [|destruct (negb _); reflexivity].
  destruct (get record "transaction_date") as [td|]; cbn [bind];
    [|destruct (negb _); reflexivity].
  destruct (get record "area") as [a|]; cbn [bind]; [|destruct (negb _); reflexivity].
  destruct (get record "address") as [addr|]; cbn [bind]; [|destruct (negb _); reflexivity].
  destruct (get record "total_price") as [tp|]; cbn [bind]; [|destruct (negb _); reflexivity].
  cbn [filter buildingType]. rewrite (arrayIncludes_or (x :: l) bt Hall).
  destruct (arrayIncludes (x :: l) bt); reflexivity.
Qed.

Lemma document_allowed minPrice maxPrice allowed item :
  allowed <> [] -> forallb toBoolean allowed = true ->
  emitted (DataLoader.validateItem minPrice maxPrice allowed) item
  = filter (fun t => arrayIncludes allowed (buildingType t))
           (emitted (DataLoader.validateItem minPrice maxPrice []) item).
Proof.
  intros Hne Hall. destruct allowed as [|x l]; [congruence|].
  unfold emitted, DataLoader.validateItem.
  destruct (get item "position") as [pos|]; cbn [bind]; [|reflexivity].
  destruct (negb (toBoolean pos) || negb (DataLoader.isPair pos)); [reflexivity|].
  destruct (get item "price") as [p|]; cbn [bind]; [|reflexivity].
  destruct (get item "yearMonth") as [ym|]; cbn [bind]; [|reflexivity].
  destruct (negb (toBoolean p) || negb (toBoolean ym)); [reflexivity|].
  destruct (ltNumber p minPrice || gtNumber p maxPrice); [reflexivity|].
  destruct (get item "buildingType") as [bt|]; cbn [bind]; [|reflexivity].
  rewrite typeRejected_cons. change (DataLoader.typeRejected [] bt) with false. cbv iota.
  destruct (get item "area") as [a|]; cbn [bind]; [|destruct (negb _); reflexivity].
  destruct (get item "address") as [addr|]; cbn [bind]; [|destruct (negb _); reflexivity].
  destruct (get item "totalPrice") as [tp|]; cbn [bind]; [|destruct (negb _); reflexivity].
  cbn [filter buildingType]. rewrite (arrayIncludes_or (x :: l) bt Hall).
  destruct (arrayIncludes (x :: l) bt); reflexivity.
Qed.

(** A non-empty allow-list of truthy building types only removes records: in
    each adapter the output under the list is the output without a list,
    restricted to the records whose [buildingType] is on the list. *)
Theorem allow_list_filter (dateYearMonth : value -> string) (records : list value)
    (minPrice maxPrice : option number) (allowed : list value)
    (fieldMapping : DataLoader.FieldMapping.t) :
  allowed <> [] ->
  forallb toBoolean allowed = true ->
  let listed := {| DataLoader.Options.minPrice := minPrice;
                   DataLoader.Options.maxPrice := maxPrice;
                   DataLoader.Options.buildingTypes := Some allowed;
                   DataLoader.Options.fieldMapping := fieldMapping |} in
  let open := {| DataLoader.Options.minPrice := minPrice;
                 DataLoader.Options.maxPrice := maxPrice;
                 DataLoader.Options.buildingTypes := None;
                 DataLoader.Options.fieldMapping := fieldMapping |} in
  processedData (DataLoader.processCSVRecords records listed)
  = filter (fun t => arrayIncludes allowed (buildingType t))
           (processedData (DataLoader.processCSVRecords records open))
  /\ processedData (DataLoader.processDatabaseRecords dateYearMonth records listed)
     = filter (fun t => arrayIncludes allowed (buildingType t))
              (processedData (DataLoader.processDatabaseRecords dateYearMonth records open))
  /\ (exists rl ro,
        DataLoader.validateAndProcessData (Arr records) listed = Ok rl
        /\ DataLoader.validateAndProcessData (Arr records) open = Ok ro
        /\ processedData rl
           = filter (fun t => arrayIncludes allowed (buildingType t)) (processedData ro)).
Proof.
  intros Hne Hall listed open. split; [|split].
  - apply loop_filter. intros record. apply csv_allowed; assumption.
  - apply loop_filter. intros record. apply database_allowed; assumption.
  - eexists _, _. split; [apply validateAndProcessData_array|].
    split; [apply validateAndProcessData_array|].
    apply loop_filter. intros item. apply document_allowed; assumption.
Qed.

Lemma allow_list_filter_witness :
  [Str "華廈"] <> []
  /\ forallb toBoolean [Str "華廈"] = true
  /\ map buildingType
       (processedData
          (DataLoader.processCSVRecords
             [Obj [("yearMonth", Str "2023-01"); ("price", Str "850000");
                   ("latitude", Str "25.03"); ("longitude", Str "121.5");
                   ("buildingType", Str "華廈")];
              Obj [("yearMonth", Str "2023-01"); ("price", Str "850000");
                   ("latitude", Str "25.03"); ("longitude", Str "121.5");
                   ("buildingType", Str "公寓")];
              Sample.priced "850000"]
             {| DataLoader.Options.minPrice := None;
                DataLoader.Options.maxPrice := None;
                DataLoader.Options.buildingTypes := Some [Str "華廈"];
                DataLoader.Options.fieldMapping := DataLoader.FieldMapping.empty |}))
     = [Str "華廈"].
Proof.
  assert (Hne : [Str "華廈"] <> []) by discriminate.
  split; [exact Hne|]. split; [reflexivity|].
  rewrite (proj1 (allow_list_filter (fun _ => "") _ None None [Str "華廈"]
                    DataLoader.FieldMapping.empty Hne eq_refl)).
  vm_compute. reflexivity.
Defined.

(** *** Defaults of the optional fields *)

Lemma orZero_number (n : number) :
  isNaN (orZero n) = false /\ (orZero n = zero \/ Number.toBoolean (orZero n) = true).
Proof. destruct n as [s|s| |s m e]; cbn; auto. Qed.

Lemma or_default (v : value) :
  or v (Str "") = Str "" \/ toBoolean (or v (Str "")) = true.
Proof. unfold or. destruct (toBoolean v) eqn:Hv; auto. Qed.

(** In the CSV-shaped and in the relational adapter the optional fields are
    always filled: [area] and [totalPrice] of every record are numbers, never
    NaN, and zero unless truthy; [address] and [buildingType] are the empty
    string unless truthy. *)
Theorem optional_fields_filled (dateYearMonth : value -> string)
    (records : list value) (options : DataLoader.Options.t) :
  let filled t :=
    (exists a, area t = Num a /\ isNaN a = false
               /\ (a = zero \/ Number.toBoolean a = true))
    /\ (exists p, totalPrice t = Num p /\ isNaN p = false
                  /\ (p = zero \/ Number.toBoolean p = true))
    /\ (address t = Str "" \/ toBoolean (address t) = true)
    /\ (buildingType t = Str "" \/ toBoolean (buildingType t) = true) in
  Forall filled (processedData (DataLoader.processCSVRecords records options))
  /\ Forall filled (processedData (DataLoader.processDatabaseRecords dateYearMonth
                                     records options)).
Proof.
  intros filled. split.
  - apply Forall_loop. intros record t H.
    apply processCSVRecord_emit in H.
    destruct H as (rawDate & ym & u & latv & lngv & bt & a & addr & tp & H).
    destruct H as (_ & _ & _ & _ & _ & _ & _ & _ & _ & _ & _ & _ & _ & ->).
    unfold filled. cbn [area totalPrice address buildingType].
    split; [exists (orZero (parseFloat a)); split; [reflexivity|apply orZero_number]|].
    split; [exists (orZero (parseFloat tp)); split; [reflexivity|apply orZero_number]|].
    split; apply or_default.
  - apply Forall_loop. intros record t H.
    apply processDatabaseRecord_emit in H.
    destruct H as (up & p0 & la & la0 & lo & lo0 & lo1 & bt & ym & td & a & addr & tp & H).
    destruct H as (_ & _ & _ & _ & _ & _ & _ & _ & _ & _ & _ & _ & _ & _ & _ & _ & _ & ->).
    unfold filled. cbn [area totalPrice address buildingType].
    split; [exists (orZero (parseFloat a)); split; [reflexivity|apply orZero_number]|].
    split; [exists (orZero (parseFloat tp)); split; [reflexivity|apply orZero_number]|].
    split; apply or_default.
Qed.

(** *** Validating a validated document again *)

Lemma or_or (v d : value) : or (or v d) d = or v d.
Proof. unfold or. destruct (toBoolean v) eqn:Hv; [rewrite Hv|]; destruct (toBoolean d); reflexivity. Qed.

Lemma typeRejected_or (allowed : list value) (bt : value) :
  forallb toBoolean allowed = true ->
  DataLoader.typeRejected allowed bt = false ->
  DataLoader.typeRejected allowed (or bt (Str "")) = false.
Proof.
  intros Hall. unfold DataLoader.typeRejected.
  rewrite (arrayIncludes_or allowed bt Hall). auto.
Qed.

Lemma validateItem_again minPrice maxPrice allowed item t :
  forallb toBoolean allowed = true ->
  DataLoader.validateItem minPrice maxPrice allowed item = Ok (Emit t) ->
  DataLoader.validateItem minPrice maxPrice allowed (asObject t) = Ok (Emit t).
Proof.
  intros Hall H. apply validateItem_emit in H.
  destruct H as (pos & p & ym & bt & a & addr & tp & H).
  destruct H as (_ & Hpos & Hpair & _ & _ & Hp & Hym & Hlt & Hgt & _ & Hbt & _ & _ & _ & ->).
  unfold DataLoader.validateItem, asObject. cbn [get lookup String.eqb Ascii.eqb Bool.eqb bind
    position price yearMonth area address buildingType totalPrice].
  rewrite Hpos, Hpair, Hp, Hym, Hlt, Hgt. cbn [negb orb].
  rewrite (typeRejected_or allowed bt Hall Hbt), !or_or. reflexivity.
Qed.

Lemma loop_all_emitted (body : value -> result outcome) (encode : transaction -> value)
    (ts : list transaction) :
  (forall t, In t ts -> body (encode t) = Ok (Emit t)) ->
  loop body (map encode ts) = {| processedData := ts; skipped := 0 |}.
Proof.
  intros H. unfold loop. rewrite fold_step. cbn [processedData skipped start app Nat.add].
  f_equal.
  - induction ts as [|t ts IH]; [reflexivity|].
    cbn [map flat_map]. unfold emitted at 1. rewrite (H t (or_introl eq_refl)).
    cbn [app]. f_equal. apply IH. intros t' Ht'. apply H. right. exact Ht'.
  - induction ts as [|t ts IH]; [reflexivity|].
    cbn [map filter]. unfold rejected at 1. rewrite (H t (or_introl eq_refl)).
    apply IH. intros t' Ht'. apply H. right. exact Ht'.
Qed.

(** The document-shaped adapter accepts its own output: with an allow-list
    of truthy names (or none), validating the records of a run again, under
    the same options, returns exactly these records and skips nothing. *)
Theorem validated_documents_stay (items : list value) (options : DataLoader.Options.t)
    (r : run) :
  forallb toBoolean (DataLoader.orDefault (DataLoader.Options.buildingTypes options) []) = true ->
  DataLoader.validateAndProcessData (Arr items) options = Ok r ->
  DataLoader.validateAndProcessData (Arr (map asObject (processedData r))) options
  = Ok {| processedData := processedData r; skipped := 0 |}.
Proof.
  intros Hall Hr. rewrite validateAndProcessData_array in Hr. injection Hr as <-.
  rewrite validateAndProcessData_array. f_equal.
  apply loop_all_emitted. intros t Ht. apply loop_In in Ht.
  destruct Ht as (item & _ & Hitem).
  exact (validateItem_again _ _ _ item t Hall Hitem).
Qed.

Lemma validated_documents_stay_witness :
  exists r,
    DataLoader.validateAndProcessData (Arr [Sample.informal; Null; Sample.unplaced])
      DataLoader.Options.default = Ok r
    /\ DataLoader.validateAndProcessData (Arr (map asObject (processedData r)))
         DataLoader.Options.default
       = Ok {| processedData := processedData r; skipped := 0 |}.
Proof.
  eexists. split; [apply validateAndProcessData_array|].
  exact (validated_documents_stay [Sample.informal; Null; Sample.unplaced]
           DataLoader.Options.default _ eq_refl
           (validateAndProcessData_array _ _)).
Defined.

(** *** The year-month of a database row *)

(** An emitted database row takes its year-month from [year_month] when that
    is truthy, else from [transaction_date] when that is truthy; its
    year-month is [undefined] exactly when both are falsy or missing: such a
    row is not rejected. *)
Theorem database_yearMonth (dateYearMonth : value -> string)
    (minPrice maxPrice : number) (buildingTypes : list value)
    (record : value) (t : transaction) :
  DataLoader.processDatabaseRecord dateYearMonth minPrice maxPrice buildingTypes record
  = Ok (Emit t) ->
  exists ym td,
    get record "year_month" = Ok ym
    /\ get record "transaction_date" = Ok td
    /\ (toBoolean ym = true -> yearMonth t = ym)
    /\ (toBoolean ym = false -> toBoolean td = true ->
        yearMonth t = Str (dateYearMonth td))
    /\ (yearMonth t = Undefined <-> toBoolean ym = false /\ toBoolean td = false).
Proof.
  intros H. apply processDatabaseRecord_emit in H.
  destruct H as (up & p0 & la & la0 & lo & lo0 & lo1 & bt & ym & td & a & addr & tp & H).
  destruct H as (_ & _ & _ & _ & _ & _ & _ & _ & _ & _ & _ & _ & Hym & Htd & _ & _ & _ & ->).
  exists ym, td. cbn [yearMonth]. split; [exact Hym|]. split; [exact Htd|].
  destruct (toBoolean ym) eqn:Hy, (toBoolean td) eqn:Ht;
    (split; [intros; try reflexivity; discriminate|]);
    (split; [intros; try reflexivity; discriminate|]);
    split; try (intros [? ?]; discriminate); try discriminate; auto;
    intros ->; discriminate.
Qed.

Lemma database_yearMonth_witness :
  exists t,
    DataLoader.processDatabaseRecord (fun _ => "2023-01") DataLoader.defaultMinPrice
      DataLoader.defaultMaxPrice [] Sample.daan = Ok (Emit t)
    /\ yearMonth t = Undefined.
Proof.
  assert (H : DataLoader.processDatabaseRecord (fun _ => "2023-01") DataLoader.defaultMinPrice
                DataLoader.defaultMaxPrice [] Sample.daan
              = Ok (Emit {| position := Arr [Sample.num 1215435 (-4); Sample.num 250267 (-4)];
                            price := Sample.num 850000 0;
                            yearMonth := Undefined;
                            area := Num zero;
                            address := Str "";
                            buildingType := Str "";
                            totalPrice := Num zero |}))
    by (vm_compute; reflexivity).
  eexists. split; [exact H|].
  destruct (database_yearMonth _ _ _ _ _ _ H) as (ym & td & Hym & Htd & _ & _ & Hu).
  apply Hu. injection Hym as <-. injection Htd as <-. split; reflexivity.
Defined.

(** *** processRealEstateData *)

Lemma convertROCtoAD_truthy (v ym : value) :
  DataProcessor.convertROCtoAD v = Ok ym -> toBoolean ym = true ->
  exists s, ym = Str s /\ s <> "".
Proof.
  unfold DataProcessor.convertROCtoAD. destruct v as [| |b|n|s|l|o]; try discriminate.
  destruct (matchLong s) as [[y m]|].
  - intros H Ht. injection H as <-. eexists. split; [reflexivity|].
    intros E. rewrite E in Ht. discriminate.
  - destruct (matchCompact s) as [[y m]|].
    + intros H Ht. injection H as <-. eexists. split; [reflexivity|].
      intros E. rewrite E in Ht. discriminate.
    + intros H Ht. injection H as <-. discriminate.
Qed.

Lemma processRecord_emit minPrice maxPrice buildingTypes random drawn record t :
  fst (DataProcessor.processRecord minPrice maxPrice buildingTypes random drawn record)
  = Ok (Emit t) ->
  exists s u b1 b2 addr lng lat a tp,
    s <> ""
    /\ DataProcessor.derivePrice record = Ok u
    /\ DataLoader.priceOk minPrice maxPrice u = true
    /\ get record "建物型態" = Ok b1
    /\ get record "建物現況格局-建物型態" = Ok b2
    /\ DataLoader.typeRejected buildingTypes (or b1 b2) = false
    /\ DataProcessor.joinAddress record = Ok addr
    /\ t = {| position := Arr [Num lng; Num lat];
              price := Num u;
              yearMonth := Str s;
              area := Num (orZero (parseFloat a));
              address := Str addr;
              buildingType := or b1 b2;
              totalPrice := Num (orZero (parseFloat tp)) |}.
Proof.
  unfold DataProcessor.processRecord.
  destruct (get record "交易年月") as [d1|]; cbn [bind fst]; [|discriminate].
  destruct (get record "交易年月日") as [d2|]; cbn [bind fst]; [|discriminate].
  destruct (DataProcessor.convertROCtoAD (or d1 d2)) as [ym|] eqn:Hym; cbn [bind fst];
    [|discriminate].
  destruct (toBoolean ym) eqn:Ht; cbn [negb]; [|discriminate].
  destruct (convertROCtoAD_truthy _ _ Hym Ht) as (s & -> & Hs).
  destruct (DataProcessor.derivePrice record) as [u|]; cbn [bind fst]; [|discriminate].
  destruct (negb (Number.toBoolean u) || lt u minPrice || gt u maxPrice) eqn:Hp;
    [discriminate|].
  destruct (get record "建物型態") as [b1|]; cbn [bind fst]; [|discriminate].
  destruct (get record "建物現況格局-建物型態") as [b2|]; cbn [bind fst]; [|discriminate].
  destruct ((0 <? List.length buildingTypes)%nat
            && negb (arrayIncludes buildingTypes (or b1 b2))) eqn:Hb; [discriminate|].
  destruct (DataProcessor.joinAddress record) as [addr|]; cbn [bind fst]; [|discriminate].
  destruct (DataProcessor.locate random drawn record) as [[[lat lng] d']|]; cbn [bind fst];
    [|discriminate].
  destruct (get record "建物移轉總面積坪") as [a|]; cbn [bind fst]; [|discriminate].
  destruct (get record "總價元") as [tp|]; cbn [bind fst]; [|discriminate].
  intros H. injection H as <-.
  exists s, u, b1, b2, addr, lng, lat, a, tp.
  unfold DataLoader.priceOk. rewrite Hp. repeat split; auto.
Qed.

Lemma registry_fold_Forall (P : transaction -> Prop) minPrice maxPrice buildingTypes random
    (records : list value) :
  (forall drawn record t,
     fst (DataProcessor.processRecord minPrice maxPrice buildingTypes random drawn record)
     = Ok (Emit t) -> P t) ->
  forall st drawn,
    Forall P (processedData st) ->
    Forall P (processedData
                (fst (fold_left
                        (fun '(st, drawn) record =>
                           let '(r, drawn') :=
                             DataProcessor.processRecord minPrice maxPrice buildingTypes
                               random drawn record in
                           (step st r, drawn'))
                        records (st, drawn)))).
Proof.
  intros Hrow. induction records as [|record records IH]; intros st drawn Hst.
  - exact Hst.
  - cbn [fold_left].
    pose proof (Hrow drawn record) as Hr.
    destruct (DataProcessor.processRecord minPrice maxPrice buildingTypes random drawn record)
      as [o drawn'].
    apply IH. destruct o as [[t|]|]; cbn [step processedData]; try exact Hst.
    apply Forall_app. split; [exact Hst|]. constructor; [|constructor].
    apply Hr. reflexivity.
Qed.

(** Every record of [processRealEstateData] has a numeric price within the
    bounds (for bounds that are numbers), a non-empty text as year-month, a
    position of exactly two numbers and a text as address. *)
Theorem registry_records (records : list value) (options : DataProcessor.Options.t)
    (random : nat -> number) :
  let lo := DataProcessor.orDefault (DataProcessor.Options.minPrice options) (ofZ 100000) in
  let hi := DataProcessor.orDefault (DataProcessor.Options.maxPrice options) (ofZ 2000000) in
  isNaN lo = false -> isNaN hi = false ->
  Forall (fun t =>
            numericPriceWithin lo hi t
            /\ (exists s, yearMonth t = Str s /\ s <> "")
            /\ (exists lng lat, position t = Arr [Num lng; Num lat])
            /\ (exists s, address t = Str s))
         (processedData (fst (DataProcessor.processRealEstateData records options random))).
Proof.
  intros lo hi Hlo Hhi. unfold DataProcessor.processRealEstateData.
  apply registry_fold_Forall; [|constructor].
  intros drawn record t H. apply processRecord_emit in H.
  destruct H as (s & u & b1 & b2 & addr & lng & lat & a & tp & H).
  destruct H as (Hs & _ & Hok & _ & _ & _ & _ & ->).
  apply (priceOk_iff _ _ _ Hlo Hhi) in Hok. destruct Hok as (_ & H1 & H2).
  split; [exists u; auto|]. split; [exists s; auto|].
  split; [exists lng, lat; reflexivity|]. exists addr. reflexivity.
Qed.

Lemma registry_records_witness :
  isNaN (ofZ 100000) = false
  /\ isNaN (ofZ 2000000) = false
  /\ Forall (fun t =>
               numericPriceWithin (ofZ 100000) (ofZ 2000000) t
               /\ (exists s, yearMonth t = Str s /\ s <> "")
               /\ (exists lng lat, position t = Arr [Num lng; Num lat])
               /\ (exists s, address t = Str s))
            (processedData (fst (DataProcessor.processRealEstateData
                                   [Sample.unlocated] Sample.plain Sample.midDraws))).
Proof.
  split; [reflexivity|]. split; [reflexivity|].
  exact (registry_records [Sample.unlocated] Sample.plain Sample.midDraws eq_refl eq_refl).
Defined.

(** *** Draws of Math.random *)

Lemma processRecord_draws minPrice maxPrice buildingTypes random drawn record :
  snd (DataProcessor.processRecord minPrice maxPrice buildingTypes random drawn record)
  = drawn + (if accepted minPrice maxPrice buildingTypes record
                && negb (hasCoordinates record) then 2 else 0).
Proof.
  unfold accepted, hasCoordinates, DataProcessor.processRecord.
  destruct (get record "交易年月") as [d1|]; cbn [bind fst snd]; [|cbn; lia].
  destruct (get record "交易年月日") as [d2|]; cbn [bind fst snd]; [|cbn; lia].
  destruct (DataProcessor.convertROCtoAD (or d1 d2)) as [ym|]; cbn [bind fst snd];
    [|cbn; lia].
  destruct (negb (toBoolean ym)); [cbn; lia|].
  destruct (DataProcessor.derivePrice record) as [u|]; cbn [bind fst snd]; [|cbn; lia].
  destruct (negb (Number.toBoolean u) || lt u minPrice || gt u maxPrice); [cbn; lia|].
  destruct (get record "建物型態") as [b1|]; cbn [bind fst snd]; [|cbn; lia].
  destruct (get record "建物現況格局-建物型態") as [b2|]; cbn [bind fst snd]; [|cbn; lia].
  destruct ((0 <? List.length buildingTypes)%nat
            && negb (arrayIncludes buildingTypes (or b1 b2))); [cbn; lia|].
  destruct (DataProcessor.joinAddress record) as [addr|]; cbn [bind fst snd]; [|cbn; lia].
  unfold DataProcessor.locate, DataProcessor.geocodeAddress.
  destruct (get record "緯度") as [lat|]; cbn [bind fst snd]; [|cbn; lia].
  destruct (get record "經度") as [lng|]; cbn [bind fst snd]; [|cbn; lia].
  destruct (toBoolean lat && toBoolean lng); cbn [bind fst snd];
    (destruct (get record "建物移轉總面積坪") as [a|]; cbn [bind fst snd]; [|cbn; lia]);
    (destruct (get record "總價元") as [tp|]; cbn [bind fst snd]; cbn; lia).
Qed.

Lemma registry_fold_draws minPrice maxPrice buildingTypes random (records : list value) :
  forall st drawn,
    snd (fold_left
           (fun '(st, drawn) record =>
              let '(r, drawn') :=
                DataProcessor.processRecord minPrice maxPrice buildingTypes
                  random drawn record in
              (step st r, drawn'))
           records (st, drawn))
    = drawn
      + 2 * List.length
              (filter (fun record => accepted minPrice maxPrice buildingTypes record
                                     && negb (hasCoordinates record)) records).
Proof.
  induction records as [|record records IH]; intros st drawn.
  - cbn. lia.
  - cbn [fold_left filter].
    pose proof (processRecord_draws minPrice maxPrice buildingTypes random drawn record) as Hd.
    destruct (DataProcessor.processRecord minPrice maxPrice buildingTypes random drawn record)
      as [o drawn']. cbn [snd] in Hd. rewrite IH, Hd.
    destruct (accepted minPrice maxPrice buildingTypes record && negb (hasCoordinates record));
      cbn [List.length]; lia.
Qed.

Lemma accepted_emits minPrice maxPrice buildingTypes random drawn record :
  accepted minPrice maxPrice buildingTypes record = true
  <-> exists t,
        fst (DataProcessor.processRecord minPrice maxPrice buildingTypes random drawn record)
        = Ok (Emit t).
Proof.
  unfold accepted.
  pose proof (processRecord_blank minPrice maxPrice buildingTypes
                (fun _ => zero) 0 random drawn record) as Hb.
  destruct (fst (DataProcessor.processRecord minPrice maxPrice buildingTypes
                   (fun _ => zero) 0 record)) as [[t0|]|];
    destruct (fst (DataProcessor.processRecord minPrice maxPrice buildingTypes
                     random drawn record)) as [[t|]|];
    cbn [blank] in Hb; try discriminate;
    (split; [intros H; try discriminate; eauto|intros [t' H]; try discriminate; reflexivity]).
Qed.

(** [processRealEstateData] asks [geocodeAddress] only for the rows it emits
    that lack a coordinate column, and each call draws twice: the number of
    draws of a run is twice the number of such rows.  Skipped rows and rows
    with both coordinate columns filled draw nothing. *)
Theorem draws_of_a_run (records : list value) (options : DataProcessor.Options.t)
    (random : nat -> number) :
  (forall minPrice maxPrice buildingTypes drawn record,
     accepted minPrice maxPrice buildingTypes record = true
     <-> exists t,
           fst (DataProcessor.processRecord minPrice maxPrice buildingTypes
                  random drawn record) = Ok (Emit t))
  /\ snd (DataProcessor.processRealEstateData records options random)
  = 2 * List.length
          (filter (fun record =>
                     accepted
                       (DataProcessor.orDefault (DataProcessor.Options.minPrice options)
                          (ofZ 100000))
                       (DataProcessor.orDefault (DataProcessor.Options.maxPrice options)
                          (ofZ 2000000))
                       (DataProcessor.orDefault (DataProcessor.Options.buildingTypes options) [])
                       record
                     && negb (hasCoordinates record))
                  records).
Proof.
  split; [intros; apply accepted_emits|].
  unfold DataProcessor.processRealEstateData. rewrite registry_fold_draws. lia.
Qed.

(** *** processRealEstateData over concatenated input *)

Lemma processRecord_shift minPrice maxPrice buildingTypes random d k record :
  DataProcessor.processRecord minPrice maxPrice buildingTypes random (d + k) record
  = (fst (DataProcessor.processRecord minPrice maxPrice buildingTypes (shift d random) k record),
     d + snd (DataProcessor.processRecord minPrice maxPrice buildingTypes
                (shift d random) k record)).
Proof.
  unfold DataProcessor.processRecord.
  destruct (get record "交易年月") as [d1|]; cbn [bind fst snd]; [|reflexivity].
  destruct (get record "交易年月日") as [d2|]; cbn [bind fst snd]; [|reflexivity].
  destruct (DataProcessor.convertROCtoAD (or d1 d2)) as [ym|]; cbn [bind fst snd];
    [|reflexivity].
  destruct (negb (toBoolean ym)); [reflexivity|].
  destruct (DataProcessor.derivePrice record) as [u|]; cbn [bind fst snd]; [|reflexivity].
  destruct (negb (Number.toBoolean u) || lt u minPrice || gt u maxPrice); [reflexivity|].
  destruct (get record "建物型態") as [b1|]; cbn [bind fst snd]; [|reflexivity].
  destruct (get record "建物現況格局-建物型態") as [b2|]; cbn [bind fst snd]; [|reflexivity].
  destruct ((0 <? List.length buildingTypes)%nat
            && negb (arrayIncludes buildingTypes (or b1 b2))); [reflexivity|].
  destruct (DataProcessor.joinAddress record) as [addr|]; cbn [bind fst snd]; [|reflexivity].
  unfold DataProcessor.locate, DataProcessor.geocodeAddress, shift.
  destruct (get record "緯度") as [lat|]; cbn [bind fst snd]; [|reflexivity].
  destruct (get record "經度") as [lng|]; cbn [bind fst snd]; [|reflexivity].
  destruct (toBoolean lat && toBoolean lng); cbn [bind fst snd];
    (destruct (get record "建物移轉總面積坪") as [a|]; cbn [bind fst snd]; [|reflexivity]);
    (destruct (get record "總價元") as [tp|]; cbn [bind fst snd]; [|reflexivity]);
    rewrite ?Nat.add_succ_r; reflexivity.
Qed.

Lemma registry_fold_shift minPrice maxPrice buildingTypes random d (records : list value) :
  forall st k,
    fold_left
      (fun '(st, drawn) record =>
         let '(r, drawn') :=
           DataProcessor.processRecord minPrice maxPrice buildingTypes random drawn record in
         (step st r, drawn'))
      records (st, d + k)
    = (fst (fold_left
              (fun '(st, drawn) record =>
                 let '(r, drawn') :=
                   DataProcessor.processRecord minPrice maxPrice buildingTypes
                     (shift d random) drawn record in
                 (step st r, drawn'))
              records (st, k)),
       d + snd (fold_left
                  (fun '(st, drawn) record =>
                     let '(r, drawn') :=
                       DataProcessor.processRecord minPrice maxPrice buildingTypes
                         (shift d random) drawn record in
                     (step st r, drawn'))
                  records (st, k))).
Proof.
  induction records as [|record records IH]; intros st k.
  - reflexivity.
  - cbn [fold_left]. rewrite processRecord_shift.
    destruct (DataProcessor.processRecord minPrice maxPrice buildingTypes
                (shift d random) k record) as [o k'].
    cbn [fst snd]. apply IH.
Qed.

Lemma step_append (st : run) (o : result outcome) :
  step st o = append st (step start o).
Proof.
  destruct st as [pd sk]. unfold append.
  destruct o as [[t|]|]; cbn; rewrite ?app_nil_r, ?Nat.add_0_r, ?Nat.add_1_r; reflexivity.
Qed.

Lemma append_assoc (a b c : run) : append (append a b) c = append a (append b c).
Proof. unfold append. cbn. rewrite app_assoc, Nat.add_assoc. reflexivity. Qed.

Lemma append_start (a : run) : append a start = a.
Proof. destruct a. unfold append. cbn. rewrite app_nil_r, Nat.add_0_r. reflexivity. Qed.

Lemma registry_fold_state minPrice maxPrice buildingTypes random (records : list value) :
  forall st k,
    fold_left
      (fun '(st, drawn) record =>
         let '(r, drawn') :=
           DataProcessor.processRecord minPrice maxPrice buildingTypes random drawn record in
         (step st r, drawn'))
      records (st, k)
    = (append st
         (fst (fold_left
                 (fun '(st, drawn) record =>
                    let '(r, drawn') :=
                      DataProcessor.processRecord minPrice maxPrice buildingTypes
                        random drawn record in
                    (step st r, drawn'))
                 records (start, k))),
       snd (fold_left
              (fun '(st, drawn) record =>
                 let '(r, drawn') :=
                   DataProcessor.processRecord minPrice maxPrice buildingTypes
                     random drawn record in
                 (step st r, drawn'))
              records (start, k))).
Proof.
  induction records as [|record records IH]; intros st k.
  - cbn. rewrite append_start. reflexivity.
  - cbn [fold_left].
    destruct (DataProcessor.processRecord minPrice maxPrice buildingTypes random k record)
      as [o k'].
    rewrite (IH (step st o)), (IH (step start o)). cbn [fst snd].
    rewrite (step_append st o), append_assoc. reflexivity.
Qed.

(** [processRealEstateData] also treats its rows one by one: the run over two
    row sequences put end to end is the run over the first, followed by the
    run over the second on the draws the first has left. *)
Theorem registry_concatenates (a b : list value) (options : DataProcessor.Options.t)
    (random : nat -> number) :
  let first := DataProcessor.processRealEstateData a options random in
  let second := DataProcessor.processRealEstateData b options (shift (snd first) random) in
  DataProcessor.processRealEstateData (a ++ b) options random
  = (append (fst first) (fst second), snd first + snd second).
Proof.
  intros first second. subst first second.
  unfold DataProcessor.processRealEstateData. rewrite fold_left_app.
  destruct (fold_left _ a (start, 0)) as [ra da].
  rewrite registry_fold_state. cbn [fst snd].
  rewrite <- (Nat.add_0_r da) at 1 2.
  rewrite registry_fold_shift. reflexivity.
Qed.

(** *** The loaders *)

(** [loadFromS3] never reads the body as CSV when no format is given, when
    the format is [json], or when the content type mentions
    [application/json]: the JSON route comes first, whatever else the content
    type says. *)
Theorem s3_json_first (jsonParse : string -> result value)
    (csvParse1 csvParse2 : string -> result (list value))
    (fetched : result Loaders.response) (options : Loaders.S3Options.t) :
  Loaders.S3Options.format options = None
  \/ Loaders.S3Options.format options = Some "json"
  \/ (exists r, fetched = Ok r
                /\ Loaders.mentions (Loaders.contentType r) "application/json" = true) ->
  Loaders.loadFromS3 jsonParse csvParse1 fetched options
  = Loaders.loadFromS3 jsonParse csvParse2 fetched options
  /\ (forall r, fetched = Ok r -> Loaders.ok r = true ->
        Loaders.loadFromS3 jsonParse csvParse1 fetched options
        = bind (jsonParse (Loaders.body r))
               (fun data => bind (get data "length")
                  (fun _ => DataLoader.validateAndProcessData data
                              (Loaders.S3Options.processing options)))).
Proof.
  intros H. unfold Loaders.loadFromS3.
  destruct fetched as [r|]; cbn [bind]; [|split; [reflexivity|discriminate]].
  assert (Hjson : String.eqb (DataLoader.orDefault (Loaders.S3Options.format options) "json")
                    "json"
                  || Loaders.mentions (Loaders.contentType r) "application/json" = true).
  { destruct H as [H|[H|(r' & Hr & H)]].
    - rewrite H. reflexivity.
    - rewrite H. reflexivity.
    - injection Hr as <-. rewrite H. apply orb_true_r. }
  rewrite Hjson. split.
  - reflexivity.
  - intros r' Hr Hok. injection Hr as <-. rewrite Hok. reflexivity.
Qed.

Lemma s3_json_first_witness :
  Loaders.loadFromS3 (fun _ => Ok (Arr [Sample.informal])) (fun _ => Ok [Sample.daan])
    (Ok {| Loaders.ok := true; Loaders.contentType := Some "text/csv"; Loaders.body := "" |})
    {| Loaders.S3Options.format := None;
       Loaders.S3Options.processing := DataLoader.Options.default |}
  = Loaders.loadFromS3 (fun _ => Ok (Arr [Sample.informal])) (fun _ => Throw)
      (Ok {| Loaders.ok := true; Loaders.contentType := Some "text/csv"; Loaders.body := "" |})
      {| Loaders.S3Options.format := None;
         Loaders.S3Options.processing := DataLoader.Options.default |}.
Proof.
  exact (proj1 (s3_json_first (fun _ => Ok (Arr [Sample.informal]))
                  (fun _ => Ok [Sample.daan]) (fun _ => Throw)
                  (Ok {| Loaders.ok := true; Loaders.contentType := Some "text/csv";
                         Loaders.body := "" |})
                  {| Loaders.S3Options.format := None;
                     Loaders.S3Options.processing := DataLoader.Options.default |}
                  (or_introl eq_refl))).
Defined.

(** The CSV route of [loadFromS3] is taken exactly on an ok response whose
    content type does not mention [application/json], under a format other
    than [json], when the format is [csv] or the content type mentions
    [text/csv]. *)
Theorem s3_csv_route (jsonParse : string -> result value)
    (csvParse : string -> result (list value))
    (r : Loaders.response) (options : Loaders.S3Options.t) (format : string) :
  Loaders.ok r = true ->
  Loaders.S3Options.format options = Some format ->
  format <> "json" ->
  Loaders.mentions (Loaders.contentType r) "application/json" = false ->
  (format = "csv" \/ Loaders.mentions (Loaders.contentType r) "text/csv" = true ->
   Loaders.loadFromS3 jsonParse csvParse (Ok r) options
   = bind (csvParse (Loaders.body r))
          (fun records => Ok (DataLoader.processCSVRecords records
                                (Loaders.S3Options.processing options))))
  /\ (format <> "csv" -> Loaders.mentions (Loaders.contentType r) "text/csv" = false ->
      Loaders.loadFromS3 jsonParse csvParse (Ok r) options = Throw).
Proof.
  intros Hok Hf Hnj Hct. unfold Loaders.loadFromS3. cbn [bind].
  rewrite Hok, Hf. cbn [negb DataLoader.orDefault].
  apply String.eqb_neq in Hnj. rewrite Hnj, Hct. cbn [orb]. split.
  - intros [->|H]; [reflexivity|]. rewrite H, orb_true_r. reflexivity.
  - intros Hnc H. apply String.eqb_neq in Hnc. rewrite Hnc, H. reflexivity.
Qed.

Lemma s3_csv_route_witness :
  Loaders.loadFromS3 (fun _ => Throw) (fun _ => Ok [Sample.daan; Sample.nowhere])
    (Ok {| Loaders.ok := true; Loaders.contentType := None; Loaders.body := "" |})
    {| Loaders.S3Options.format := Some "csv";
       Loaders.S3Options.processing := DataLoader.Options.default |}
  = Ok (DataLoader.processCSVRecords [Sample.daan; Sample.nowhere] DataLoader.Options.default).
Proof.
  assert (Hne : "csv" <> "json") by discriminate.
  exact (proj1 (s3_csv_route (fun _ => Throw) (fun _ => Ok [Sample.daan; Sample.nowhere])
                  {| Loaders.ok := true; Loaders.contentType := None; Loaders.body := "" |}
                  {| Loaders.S3Options.format := Some "csv";
                     Loaders.S3Options.processing := DataLoader.Options.default |}
                  "csv" eq_refl eq_refl Hne eq_refl) (or_introl eq_refl)).
Defined.

(** A loader that returns has read an array of rows and accounts for each:
    [loadFromS3] succeeds only on an ok response whose body parsed to an array
    (as JSON or as CSV), [loadFromJSON] and [loadFromCSV] only on a file that
    was read and parsed to an array, [loadFromDatabase] only on a query that
    returned rows, and then the output length plus the skipped count is the
    number of rows read. *)
Theorem loaders_account (jsonParse : string -> result value)
    (csvParse : string -> result (list value)) (dateYearMonth : value -> string) :
  (forall fetched options r,
     Loaders.loadFromS3 jsonParse csvParse fetched options = Ok r ->
     exists response rows,
       fetched = Ok response /\ Loaders.ok response = true
       /\ (jsonParse (Loaders.body response) = Ok (Arr rows)
           \/ csvParse (Loaders.body response) = Ok rows)
       /\ List.length (processedData r) + skipped r = List.length rows)
  /\ (forall fileContent options r,
        Loaders.loadFromJSON jsonParse fileContent options = Ok r ->
        exists content rows,
          fileContent = Ok content /\ jsonParse content = Ok (Arr rows)
          /\ List.length (processedData r) + skipped r = List.length rows)
  /\ (forall fileContent options r,
        Loaders.loadFromCSV csvParse fileContent options = Ok r ->
        exists content rows,
          fileContent = Ok content /\ csvParse content = Ok rows
          /\ List.length (processedData r) + skipped r = List.length rows)
  /\ (forall queried options r,
        Loaders.loadFromDatabase dateYearMonth queried options = Ok r ->
        exists rows,
          queried = Ok rows
          /\ List.length (processedData r) + skipped r = List.length rows).
Proof.
  split; [|split; [|split]].
  - intros fetched options r. unfold Loaders.loadFromS3.
    destruct fetched as [response|]; cbn [bind]; [|discriminate].
    destruct (Loaders.ok response) eqn:Hok; cbn [negb]; [|discriminate].
    destruct (String.eqb _ "json" || Loaders.mentions _ "application/json").
    + destruct (jsonParse (Loaders.body response)) as [data|] eqn:Hj; cbn [bind];
        [|discriminate].
      destruct (get data "length"); cbn [bind]; [|discriminate].
      destruct data as [| |b|n|s|items|o]; try discriminate.
      rewrite validateAndProcessData_array. intros H. injection H as <-.
      exists response, items. repeat split; auto. apply loop_total.
    + destruct (String.eqb _ "csv" || Loaders.mentions _ "text/csv"); [|discriminate].
      destruct (csvParse (Loaders.body response)) as [records|] eqn:Hc; cbn [bind];
        [|discriminate].
      intros H. injection H as <-.
      exists response, records. repeat split; auto. apply loop_total.
  - intros fileContent options r. unfold Loaders.loadFromJSON.
    destruct fileContent as [content|]; cbn [bind]; [|discriminate].
    destruct (jsonParse content) as [data|] eqn:Hj; cbn [bind]; [|discriminate].
    destruct (get data "length"); cbn [bind]; [|discriminate].
    destruct data as [| |b|n|s|items|o]; try discriminate.
    rewrite validateAndProcessData_array. intros H. injection H as <-.
    exists content, items. repeat split; auto. apply loop_total.
  - intros fileContent options r. unfold Loaders.loadFromCSV.
    destruct fileContent as [content|]; cbn [bind]; [|discriminate].
    destruct (csvParse content) as [records|] eqn:Hc; cbn [bind]; [|discriminate].
    intros H. injection H as <-.
    exists content, records. repeat split; auto. apply loop_total.
  - intros queried options r. unfold Loaders.loadFromDatabase.
    destruct queried as [rows|]; cbn [bind]; [|discriminate].
    intros H. injection H as <-.
    exists rows. split; [reflexivity|]. apply loop_total.
Qed.

Lemma loaders_account_witness :
  exists content rows,
    Ok "[]" = Ok content
    /\ (fun _ : string => Ok (Arr [Sample.informal; Null])) content = Ok (Arr rows)
    /\ List.length (processedData
                      (loop (DataLoader.validateItem DataLoader.defaultMinPrice
                               DataLoader.defaultMaxPrice []) [Sample.informal; Null]))
       + skipped (loop (DataLoader.validateItem DataLoader.defaultMinPrice
                          DataLoader.defaultMaxPrice []) [Sample.informal; Null])
       = List.length rows.
Proof.
  exact (proj1 (proj2 (loaders_account (fun _ => Ok (Arr [Sample.informal; Null]))
                         (fun _ => Throw) (fun _ => "")))
           (Ok "[]") DataLoader.Options.default _ eq_refl).
Defined.

(** *** The playback controls *)

(** With at least one month, every control keeps the month index within
    [0 .. months - 1]. *)
Theorem month_index_in_range (months : Z) (st : Viz.state) :
  (1 <= months)%Z ->
  (0 <= Viz.currentMonthIndex st <= months - 1)%Z ->
  (0 <= Viz.currentMonthIndex (Viz.handlePrevMonth st) <= months - 1)%Z
  /\ (0 <= Viz.currentMonthIndex (Viz.handleNextMonth months st) <= months - 1)%Z
  /\ (0 <= Viz.currentMonthIndex (Viz.handleReset st) <= months - 1)%Z
  /\ (0 <= Viz.currentMonthIndex (Viz.tick months st) <= months - 1)%Z.
Proof.
  intros Hm Hi. unfold Viz.handlePrevMonth, Viz.handleNextMonth, Viz.handleReset, Viz.tick.
  cbn [Viz.currentMonthIndex].
  repeat split; try lia;
    destruct (Viz.isPlaying st); try lia;
    destruct (Z.leb_spec (months - 1) (Viz.currentMonthIndex st));
    cbn [Viz.currentMonthIndex]; lia.
Qed.

Lemma month_index_in_range_witness :
  (1 <= 24)%Z
  /\ (0 <= 23 <= 24 - 1)%Z
  /\ (0 <= Viz.currentMonthIndex
             (Viz.handleNextMonth 24 {| Viz.currentMonthIndex := 23; Viz.isPlaying := true |})
      <= 24 - 1)%Z.
Proof.
  assert (H1 : (1 <= 24)%Z) by lia.
  assert (H2 : (0 <= 23 <= 24 - 1)%Z) by lia.
  split; [exact H1|]. split; [exact H2|].
  exact (proj1 (proj2 (month_index_in_range 24
                         {| Viz.currentMonthIndex := 23; Viz.isPlaying := true |} H1 H2))).
Defined.

Lemma ticks_to_the_end (months : Z) (k : nat) :
  forall st,
    Viz.isPlaying st = true ->
    (Viz.currentMonthIndex st = months - 1 - Z.of_nat k)%Z ->
    Viz.ticks (S k) months st
    = {| Viz.currentMonthIndex := (months - 1)%Z; Viz.isPlaying := false |}.
Proof.
  induction k as [|k IH]; intros st Hp Hi.
  - cbn [Viz.ticks]. unfold Viz.tick. rewrite Hp.
    destruct (Z.leb_spec (months - 1) (Viz.currentMonthIndex st)); [|lia].
    f_equal. lia.
  - change (Viz.ticks (S (S k)) months st) with (Viz.ticks (S k) months (Viz.tick months st)).
    apply IH.
    + unfold Viz.tick. rewrite Hp.
      destruct (Z.leb_spec (months - 1) (Viz.currentMonthIndex st)); [lia|reflexivity].
    + unfold Viz.tick. rewrite Hp.
      destruct (Z.leb_spec (months - 1) (Viz.currentMonthIndex st)); [lia|].
      cbn [Viz.currentMonthIndex]. lia.
Qed.

(** Auto-play always ends on the last month: started anywhere in range, it
    advances one month per tick and, after as many ticks as there are months
    left plus one, stands on the last month with playing switched off. *)
Theorem playback_stops (months : Z) (st : Viz.state) :
  Viz.isPlaying st = true ->
  (0 <= Viz.currentMonthIndex st <= months - 1)%Z ->
  Viz.ticks (Z.to_nat (months - Viz.currentMonthIndex st)) months st
  = {| Viz.currentMonthIndex := (months - 1)%Z; Viz.isPlaying := false |}.
Proof.
  intros Hp Hi.
  replace (Z.to_nat (months - Viz.currentMonthIndex st))
    with (S (Z.to_nat (months - 1 - Viz.currentMonthIndex st))) by lia.
  apply ticks_to_the_end; [exact Hp|lia].
Qed.

Lemma playback_stops_witness :
  (0 <= 21 <= 24 - 1)%Z
  /\ Viz.ticks 3 24 {| Viz.currentMonthIndex := 21; Viz.isPlaying := true |}
     = {| Viz.currentMonthIndex := 23; Viz.isPlaying := false |}.
Proof.
  assert (H : (0 <= 21 <= 24 - 1)%Z) by lia.
  split; [exact H|].
  exact (playback_stops 24 {| Viz.currentMonthIndex := 21; Viz.isPlaying := true |} eq_refl H).
Defined.

(** Stepping forward and then back returns to the same month, except on the
    last month, where stepping forward stays put and stepping back then
    leaves it; stepping back on the first month stays put. *)
Theorem next_then_previous (months : Z) (st : Viz.state) :
  (0 <= Viz.currentMonthIndex st <= months - 1)%Z ->
  (Viz.currentMonthIndex st < months - 1 ->
   Viz.handlePrevMonth (Viz.handleNextMonth months st) = st)%Z
  /\ (Viz.currentMonthIndex st = months - 1 ->
      Viz.handleNextMonth months st = st)%Z
  /\ (Viz.currentMonthIndex st = 0 -> Viz.handlePrevMonth st = st)%Z.
Proof.
  intros Hi. destruct st as [i p]. cbn [Viz.currentMonthIndex] in *.
  unfold Viz.handlePrevMonth, Viz.handleNextMonth. cbn [Viz.currentMonthIndex Viz.isPlaying].
  repeat split; intros H; f_equal; lia.
Qed.

Lemma next_then_previous_witness :
  (0 <= 5 <= 24 - 1)%Z
  /\ Viz.handlePrevMonth
       (Viz.handleNextMonth 24 {| Viz.currentMonthIndex := 5; Viz.isPlaying := false |})
     = {| Viz.currentMonthIndex := 5; Viz.isPlaying := false |}.
Proof.
  assert (H : (0 <= 5 <= 24 - 1)%Z) by lia.
  assert (H' : (5 < 24 - 1)%Z) by lia.
  split; [exact H|].
  exact (proj1 (next_then_previous 24
                  {| Viz.currentMonthIndex := 5; Viz.isPlaying := false |} H) H').
Defined.

(** *** Era dates in the CSV-shaped adapter *)

(** A record of the CSV-shaped adapter whose raw date contains 年 has a
    canonical year-month when the date holds the long form with an era year
    up to 999 and a month of one or two digits, or no long form but a run of
    five digits; when the date holds neither form the record is still
    emitted, with the year-month [null]. *)
Theorem csv_era_dates minPrice maxPrice buildingTypes mapping record t s :
  DataLoader.processCSVRecord minPrice maxPrice buildingTypes mapping record = Ok (Emit t) ->
  DataLoader.getValue record (DataLoader.Mapping.yearMonth mapping) = Ok (Str s) ->
  includes "年" s = true ->
  (forall y m,
     matchLong s = Some (y, m) -> (digitsValue 0 y <= 999)%N -> String.length m <= 2 ->
     yearMonth t = Str (gregorianYear (digitsValue 0 y) ++ "-" ++ padStart2 m)
     /\ canonicalYearMonth (yearMonth t) = true)
  /\ (forall y m,
        matchLong s = None -> matchCompact s = Some (y, m) ->
        yearMonth t = Str (gregorianYear (digitsValue 0 y) ++ "-" ++ m)
        /\ canonicalYearMonth (yearMonth t) = true)
  /\ (matchLong s = None -> matchCompact s = None -> yearMonth t = Null).
Proof.
  intros H Hraw Hera.
  apply processCSVRecord_emit in H.
  destruct H as (rawDate & ym & u & latv & lngv & bt & a & addr & tp & H).
  destruct H as (Hraw' & Hconv & _ & _ & _ & _ & _ & _ & _ & _ & _ & _ & _ & ->).
  rewrite Hraw in Hraw'. injection Hraw' as <-.
  unfold DataLoader.convertDate in Hconv. rewrite Hera in Hconv. cbn [yearMonth].
  split; [|split].
  - intros y m Hl Hy Hm.
    destruct (convert_long s y m Hl Hy Hm) as [Hc Hcan].
    rewrite Hc in Hconv. cbn [bind] in Hconv. injection Hconv as <-. auto.
  - intros y m Hl Hc.
    destruct (convert_compact s y m Hl Hc) as [Hr Hcan].
    rewrite Hr in Hconv. cbn [bind] in Hconv. injection Hconv as <-. auto.
  - intros Hl Hc. unfold DataProcessor.convertROCtoAD in Hconv.
    rewrite Hl, Hc in Hconv. cbn [bind] in Hconv. injection Hconv as <-. reflexivity.
Qed.

Lemma csv_era_dates_witness :
  exists t,
    DataLoader.processCSVRecord DataLoader.defaultMinPrice DataLoader.defaultMaxPrice []
      DataLoader.defaultMapping (Sample.dated "年") = Ok (Emit t)
    /\ yearMonth t = Null.
Proof.
  assert (H : DataLoader.processCSVRecord DataLoader.defaultMinPrice
                DataLoader.defaultMaxPrice [] DataLoader.defaultMapping (Sample.dated "年")
              = Ok (Emit {| position := Arr [Sample.num 1215 (-1); Sample.num 2503 (-2)];
                            price := Sample.num 850000 0;
                            yearMonth := Null;
                            area := Num zero;
                            address := Str "";
                            buildingType := Str "";
                            totalPrice := Num zero |}))
    by (vm_compute; reflexivity).
  eexists. split; [exact H|].
  exact (proj2 (proj2 (csv_era_dates _ _ _ _ _ _ "年" H eq_refl eq_refl)) eq_refl eq_refl).
Defined.
